(** * Terraform-state dynamic inventory: a shallow embedding of [inventory.py]

    The development follows the script top to bottom: the values [json.load]
    hands to the program, the Python primitives the script applies to them
    (subscripting, [len], truthiness, iteration, dictionary keys), the three
    resource classes with their constructors, the object store the resource
    groups point into, the reference lookup, extraction and the inventory
    builder.  Exceptions are results of type [result]; objects mutated in
    place live in a [heap] and are referred to by address, so that a NIC
    shared by two virtual machines is one object. *)

From stdpp Require Import base option list strings gmap.

Open Scope string_scope.
Open Scope list_scope.
Open Scope Z_scope.

(** ** Values produced by [json.load]

    Numbers are the integral ones; a Python string is a Rocq string. *)

#[warnings="-register-all"]
Inductive json : Type :=
| JNull
| JBool (b : bool)
| JNum (n : Z)
| JStr (s : string)
| JList (l : list json)
| JDict (d : list (string * json)).

(** A JSON object keeps its members in document order. *)
Definition jobject : Type := list (string * json).

(** ** Exceptions

    The four Python exceptions the script can raise on parsed input, and
    [Dangling], which is no Python exception: it marks an address outside the
    object store, which no run of the script produces (see [wf_heap] and
    [run_not_Dangling]). *)

Inductive error : Type :=
| KeyError
| AttributeError
| TypeError
| IndexError
| Dangling.

Inductive result (A : Type) : Type :=
| Ok (a : A)
| Raise (e : error).
Arguments Ok {A} a.
Arguments Raise {A} e.

#[global] Instance result_ret : MRet result := fun _ a => Ok a.
#[global] Instance result_bind : MBind result := fun _ _ f m =>
  match m with
  | Ok a => f a
  | Raise e => Raise e
  end.

(** ** Python primitives on JSON values *)

(** [d[k]] and [k in d] on a mapping with string keys. *)
Fixpoint obj_get (k : string) (d : jobject) : option json :=
  match d with
  | [] => None
  | (k', v) :: d' => if decide (k' = k) then Some v else obj_get k d'
  end.

Definition obj_in (k : string) (d : jobject) : bool :=
  match obj_get k d with Some _ => true | None => false end.

(** [v[k]] for a string [k]: a mapping is searched, anything else cannot be
    subscripted by a string. *)
Definition getitem_str (v : json) (k : string) : result json :=
  match v with
  | JDict d => match obj_get k d with Some x => Ok x | None => Raise KeyError end
  | _ => Raise TypeError
  end.

(** [v[0]]: first element of a list, first character of a string; a mapping
    from [json.load] has no integer key. *)
Definition getitem_0 (v : json) : result json :=
  match v with
  | JList [] => Raise IndexError
  | JList (x :: _) => Ok x
  | JStr EmptyString => Raise IndexError
  | JStr (String c _) => Ok (JStr (String c EmptyString))
  | JDict _ => Raise KeyError
  | _ => Raise TypeError
  end.

(** [len(v)]. *)
Definition len (v : json) : result nat :=
  match v with
  | JList l => Ok (length l)
  | JDict d => Ok (length d)
  | JStr s => Ok (String.length s)
  | _ => Raise TypeError
  end.

(** Truth value of [v] in a condition. *)
Definition truthy (v : json) : bool :=
  match v with
  | JNull => false
  | JBool b => b
  | JNum n => negb (n =? 0)
  | JStr s => negb (bool_decide (s = EmptyString))
  | JList l => negb (bool_decide (l = []))
  | JDict d => negb (bool_decide (d = []))
  end.

Fixpoint chars (s : string) : list json :=
  match s with
  | EmptyString => []
  | String c s' => JStr (String c EmptyString) :: chars s'
  end.

(** [for x in v]: the elements of a list, the keys of a mapping, the
    characters of a string. *)
Definition iter (v : json) : result (list json) :=
  match v with
  | JList l => Ok l
  | JDict d => Ok (map (λ kv, JStr kv.1) d)
  | JStr s => Ok (chars s)
  | _ => Raise TypeError
  end.

(** ** Dictionary keys

    A value used as a dictionary key must be hashable; [True] and [1] (and
    [False] and [0]) are the same key. *)

Inductive pykey : Type :=
| KNone
| KBool (b : bool)
| KInt (n : Z)
| KStr (s : string).

#[global] Instance pykey_eq_dec : EqDecision pykey.
Proof. solve_decision. Defined.

Definition hash (v : json) : result pykey :=
  match v with
  | JNull => Ok KNone
  | JBool b => Ok (KBool b)
  | JNum n => Ok (KInt n)
  | JStr s => Ok (KStr s)
  | JList _ | JDict _ => Raise TypeError
  end.

Definition key_norm (k : pykey) : pykey :=
  match k with
  | KBool b => KInt (if b then 1 else 0)
  | _ => k
  end.

Definition key_eqb (a b : pykey) : bool :=
  bool_decide (key_norm a = key_norm b).

(** An insertion-ordered dictionary: assigning to a key that is already
    there replaces the value where it stands and keeps the key object. *)
Definition pydict (V : Type) : Type := list (pykey * V).

Fixpoint dict_get {V} (k : pykey) (d : pydict V) : option V :=
  match d with
  | [] => None
  | (k', v) :: d' => if key_eqb k' k then Some v else dict_get k d'
  end.

Definition dict_in {V} (k : pykey) (d : pydict V) : bool :=
  match dict_get k d with Some _ => true | None => false end.

Fixpoint dict_set {V} (k : pykey) (v : V) (d : pydict V) : pydict V :=
  match d with
  | [] => [(k, v)]
  | (k', v') :: d' =>
      if key_eqb k' k then (k', v) :: d' else (k', v') :: dict_set k v d'
  end.

Definition dict_keys {V} (d : pydict V) : list pykey := map fst d.

(** ** Resource classes *)

Abbreviation addr := nat.

Module AzureIP.
Record t : Type := mk { id : json; name : json; ip : json }.

Definition init (resource : json) : result t :=
  attributes ← getitem_str resource "attributes";
  id ← getitem_str attributes "id";
  name ← getitem_str attributes "name";
  ip ← getitem_str attributes "ip_address";
  mret (mk id name ip).
End AzureIP.

Module AzureNIC.
(** [public_ip] is [None] for Python's [None]; [public_ip_id] is [None]
    while the attribute has not been set on the object. *)
Record t : Type := mk {
  id : json;
  name : json;
  private_ip : json;
  public_ip : option addr;
  public_ip_id : option json
}.

Definition set_public_ip (p : addr) (n : t) : t :=
  mk (id n) (name n) (private_ip n) (Some p) (public_ip_id n).

Definition init (resource : json) : result t :=
  attributes ← getitem_str resource "attributes";
  id ← getitem_str attributes "id";
  name ← getitem_str attributes "name";
  let attr := attributes in
  private_ip ← getitem_str attr "private_ip_address";
  ip_configuration ← getitem_str attr "ip_configuration";
  if truthy ip_configuration then
    first ← getitem_0 ip_configuration;
    public_ip_id ← getitem_str first "public_ip_address_id";
    mret (mk id name private_ip None (Some public_ip_id))
  else
    mret (mk id name private_ip None None).
End AzureNIC.

Module AzureVM.
(** [nic_id] and [nic] are [None] while the attribute has not been set on
    the object; [user] holds [JNull] for Python's [None]. *)
Record t : Type := mk {
  id : json;
  name : json;
  nic_id : option json;
  user : json;
  nic : option addr
}.

Definition set_nic (n : addr) (vm : t) : t :=
  mk (id vm) (name vm) (nic_id vm) (user vm) (Some n).

Definition init_user (attr : json) : result json :=
  os_profile ← getitem_str attr "os_profile";
  if truthy os_profile then
    first ← getitem_0 os_profile;
    admin_username ← getitem_str first "admin_username";
    if truthy admin_username then mret admin_username else mret JNull
  else mret JNull.

Definition init (resource : json) : result t :=
  attributes ← getitem_str resource "attributes";
  id ← getitem_str attributes "id";
  name ← getitem_str attributes "name";
  let attr := attributes in
  network_interface_ids ← getitem_str attr "network_interface_ids";
  n ← len network_interface_ids;
  nic_id ← (if decide (0 < n)%nat
            then first ← getitem_0 network_interface_ids; mret (Some first)
            else mret None);
  user ← init_user attr;
  mret (mk id name nic_id user None).
End AzureVM.

(** ** The object store

    Every object the extractor creates is appended to the store of its class
    and is known by its position from then on. *)

Record heap : Type := Heap {
  vm_objs : list AzureVM.t;
  nic_objs : list AzureNIC.t;
  ip_objs : list AzureIP.t
}.

Definition empty_heap : heap := Heap [] [] [].

(** Computations that read and write the store and may raise.  The store
    survives an exception, as the objects do in Python. *)
Definition M (A : Type) : Type := heap → heap * result A.

#[global] Instance M_ret : MRet M := λ _ a h, (h, Ok a).
#[global] Instance M_bind : MBind M := λ _ _ f m h,
  match m h with
  | (h', Ok a) => f a h'
  | (h', Raise e) => (h', Raise e)
  end.

Definition lift {A} (r : result A) : M A := λ h, (h, r).
Definition raise {A} (e : error) : M A := λ h, (h, Raise e).

(** Reading an attribute that may not have been set on the object. *)
Definition getattr {A} (o : option A) : M A :=
  match o with Some a => mret a | None => raise AttributeError end.

Definition deref {A} (o : option A) : M A :=
  match o with Some a => mret a | None => raise Dangling end.

Definition load_vm (a : addr) : M AzureVM.t := λ h, deref (vm_objs h !! a) h.
Definition load_nic (a : addr) : M AzureNIC.t := λ h, deref (nic_objs h !! a) h.
Definition load_ip (a : addr) : M AzureIP.t := λ h, deref (ip_objs h !! a) h.

Definition put_vm (a : addr) (o : AzureVM.t) (h : heap) : heap :=
  Heap (<[a := o]> (vm_objs h)) (nic_objs h) (ip_objs h).
Definition put_nic (a : addr) (o : AzureNIC.t) (h : heap) : heap :=
  Heap (vm_objs h) (<[a := o]> (nic_objs h)) (ip_objs h).

Definition store_vm (a : addr) (o : AzureVM.t) : M unit := λ h,
  (put_vm a o h, Ok ()).
Definition store_nic (a : addr) (o : AzureNIC.t) : M unit := λ h,
  (put_nic a o h, Ok ()).

Definition alloc_vm (o : AzureVM.t) : M addr := λ h,
  (Heap (vm_objs h ++ [o]) (nic_objs h) (ip_objs h), Ok (length (vm_objs h))).
Definition alloc_nic (o : AzureNIC.t) : M addr := λ h,
  (Heap (vm_objs h) (nic_objs h ++ [o]) (ip_objs h), Ok (length (nic_objs h))).
Definition alloc_ip (o : AzureIP.t) : M addr := λ h,
  (Heap (vm_objs h) (nic_objs h) (ip_objs h ++ [o]), Ok (length (ip_objs h))).

(** ** Resource groups

    [resources] maps a group alias to its group; a group maps a resource id
    to the object stored under it.  The alias fixes the class, hence the
    store an address of the group points into. *)

Abbreviation group := (pydict addr).
Abbreviation resources := (gmap string group).

(** [resources[alias]]. *)
Definition group_of (rs : resources) (alias : string) : M group :=
  match rs !! alias with Some g => mret g | None => raise KeyError end.

(** ** Reference lookup *)

(** [AzureNIC.lookup]. *)
Definition AzureNIC_lookup (self : addr) (rs : resources) : M unit :=
  ips ← group_of rs "public_ip";
  this ← load_nic self;
  public_ip_id ← getattr (AzureNIC.public_ip_id this);
  k ← lift (hash public_ip_id);
  match dict_get k ips with
  | Some p => store_nic self (AzureNIC.set_public_ip p this)
  | None => mret ()
  end.

(** [AzureVM.lookup]. *)
Definition AzureVM_lookup (self : addr) (rs : resources) : M unit :=
  nics ← group_of rs "nics";
  this ← load_vm self;
  nic_id ← getattr (AzureVM.nic_id this);
  k ← lift (hash nic_id);
  match dict_get k nics with
  | Some n =>
      _ ← store_vm self (AzureVM.set_nic n this);
      AzureNIC_lookup n rs
  | None => mret ()
  end.

(** ** Resource extractor *)

Inductive restype : Type := ClsAzureVM | ClsAzureIP | ClsAzureNIC.

Record typedef : Type := Typedef { alias : string; class : restype }.

(** The class attribute [resource_types]. *)
Definition resource_types : list (string * typedef) :=
  [ ("azurerm_virtual_machine", Typedef "hosts" ClsAzureVM);
    ("azurerm_public_ip", Typedef "public_ip" ClsAzureIP);
    ("azurerm_network_interface", Typedef "nics" ClsAzureNIC) ].

Fixpoint assoc {V} (k : string) (l : list (string * V)) : option V :=
  match l with
  | [] => None
  | (k', v) :: l' => if decide (k' = k) then Some v else assoc k l'
  end.

(** [ty in cls.resource_types] followed by [cls.resource_types[ty]]: the
    membership test hashes [ty]; only a string can equal one of the keys. *)
Definition typedef_of (ty : json) : result (option typedef) :=
  k ← hash ty;
  mret (match k with KStr s => assoc s resource_types | _ => None end).

(** [restype(instance)]: the new object's address and its [id]. *)
Definition construct (c : restype) (instance : json) : M (addr * json) :=
  match c with
  | ClsAzureVM =>
      o ← lift (AzureVM.init instance); a ← alloc_vm o; mret (a, AzureVM.id o)
  | ClsAzureIP =>
      o ← lift (AzureIP.init instance); a ← alloc_ip o; mret (a, AzureIP.id o)
  | ClsAzureNIC =>
      o ← lift (AzureNIC.init instance); a ← alloc_nic o; mret (a, AzureNIC.id o)
  end.

(** The loop of [add_resources_to_group]. *)
Fixpoint add_instances (c : restype) (instances : list json) (g : group)
  : M group :=
  match instances with
  | [] => mret g
  | instance :: rest =>
      '(resource, id) ← construct c instance;
      k ← lift (hash id);
      add_instances c rest (dict_set k resource g)
  end.

Definition add_resources_to_group (g : group) (res : jobject) (c : restype)
  : M group :=
  match obj_get "instances" res with
  | Some v => instances ← lift (iter v); add_instances c instances g
  | None => mret g
  end.

Definition update_resource_group (td : typedef) (rs : resources)
    (res : jobject) : M resources :=
  let name := alias td in
  let g := match rs !! name with Some g => g | None => [] end in
  g' ← add_resources_to_group g res (class td);
  mret (<[name := g']> rs).

(** The loop of [extract_resources]. *)
Fixpoint extract_loop (entries : list json) (rs : resources) : M resources :=
  match entries with
  | [] => mret rs
  | res :: rest =>
      ty ← lift (getitem_str res "type");
      td ← lift (typedef_of ty);
      match td, res with
      | Some td, JDict d =>
          rs' ← update_resource_group td rs d; extract_loop rest rs'
      | Some _, _ => raise TypeError
      | None, _ => extract_loop rest rs
      end
  end.

Definition extract_resources (state : jobject) : M resources :=
  match obj_get "resources" state with
  | Some v => entries ← lift (iter v); extract_loop entries ∅
  | None => mret ∅
  end.

(** ** Inventory builder *)

Definition hostvars_t : Type := jobject.

Record inventory_t : Type := Inventory {
  hostvars : pydict hostvars_t;   (* inventory['_meta']['hostvars'] *)
  all_hosts : list json           (* inventory['all']['hosts'] *)
}.

Definition empty_inventory : inventory_t := Inventory [] [].

Definition add_host_to_inventory (rs : resources) (use_private_ip : bool)
    (inventory : inventory_t) (host : addr) : M inventory_t :=
  _ ← AzureVM_lookup host rs;
  this ← load_vm host;
  k ← lift (hash (AzureVM.name this));
  n ← getattr (AzureVM.nic this);
  nic ← load_nic n;
  ansible_host ←
    match AzureNIC.public_ip nic with
    | Some p =>
        if negb use_private_ip
        then public_ip ← load_ip p; mret (AzureIP.ip public_ip)
        else mret (AzureNIC.private_ip nic)
    | None => mret (AzureNIC.private_ip nic)
    end;
  let hostvars_of_host :=
    ("ansible_host", ansible_host) ::
    (if truthy (AzureVM.user this)
     then [("ansible_user", AzureVM.user this)] else []) in
  mret (Inventory (dict_set k hostvars_of_host (hostvars inventory))
                  (all_hosts inventory ++ [AzureVM.name this])).

(** The loop of [inventory]: [host_id] runs over the keys of the [hosts]
    group and is looked up in it again. *)
Fixpoint inventory_loop (rs : resources) (use_private_ip : bool)
    (hosts : group) (host_ids : list pykey) (inventory : inventory_t)
  : M inventory_t :=
  match host_ids with
  | [] => mret inventory
  | host_id :: rest =>
      host ← match dict_get host_id hosts with
             | Some a => mret a
             | None => raise KeyError
             end;
      inventory' ← add_host_to_inventory rs use_private_ip inventory host;
      inventory_loop rs use_private_ip hosts rest inventory'
  end.

Definition inventory (rs : resources) (use_private_ip : bool)
  : M inventory_t :=
  match rs !! "hosts" with
  | Some hosts =>
      inventory_loop rs use_private_ip hosts (dict_keys hosts) empty_inventory
  | None => mret empty_inventory
  end.

(** [Inventory(state, use_private_ip).inventory()] on a fresh store. *)
Definition run (state : jobject) (use_private_ip : bool)
  : heap * result inventory_t :=
  (rs ← extract_resources state; inventory rs use_private_ip) empty_heap.

(** ** Frames

    What [lookup] may change in an object: the [nic] attribute of a VM, the
    [public_ip] attribute of a NIC, and nothing else. *)

Definition same_but_nic (v v' : AzureVM.t) : Prop :=
  AzureVM.id v = AzureVM.id v' ∧ AzureVM.name v = AzureVM.name v' ∧
  AzureVM.nic_id v = AzureVM.nic_id v' ∧ AzureVM.user v = AzureVM.user v'.

Definition same_but_public_ip (n n' : AzureNIC.t) : Prop :=
  AzureNIC.id n = AzureNIC.id n' ∧ AzureNIC.name n = AzureNIC.name n' ∧
  AzureNIC.private_ip n = AzureNIC.private_ip n' ∧
  AzureNIC.public_ip_id n = AzureNIC.public_ip_id n'.

Definition heap_frame (h h' : heap) : Prop :=
  Forall2 same_but_nic (vm_objs h) (vm_objs h') ∧
  Forall2 same_but_public_ip (nic_objs h) (nic_objs h') ∧
  ip_objs h = ip_objs h'.

(** ** Invariants of the object store *)

(** Straight from the constructors: no reference attached yet. *)
Definition fresh (h : heap) : Prop :=
  Forall (λ vm, AzureVM.nic vm = None) (vm_objs h) ∧
  Forall (λ nic, AzureNIC.public_ip nic = None) (nic_objs h).

(** The object [lookup] attaches, read off the attributes it never
    changes. *)
Definition hash_opt (v : json) : option pykey :=
  match hash v with Ok k => Some k | Raise _ => None end.

Definition vm_target (rs : resources) (vm : AzureVM.t) : option addr :=
  nics ← rs !! "nics"; v ← AzureVM.nic_id vm; k ← hash_opt v; dict_get k nics.

Definition nic_target (rs : resources) (nic : AzureNIC.t) : option addr :=
  ips ← rs !! "public_ip"; v ← AzureNIC.public_ip_id nic; k ← hash_opt v;
  dict_get k ips.

(** Every attached reference is the one [lookup] attaches. *)
Definition linked (rs : resources) (h : heap) : Prop :=
  Forall (λ vm, ∀ n, AzureVM.nic vm = Some n → vm_target rs vm = Some n)
         (vm_objs h) ∧
  Forall (λ nic, ∀ p, AzureNIC.public_ip nic = Some p →
                      nic_target rs nic = Some p)
         (nic_objs h).

(** [h'] is [h] with possibly more references attached. *)
Definition vm_below (v v' : AzureVM.t) : Prop :=
  same_but_nic v v' ∧ ∀ n, AzureVM.nic v = Some n → AzureVM.nic v' = Some n.

Definition nic_below (n n' : AzureNIC.t) : Prop :=
  same_but_public_ip n n' ∧
  ∀ p, AzureNIC.public_ip n = Some p → AzureNIC.public_ip n' = Some p.

Definition below (h h' : heap) : Prop :=
  Forall2 vm_below (vm_objs h) (vm_objs h') ∧
  Forall2 nic_below (nic_objs h) (nic_objs h') ∧
  ip_objs h = ip_objs h'.

(** The store a class lives in, and groups whose addresses are in range of
    the store of their class ([resource_types] pairs alias and class). *)
Definition store_size (c : restype) (h : heap) : nat :=
  match c with
  | ClsAzureVM => length (vm_objs h)
  | ClsAzureIP => length (ip_objs h)
  | ClsAzureNIC => length (nic_objs h)
  end.

Definition in_store (c : restype) (h : heap) (g : group) : Prop :=
  Forall (λ ka, (ka.2 < store_size c h)%nat) g.

Definition wf_heap (rs : resources) (h : heap) : Prop :=
  ∀ ty td g, assoc ty resource_types = Some td →
             rs !! alias td = Some g → in_store (class td) h g.

(** Stores only ever get longer. *)
Definition grows (h h' : heap) : Prop :=
  ∀ c, (store_size c h ≤ store_size c h')%nat.

(** ** Notions the properties are stated with *)

(** The builder called a second time on the same [Inventory] object. *)
Definition run_twice (state : jobject) (use_private_ip : bool)
  : heap * result inventory_t :=
  (rs ← extract_resources state;
   _ ← inventory rs use_private_ip;
   inventory rs use_private_ip) empty_heap.

(** A resource entry of a kind the extractor does not know. *)
Definition unrecognized (res : json) : Prop :=
  ∃ s, getitem_str res "type" = Ok (JStr s) ∧ assoc s resource_types = None.

(** The value the last of the assignments [ws] to key [k] wrote, if any of
    them was to [k]. *)
Fixpoint last_write {V} (k : pykey) (ws : list (pykey * V)) : option V :=
  match ws with
  | [] => None
  | (k', v) :: ws' =>
      match last_write k ws' with
      | Some v' => Some v'
      | None => if key_eqb k' k then Some v else None
      end
  end.

(** An instance whose attribute mapping starts with the member [k]. *)
Definition with_field (k : string) (v : json) (attr : jobject) : json :=
  JDict [("attributes", JDict ((k, v) :: attr))].

(** [h'] holds every object of [h] where it was, and possibly more. *)
Definition extends (h h' : heap) : Prop :=
  vm_objs h `prefix_of` vm_objs h' ∧ nic_objs h `prefix_of` nic_objs h' ∧
  ip_objs h `prefix_of` ip_objs h'.

(** The [id] of the object at [a] in the store of class [c]. *)
Definition id_at (c : restype) (h : heap) (a : addr) : option json :=
  match c with
  | ClsAzureVM => AzureVM.id <$> vm_objs h !! a
  | ClsAzureIP => AzureIP.id <$> ip_objs h !! a
  | ClsAzureNIC => AzureNIC.id <$> nic_objs h !! a
  end.

(** The object at [a] in the store of class [c] is what the constructor of
    [c] makes of [instance], and [k] is its [id] as a dictionary key. *)
Definition built (c : restype) (instance : json) (h : heap) (a : addr)
    (k : pykey) : Prop :=
  match c with
  | ClsAzureVM =>
      ∃ o, AzureVM.init instance = Ok o ∧ vm_objs h !! a = Some o ∧
           hash (AzureVM.id o) = Ok k
  | ClsAzureIP =>
      ∃ o, AzureIP.init instance = Ok o ∧ ip_objs h !! a = Some o ∧
           hash (AzureIP.id o) = Ok k
  | ClsAzureNIC =>
      ∃ o, AzureNIC.init instance = Ok o ∧ nic_objs h !! a = Some o ∧
           hash (AzureNIC.id o) = Ok k
  end.

(** Every key of the group leads to an object of class [c] whose [id] is
    that key. *)
Definition keyed_by_id (c : restype) (h : heap) (g : group) : Prop :=
  ∀ k a, dict_get k g = Some a →
         ∃ i k', id_at c h a = Some i ∧ hash i = Ok k' ∧ key_eqb k' k = true.

(** A per-host variable mapping as [add_host_to_inventory] writes it into
    a document built with flag [use_private_ip]: [ansible_host], then
    possibly [ansible_user]; the address is some NIC's private address, or,
    only when the flag is off, some public IP's address. *)
Definition entry_ok (use_private_ip : bool) (h : heap) (hv : hostvars_t)
  : Prop :=
  ∃ ansible_host,
    (hv = [("ansible_host", ansible_host)] ∨
     ∃ a vm, vm_objs h !! a = Some vm ∧ truthy (AzureVM.user vm) = true ∧
             hv = [("ansible_host", ansible_host);
                   ("ansible_user", AzureVM.user vm)]) ∧
    ((∃ n nic, nic_objs h !! n = Some nic ∧
               ansible_host = AzureNIC.private_ip nic) ∨
     (use_private_ip = false ∧
      ∃ p public_ip, ip_objs h !! p = Some public_ip ∧
                     ansible_host = AzureIP.ip public_ip)).

(** Two documents that differ at most in the values of [ansible_host]. *)
Definition same_but_ansible_host (inv inv' : inventory_t) : Prop :=
  all_hosts inv = all_hosts inv' ∧
  Forall2 (λ e e' : pykey * hostvars_t,
             e.1 = e'.1 ∧
             ∃ ansible_host ansible_host' rest,
               e.2 = ("ansible_host", ansible_host) :: rest ∧
               e'.2 = ("ansible_host", ansible_host') :: rest)
          (hostvars inv) (hostvars inv').

(** The per-host variable mapping lines 140-146 make of a VM, read off the
    store [h]: [None] when the VM has no [nic] or a reference leads
    nowhere. *)
Definition hostvars_of (use_private_ip : bool) (h : heap) (vm : AzureVM.t)
  : option hostvars_t :=
  n ← AzureVM.nic vm;
  nic ← nic_objs h !! n;
  ansible_host ←
    match AzureNIC.public_ip nic with
    | Some p =>
        if use_private_ip then Some (AzureNIC.private_ip nic)
        else AzureIP.ip <$> ip_objs h !! p
    | None => Some (AzureNIC.private_ip nic)
    end;
  Some (("ansible_host", ansible_host) ::
        (if truthy (AzureVM.user vm)
         then [("ansible_user", AzureVM.user vm)] else [])).

(** * Properties *)

(** ** Reasoning about computations in [M] and [result] *)

Ltac unfold_M :=
  unfold group_of, getattr, deref, load_vm, load_nic, load_ip, store_vm,
    store_nic, alloc_vm, alloc_nic, alloc_ip, lift, raise,
    mbind, M_bind, result_bind, mret, M_ret, result_ret in *.

(** ** Dictionary keys and dictionaries *)

Lemma key_eqb_refl k : key_eqb k k = true.
Proof. unfold key_eqb. by apply bool_decide_eq_true. Qed.

Lemma key_eqb_sym a b : key_eqb a b = key_eqb b a.
Proof. unfold key_eqb. apply bool_decide_ext. split; congruence. Qed.

Lemma key_eqb_true a b : key_eqb a b = true ↔ key_norm a = key_norm b.
Proof. unfold key_eqb. apply bool_decide_eq_true. Qed.

Lemma key_eqb_false a b : key_eqb a b = false ↔ key_norm a ≠ key_norm b.
Proof. unfold key_eqb. apply bool_decide_eq_false. Qed.

Lemma key_eqb_trans a b c :
  key_eqb a b = true → key_eqb b c = true → key_eqb a c = true.
Proof. rewrite !key_eqb_true. congruence. Qed.

Lemma key_eqb_congr a b c : key_eqb a b = true → key_eqb a c = key_eqb b c.
Proof.
  rewrite key_eqb_true. intros H. unfold key_eqb.
  apply bool_decide_ext. by rewrite H.
Qed.

Section dict.
Context {V : Type}.
Implicit Types (d : pydict V) (k : pykey) (v : V).

Lemma dict_get_congr k k' d :
  key_eqb k k' = true → dict_get k d = dict_get k' d.
Proof.
  intros H. induction d as [|[k0 v0] d IH]; simpl; [done|].
  rewrite (key_eqb_sym k0 k), (key_eqb_sym k0 k'), (key_eqb_congr _ _ _ H).
  by rewrite IH.
Qed.

Lemma dict_get_set_eq k v d : dict_get k (dict_set k v d) = Some v.
Proof.
  induction d as [|[k0 v0] d IH]; simpl.
  - by rewrite key_eqb_refl.
  - destruct (key_eqb k0 k) eqn:E; simpl; rewrite E; [done|apply IH].
Qed.

Lemma dict_get_set_ne k k' v d :
  key_eqb k k' = false → dict_get k' (dict_set k v d) = dict_get k' d.
Proof.
  intros H. induction d as [|[k0 v0] d IH]; simpl.
  - by rewrite H.
  - destruct (key_eqb k0 k) eqn:E; simpl.
    + by rewrite (key_eqb_congr _ _ k' E), H.
    + by rewrite IH.
Qed.

Lemma dict_get_set k k' v d :
  dict_get k' (dict_set k v d) =
  if key_eqb k k' then Some v else dict_get k' d.
Proof.
  destruct (key_eqb k k') eqn:E.
  - rewrite <- (dict_get_congr _ _ _ E). apply dict_get_set_eq.
  - by apply dict_get_set_ne.
Qed.

Lemma dict_get_Some_elem k v d :
  dict_get k d = Some v → ∃ k0, (k0, v) ∈ d ∧ key_eqb k0 k = true.
Proof.
  induction d as [|[k0 v0] d IH]; simpl; [done|].
  destruct (key_eqb k0 k) eqn:E.
  - intros [= ->]. exists k0. split; [left|done].
  - intros H. destruct (IH H) as (k1 & ? & ?). exists k1. split; [by right|done].
Qed.

Lemma dict_get_None k d :
  dict_get k d = None ↔ ∀ k0 v, (k0, v) ∈ d → key_eqb k0 k = false.
Proof.
  induction d as [|[k0 v0] d IH]; simpl.
  - split; [|done]. intros _ ?? H. by apply elem_of_nil in H.
  - destruct (key_eqb k0 k) eqn:E; split.
    + done.
    + intros H. specialize (H k0 v0 ltac:(left)). congruence.
    + intros H k1 v1 [[= -> ->]|Hin]%elem_of_cons; [done|].
      by eapply IH.
    + intros H. apply IH. intros ?? Hin. eapply H. by right.
Qed.

(** Assignment never drops a key: what was found before is found after. *)
Lemma dict_get_set_is_Some k k' v d :
  is_Some (dict_get k' d) → is_Some (dict_get k' (dict_set k v d)).
Proof. rewrite dict_get_set. by destruct (key_eqb k k'). Qed.

Lemma dict_keys_set k v d :
  dict_keys (dict_set k v d) =
  if dict_in k d then dict_keys d else dict_keys d ++ [k].
Proof.
  unfold dict_in, dict_keys. induction d as [|[k0 v0] d IH]; simpl; [done|].
  destruct (key_eqb k0 k); simpl; [done|].
  rewrite IH. by destruct (dict_get k d).
Qed.

(** The keys of a dictionary stay pairwise different under assignment. *)
Lemma dict_set_NoDup k v d :
  NoDup (key_norm <$> dict_keys d) →
  NoDup (key_norm <$> dict_keys (dict_set k v d)).
Proof.
  intros Hnd. rewrite dict_keys_set. unfold dict_in.
  destruct (dict_get k d) eqn:E; [done|].
  rewrite fmap_app. apply NoDup_app. split; [done|]. split.
  - intros x Hx [->|[]%elem_of_nil]%elem_of_cons.
    apply list_elem_of_fmap in Hx as (k0 & Hk0 & Hin).
    apply list_elem_of_fmap in Hin as ([k1 v1] & -> & Hin).
    rewrite dict_get_None in E. specialize (E _ _ Hin).
    apply key_eqb_false in E. simpl in *. congruence.
  - apply NoDup_singleton.
Qed.
End dict.

(** ** Constructors *)

Lemma getitem_str_Ok v k x :
  getitem_str v k = Ok x ↔ ∃ d, v = JDict d ∧ obj_get k d = Some x.
Proof.
  split.
  - destruct v; simpl; try done. destruct (obj_get k d) eqn:E; [|done].
    intros [= ->]. eauto.
  - intros (d & -> & H). simpl. by rewrite H.
Qed.

Lemma VM_init_nic resource vm :
  AzureVM.init resource = Ok vm → AzureVM.nic vm = None.
Proof.
  unfold AzureVM.init.
  destruct (getitem_str resource "attributes") as [attrs|]; [simpl|done].
  destruct (getitem_str attrs "id"); [simpl|done].
  destruct (getitem_str attrs "name"); [simpl|done].
  destruct (getitem_str attrs "network_interface_ids") as [ids|]; [simpl|done].
  destruct (len ids) as [n|]; [simpl|done].
  destruct (decide (0 < n)%nat); simpl.
  - destruct (getitem_0 ids); [simpl|done].
    destruct (AzureVM.init_user attrs); [simpl|done]. by intros [= <-].
  - destruct (AzureVM.init_user attrs); [simpl|done]. by intros [= <-].
Qed.

Lemma NIC_init_public_ip resource nic :
  AzureNIC.init resource = Ok nic → AzureNIC.public_ip nic = None.
Proof.
  unfold AzureNIC.init.
  destruct (getitem_str resource "attributes") as [attrs|]; [simpl|done].
  destruct (getitem_str attrs "id"); [simpl|done].
  destruct (getitem_str attrs "name"); [simpl|done].
  destruct (getitem_str attrs "private_ip_address"); [simpl|done].
  destruct (getitem_str attrs "ip_configuration") as [c|]; [simpl|done].
  destruct (truthy c); simpl.
  - destruct (getitem_0 c) as [f|]; [simpl|done].
    destruct (getitem_str f _); [simpl|done]. by intros [= <-].
  - by intros [= <-].
Qed.

Lemma VM_init_nic_id resource attrs vm :
  getitem_str resource "attributes" = Ok attrs →
  getitem_str attrs "network_interface_ids" = Ok (JList []) →
  AzureVM.init resource = Ok vm → AzureVM.nic_id vm = None.
Proof.
  intros Ha Hn. unfold AzureVM.init. rewrite Ha. simpl.
  destruct (getitem_str attrs "id"); [simpl|done].
  destruct (getitem_str attrs "name"); [simpl|done].
  rewrite Hn. simpl.
  destruct (AzureVM.init_user attrs); [simpl|done].
  by intros [= <-].
Qed.

Lemma NIC_init_public_ip_id resource attrs nic :
  getitem_str resource "attributes" = Ok attrs →
  getitem_str attrs "ip_configuration" = Ok (JList []) →
  AzureNIC.init resource = Ok nic → AzureNIC.public_ip_id nic = None.
Proof.
  intros Ha Hn. unfold AzureNIC.init. rewrite Ha. simpl.
  destruct (getitem_str attrs "id"); [simpl|done].
  destruct (getitem_str attrs "name"); [simpl|done].
  destruct (getitem_str attrs "private_ip_address"); [simpl|done].
  rewrite Hn. simpl.
  by intros [= <-].
Qed.

(** C3, as stated, fails: an attribute mapping with [id] and [name] but
    without [network_interface_ids] makes the [AzureVM] constructor raise
    [KeyError]; so does a NIC mapping without [ip_configuration]. *)
Lemma init_missing_optional_key_counterexample :
  let attr := [("id", JStr "v1"); ("name", JStr "web1");
               ("private_ip_address", JStr "10.0.0.5")] in
  obj_in "id" attr = true ∧ obj_in "name" attr = true ∧
  obj_in "private_ip_address" attr = true ∧
  AzureVM.init (JDict [("attributes", JDict attr)]) = Raise KeyError ∧
  AzureNIC.init (JDict [("attributes", JDict attr)]) = Raise KeyError.
Proof. by vm_compute. Qed.

(** C3 (amended).  For an attribute mapping holding [id] and [name]:
    the [AzureVM] constructor succeeds when [network_interface_ids] is
    present and empty and [os_profile] is present and empty (or null), and
    then [user] is the explicit [None]; the [AzureNIC] constructor (given
    [private_ip_address]) succeeds when [ip_configuration] is present and
    empty (or null), and then [public_ip] is the explicit [None].  When the
    key of one of these optional structures is missing from the mapping, the
    constructor raises [KeyError]. *)
Theorem init_optional_structures (resource : json) (attr : jobject) (i n : json) :
  getitem_str resource "attributes" = Ok (JDict attr) →
  obj_get "id" attr = Some i →
  obj_get "name" attr = Some n →
  (∀ ids prof,
      obj_get "network_interface_ids" attr = Some ids → len ids = Ok 0%nat →
      obj_get "os_profile" attr = Some prof → truthy prof = false →
      AzureVM.init resource = Ok (AzureVM.mk i n None JNull None)) ∧
  (obj_get "network_interface_ids" attr = None →
      AzureVM.init resource = Raise KeyError) ∧
  (∀ l, obj_get "network_interface_ids" attr = Some (JList l) →
      obj_get "os_profile" attr = None →
      AzureVM.init resource = Raise KeyError) ∧
  (∀ p, obj_get "private_ip_address" attr = Some p →
      (∀ c, obj_get "ip_configuration" attr = Some c → truthy c = false →
          AzureNIC.init resource = Ok (AzureNIC.mk i n p None None)) ∧
      (obj_get "ip_configuration" attr = None →
          AzureNIC.init resource = Raise KeyError)).
Proof.
  intros Hattr Hid Hname.
  unfold AzureVM.init, AzureVM.init_user, AzureNIC.init.
  rewrite Hattr. simpl. rewrite Hid, Hname. simpl.
  split_and!.
  - intros ids prof -> Hlen -> Hprof. simpl. rewrite Hlen. simpl.
    by rewrite Hprof.
  - by intros ->.
  - intros l -> ->. simpl. by destruct l.
  - intros p ->. simpl. split.
    + intros c -> Hc. simpl. by rewrite Hc.
    + by intros ->.
Qed.

Lemma init_optional_structures_witness :
  let attr := [("id", JStr "v1"); ("name", JStr "web1");
               ("network_interface_ids", JList []); ("os_profile", JNull);
               ("private_ip_address", JStr "10.0.0.5");
               ("ip_configuration", JList [])] in
  let resource := JDict [("attributes", JDict attr)] in
  AzureVM.init resource = Ok (AzureVM.mk (JStr "v1") (JStr "web1") None JNull None) ∧
  AzureNIC.init resource =
    Ok (AzureNIC.mk (JStr "v1") (JStr "web1") (JStr "10.0.0.5") None None).
Proof.
  intros attr resource.
  destruct (init_optional_structures resource attr (JStr "v1") (JStr "web1")
              eq_refl eq_refl eq_refl) as (Hvm & _ & _ & Hnic).
  split.
  - apply (Hvm (JList []) JNull); reflexivity.
  - destruct (Hnic (JStr "10.0.0.5") eq_refl) as [Hempty _].
    apply (Hempty (JList [])); reflexivity.
Defined.

(** ** Reference lookup, unfolded *)

Lemma AzureNIC_lookup_unfold self rs h :
  AzureNIC_lookup self rs h =
  match rs !! "public_ip" with
  | None => (h, Raise KeyError)
  | Some ips =>
      match nic_objs h !! self with
      | None => (h, Raise Dangling)
      | Some this =>
          match AzureNIC.public_ip_id this with
          | None => (h, Raise AttributeError)
          | Some v =>
              match hash v with
              | Raise e => (h, Raise e)
              | Ok k =>
                  match dict_get k ips with
                  | Some p =>
                      (put_nic self (AzureNIC.set_public_ip p this) h, Ok ())
                  | None => (h, Ok ())
                  end
              end
          end
      end
  end.
Proof.
  unfold AzureNIC_lookup. unfold_M.
  destruct (rs !! "public_ip"); simpl; [|done].
  destruct (nic_objs h !! self) as [this|]; simpl; [|done].
  destruct (AzureNIC.public_ip_id this) as [v|]; simpl; [|done].
  destruct (hash v); simpl; [|done].
  by destruct (dict_get _ _).
Qed.

Lemma AzureVM_lookup_unfold self rs h :
  AzureVM_lookup self rs h =
  match rs !! "nics" with
  | None => (h, Raise KeyError)
  | Some nics =>
      match vm_objs h !! self with
      | None => (h, Raise Dangling)
      | Some this =>
          match AzureVM.nic_id this with
          | None => (h, Raise AttributeError)
          | Some v =>
              match hash v with
              | Raise e => (h, Raise e)
              | Ok k =>
                  match dict_get k nics with
                  | Some n =>
                      AzureNIC_lookup n rs
                        (put_vm self (AzureVM.set_nic n this) h)
                  | None => (h, Ok ())
                  end
              end
          end
      end
  end.
Proof.
  unfold AzureVM_lookup. unfold_M.
  destruct (rs !! "nics"); simpl; [|done].
  destruct (vm_objs h !! self) as [this|]; simpl; [|done].
  destruct (AzureVM.nic_id this) as [v|]; simpl; [|done].
  destruct (hash v); simpl; [|done].
  by destruct (dict_get _ _).
Qed.

(** C10.  A VM built from a mapping whose [network_interface_ids] is the
    empty list never gets its [nic_id] attribute, and [lookup] on it raises:
    [KeyError] when there is no [nics] group, [AttributeError] otherwise; the
    same holds for a NIC built from an empty [ip_configuration], its
    [public_ip_id] and the [public_ip] group. *)
Theorem lookup_without_reference_id_raises :
  (∀ resource attrs vm a rs h,
      getitem_str resource "attributes" = Ok attrs →
      getitem_str attrs "network_interface_ids" = Ok (JList []) →
      AzureVM.init resource = Ok vm →
      vm_objs h !! a = Some vm →
      AzureVM.nic_id vm = None ∧
      AzureVM_lookup a rs h =
        (h, Raise (if rs !! "nics" is Some _
                   then AttributeError else KeyError))) ∧
  (∀ resource attrs nic a rs h,
      getitem_str resource "attributes" = Ok attrs →
      getitem_str attrs "ip_configuration" = Ok (JList []) →
      AzureNIC.init resource = Ok nic →
      nic_objs h !! a = Some nic →
      AzureNIC.public_ip_id nic = None ∧
      AzureNIC_lookup a rs h =
        (h, Raise (if rs !! "public_ip" is Some _
                   then AttributeError else KeyError))).
Proof.
  split.
  - intros resource attrs vm a rs h Ha Hn Hinit Hvm.
    pose proof (VM_init_nic_id _ _ _ Ha Hn Hinit) as Hnone.
    split; [done|]. rewrite AzureVM_lookup_unfold.
    destruct (rs !! "nics"); [|done]. by rewrite Hvm, Hnone.
  - intros resource attrs nic a rs h Ha Hn Hinit Hnic.
    pose proof (NIC_init_public_ip_id _ _ _ Ha Hn Hinit) as Hnone.
    split; [done|]. rewrite AzureNIC_lookup_unfold.
    destruct (rs !! "public_ip"); [|done]. by rewrite Hnic, Hnone.
Qed.

Lemma lookup_without_reference_id_raises_witness :
  let attrs := JDict [("id", JStr "v1"); ("name", JStr "web1");
                      ("network_interface_ids", JList []);
                      ("os_profile", JList []);
                      ("private_ip_address", JStr "10.0.0.5");
                      ("ip_configuration", JList [])] in
  let resource := JDict [("attributes", attrs)] in
  let vm := AzureVM.mk (JStr "v1") (JStr "web1") None JNull None in
  let nic := AzureNIC.mk (JStr "v1") (JStr "web1") (JStr "10.0.0.5") None None in
  let h := Heap [vm] [nic] [] in
  let rs : resources := {[ "nics" := [] ]} in
  (AzureVM.nic_id vm = None ∧
   AzureVM_lookup 0%nat rs h = (h, Raise AttributeError)) ∧
  (AzureNIC.public_ip_id nic = None ∧
   AzureNIC_lookup 0%nat rs h = (h, Raise KeyError)).
Proof.
  intros attrs resource vm nic h rs. split.
  - exact (proj1 lookup_without_reference_id_raises resource attrs vm 0%nat rs h
             eq_refl eq_refl eq_refl eq_refl).
  - exact (proj2 lookup_without_reference_id_raises resource attrs nic 0%nat rs h
             eq_refl eq_refl eq_refl eq_refl).
Defined.

(** ** What [lookup] changes *)

Lemma put_vm_id a o h : vm_objs h !! a = Some o → put_vm a o h = h.
Proof. intros H. destruct h. unfold put_vm. simpl in *. by rewrite list_insert_id. Qed.

Lemma put_nic_id a o h : nic_objs h !! a = Some o → put_nic a o h = h.
Proof. intros H. destruct h. unfold put_nic. simpl in *. by rewrite list_insert_id. Qed.

#[global] Instance same_but_nic_refl : Reflexive same_but_nic.
Proof. by intros v. Qed.
#[global] Instance same_but_nic_trans : Transitive same_but_nic.
Proof. intros x y z (?&?&?&?) (?&?&?&?). unfold same_but_nic. split_and!; congruence. Qed.
#[global] Instance same_but_public_ip_refl : Reflexive same_but_public_ip.
Proof. by intros v. Qed.
#[global] Instance same_but_public_ip_trans : Transitive same_but_public_ip.
Proof.
  intros x y z (?&?&?&?) (?&?&?&?). unfold same_but_public_ip.
  split_and!; congruence.
Qed.

Lemma heap_frame_refl h : heap_frame h h.
Proof. unfold heap_frame. by split_and!. Qed.

Lemma heap_frame_trans h1 h2 h3 :
  heap_frame h1 h2 → heap_frame h2 h3 → heap_frame h1 h3.
Proof.
  intros (?&?&?) (?&?&?). unfold heap_frame. split_and!.
  - by etrans.
  - by etrans.
  - congruence.
Qed.

Lemma put_vm_frame a o o' h :
  vm_objs h !! a = Some o → same_but_nic o o' → heap_frame h (put_vm a o' h).
Proof.
  intros Ha Ho. unfold heap_frame, put_vm. simpl. split_and!; [|reflexivity|done].
  rewrite <- (list_insert_id (vm_objs h) a o) at 1 by done.
  by apply Forall2_insert.
Qed.

Lemma put_nic_frame a o o' h :
  nic_objs h !! a = Some o → same_but_public_ip o o' →
  heap_frame h (put_nic a o' h).
Proof.
  intros Ha Ho. unfold heap_frame, put_nic. simpl. split_and!; [reflexivity| |done].
  rewrite <- (list_insert_id (nic_objs h) a o) at 1 by done.
  by apply Forall2_insert.
Qed.

Lemma same_but_nic_set_nic n vm : same_but_nic vm (AzureVM.set_nic n vm).
Proof. done. Qed.

Lemma same_but_public_ip_set p nic :
  same_but_public_ip nic (AzureNIC.set_public_ip p nic).
Proof. done. Qed.

Lemma AzureNIC_lookup_frame n rs h : heap_frame h (AzureNIC_lookup n rs h).1.
Proof.
  rewrite AzureNIC_lookup_unfold.
  repeat case_match; simpl; try apply heap_frame_refl.
  eapply put_nic_frame; [done|apply same_but_public_ip_set].
Qed.

Lemma AzureVM_lookup_frame a rs h : heap_frame h (AzureVM_lookup a rs h).1.
Proof.
  rewrite AzureVM_lookup_unfold.
  repeat case_match; simpl; try apply heap_frame_refl.
  eapply heap_frame_trans; [|apply AzureNIC_lookup_frame].
  eapply put_vm_frame; [done|apply same_but_nic_set_nic].
Qed.

(** The VM store after [AzureNIC.lookup], the NIC store away from [n]. *)
Lemma AzureNIC_lookup_vm_objs n rs h :
  vm_objs (AzureNIC_lookup n rs h).1 = vm_objs h.
Proof. rewrite AzureNIC_lookup_unfold. by repeat case_match. Qed.

Lemma AzureNIC_lookup_other n rs h m :
  m ≠ n → nic_objs (AzureNIC_lookup n rs h).1 !! m = nic_objs h !! m.
Proof.
  intros Hne. rewrite AzureNIC_lookup_unfold.
  repeat case_match; simpl; try done. by rewrite list_lookup_insert_ne.
Qed.

Lemma AzureVM_lookup_other_vm a rs h b :
  b ≠ a → vm_objs (AzureVM_lookup a rs h).1 !! b = vm_objs h !! b.
Proof.
  intros Hne. rewrite AzureVM_lookup_unfold.
  repeat case_match; simpl; try done.
  rewrite AzureNIC_lookup_vm_objs. simpl. by rewrite list_lookup_insert_ne.
Qed.

(** After a successful attach the VM's [nic] is the looked-up address. *)
Lemma AzureVM_lookup_nic_changed a rs h n :
  nic_objs (AzureVM_lookup a rs h).1 !! n ≠ nic_objs h !! n →
  ∃ vm', vm_objs (AzureVM_lookup a rs h).1 !! a = Some vm' ∧
         AzureVM.nic vm' = Some n.
Proof.
  rewrite AzureVM_lookup_unfold.
  destruct (rs !! "nics") as [nics|]; [|done].
  destruct (vm_objs h !! a) as [this|] eqn:Ha; [|done].
  destruct (AzureVM.nic_id this) as [v|]; [|done].
  destruct (hash v) as [k|]; [|done].
  destruct (dict_get k nics) as [m|]; [|done].
  rewrite AzureNIC_lookup_vm_objs. simpl.
  intros Hne. destruct (decide (n = m)) as [->|Hn].
  - eexists. split; [apply list_lookup_insert_eq; by eapply lookup_lt_Some|done].
  - by rewrite AzureNIC_lookup_other in Hne.
Qed.

(** C8.  [AzureVM.lookup] receives the lookup tables and has no way to
    hand back changed ones; of the stored records it leaves the public-IP
    records as they are, changes no VM other than [self] and there only the
    [nic] attribute, and changes no NIC other than the one attached to
    [self] and there only the [public_ip] attribute.  Nothing is added to or
    removed from the stores. *)
Theorem lookup_frame (self : addr) (rs : resources) (h : heap) :
  let h' := (AzureVM_lookup self rs h).1 in
  ip_objs h' = ip_objs h ∧
  (∀ a vm, vm_objs h !! a = Some vm →
     ∃ vm', vm_objs h' !! a = Some vm' ∧ same_but_nic vm vm' ∧
            (a ≠ self → vm' = vm)) ∧
  (∀ n nic, nic_objs h !! n = Some nic →
     ∃ nic', nic_objs h' !! n = Some nic' ∧ same_but_public_ip nic nic' ∧
             (nic' ≠ nic →
              ∃ vm', vm_objs h' !! self = Some vm' ∧ AzureVM.nic vm' = Some n)) ∧
  length (vm_objs h') = length (vm_objs h) ∧
  length (nic_objs h') = length (nic_objs h).
Proof.
  simpl. destruct (AzureVM_lookup_frame self rs h) as (Hvm & Hnic & Hip).
  split_and!.
  - done.
  - intros a vm Ha. destruct (Forall2_lookup_l _ _ _ _ _ Hvm Ha) as (vm' & Ha' & Hs).
    exists vm'. split_and!; [done..|]. intros Hne.
    rewrite AzureVM_lookup_other_vm in Ha' by done. congruence.
  - intros n nic Hn. destruct (Forall2_lookup_l _ _ _ _ _ Hnic Hn) as (nic' & Hn' & Hs).
    exists nic'. split_and!; [done..|]. intros Hne.
    apply AzureVM_lookup_nic_changed. congruence.
  - symmetry. by eapply Forall2_length.
  - symmetry. by eapply Forall2_length.
Qed.

(** ** Looking up twice *)

Lemma AzureNIC_lookup_idem n rs h :
  AzureNIC_lookup n rs (AzureNIC_lookup n rs h).1 = AzureNIC_lookup n rs h.
Proof.
  rewrite (AzureNIC_lookup_unfold n rs h).
  destruct (rs !! "public_ip") as [ips|] eqn:Hips;
    [|by simpl; rewrite AzureNIC_lookup_unfold, Hips].
  destruct (nic_objs h !! n) as [this|] eqn:Hn;
    [|by simpl; rewrite AzureNIC_lookup_unfold, Hips, Hn].
  destruct (AzureNIC.public_ip_id this) as [v|] eqn:Hv;
    [|by simpl; rewrite AzureNIC_lookup_unfold, Hips, Hn, Hv].
  destruct (hash v) as [k|] eqn:Hk;
    [|by simpl; rewrite AzureNIC_lookup_unfold, Hips, Hn, Hv, Hk].
  destruct (dict_get k ips) as [p|] eqn:Hp;
    [|by simpl; rewrite AzureNIC_lookup_unfold, Hips, Hn, Hv, Hk, Hp].
  simpl. rewrite AzureNIC_lookup_unfold, Hips. simpl.
  rewrite list_lookup_insert_eq by (by eapply lookup_lt_Some). simpl.
  rewrite Hv, Hk, Hp. f_equal.
  unfold put_nic. simpl. by rewrite list_insert_insert_eq.
Qed.

Lemma AzureVM_lookup_idem (self : addr) (rs : resources) (h : heap) :
  AzureVM_lookup self rs (AzureVM_lookup self rs h).1 = AzureVM_lookup self rs h.
Proof.
  rewrite (AzureVM_lookup_unfold self rs h).
  destruct (rs !! "nics") as [nics|] eqn:Hnics;
    [|by simpl; rewrite AzureVM_lookup_unfold, Hnics].
  destruct (vm_objs h !! self) as [this|] eqn:Ha;
    [|by simpl; rewrite AzureVM_lookup_unfold, Hnics, Ha].
  destruct (AzureVM.nic_id this) as [v|] eqn:Hv;
    [|by simpl; rewrite AzureVM_lookup_unfold, Hnics, Ha, Hv].
  destruct (hash v) as [k|] eqn:Hk;
    [|by simpl; rewrite AzureVM_lookup_unfold, Hnics, Ha, Hv, Hk].
  destruct (dict_get k nics) as [n|] eqn:Hn;
    [|by simpl; rewrite AzureVM_lookup_unfold, Hnics, Ha, Hv, Hk, Hn].
  set (h0 := put_vm self (AzureVM.set_nic n this) h).
  assert (vm_objs (AzureNIC_lookup n rs h0).1 !! self
          = Some (AzureVM.set_nic n this)) as Ha'.
  { rewrite AzureNIC_lookup_vm_objs. simpl.
    apply list_lookup_insert_eq. by eapply lookup_lt_Some. }
  rewrite AzureVM_lookup_unfold, Hnics, Ha'. simpl. rewrite Hv, Hk, Hn.
  rewrite put_vm_id by done. apply AzureNIC_lookup_idem.
Qed.

Lemma lookup_frame_witness :
  let vm := AzureVM.mk (JStr "v1") (JStr "web1") (Some (JStr "n1")) JNull None in
  let nic := AzureNIC.mk (JStr "n1") (JStr "nic1") (JStr "10.0.0.5") None
               (Some (JStr "p1")) in
  let ip := AzureIP.mk (JStr "p1") (JStr "ip1") (JStr "20.1.1.1") in
  let h := Heap [vm] [nic] [ip] in
  let rs : resources :=
    {[ "nics" := [(KStr "n1", 0%nat)]; "public_ip" := [(KStr "p1", 0%nat)] ]} in
  ∃ nic', nic_objs (AzureVM_lookup 0%nat rs h).1 !! 0%nat = Some nic' ∧
          same_but_public_ip nic nic'.
Proof.
  intros vm nic ip h rs.
  destruct (lookup_frame 0%nat rs h) as (_ & _ & Hnic & _).
  destruct (Hnic 0%nat nic eq_refl) as (nic' & Hn & Hs & _).
  exists nic'. by split.
Defined.

(** ** One host of the inventory *)

Lemma add_host_to_inventory_unfold rs b inv host h :
  add_host_to_inventory rs b inv host h =
  match AzureVM_lookup host rs h with
  | (h', Raise e) => (h', Raise e)
  | (h', Ok _) =>
      match vm_objs h' !! host with
      | None => (h', Raise Dangling)
      | Some this =>
          match hash (AzureVM.name this) with
          | Raise e => (h', Raise e)
          | Ok k =>
              match AzureVM.nic this with
              | None => (h', Raise AttributeError)
              | Some n =>
                  match nic_objs h' !! n with
                  | None => (h', Raise Dangling)
                  | Some nic =>
                      let entry ansible_host :=
                        Inventory
                          (dict_set k
                             (("ansible_host", ansible_host) ::
                              (if truthy (AzureVM.user this)
                               then [("ansible_user", AzureVM.user this)]
                               else []))
                             (hostvars inv))
                          (all_hosts inv ++ [AzureVM.name this]) in
                      match AzureNIC.public_ip nic with
                      | Some p =>
                          if b then (h', Ok (entry (AzureNIC.private_ip nic)))
                          else match ip_objs h' !! p with
                               | Some public_ip =>
                                   (h', Ok (entry (AzureIP.ip public_ip)))
                               | None => (h', Raise Dangling)
                               end
                      | None => (h', Ok (entry (AzureNIC.private_ip nic)))
                      end
                  end
              end
          end
      end
  end.
Proof.
  unfold add_host_to_inventory. unfold_M.
  destruct (AzureVM_lookup host rs h) as [h' [[]|e]]; [|done].
  destruct (vm_objs h' !! host) as [this|]; simpl; [|done].
  destruct (hash (AzureVM.name this)) as [k|]; simpl; [|done].
  destruct (AzureVM.nic this) as [n|]; simpl; [|done].
  destruct (nic_objs h' !! n) as [nic|]; simpl; [|done].
  destruct (AzureNIC.public_ip nic) as [p|]; simpl; [|done].
  destruct b; simpl; [done|].
  by destruct (ip_objs h' !! p).
Qed.

Section resolved.
Context (rs : resources) (h : heap) (host : addr).
Context (vm : AzureVM.t) (v : json) (kn : pykey) (nics : group) (n : addr).
Context (nic : AzureNIC.t) (pv : json) (kp : pykey) (ips : group).
Hypothesis Hvm : vm_objs h !! host = Some vm.
Hypothesis Hv : AzureVM.nic_id vm = Some v.
Hypothesis Hkn : hash v = Ok kn.
Hypothesis Hnics : rs !! "nics" = Some nics.
Hypothesis Hn : dict_get kn nics = Some n.
Hypothesis Hnic : nic_objs h !! n = Some nic.
Hypothesis Hpv : AzureNIC.public_ip_id nic = Some pv.
Hypothesis Hkp : hash pv = Ok kp.
Hypothesis Hips : rs !! "public_ip" = Some ips.

Lemma AzureVM_lookup_resolved :
  AzureVM_lookup host rs h =
  (match dict_get kp ips with
   | Some p => put_nic n (AzureNIC.set_public_ip p nic)
                 (put_vm host (AzureVM.set_nic n vm) h)
   | None => put_vm host (AzureVM.set_nic n vm) h
   end, Ok ()).
Proof using All.
  rewrite AzureVM_lookup_unfold. rewrite Hnics, Hvm, Hv, Hkn, Hn.
  rewrite AzureNIC_lookup_unfold, Hips.
  change (nic_objs (put_vm host (AzureVM.set_nic n vm) h)) with (nic_objs h).
  rewrite Hnic, Hpv, Hkp. by destruct (dict_get kp ips).
Qed.

Lemma add_host_to_inventory_resolved b inv k :
  hash (AzureVM.name vm) = Ok k →
  let entry ansible_host :=
    Inventory
      (dict_set k
         (("ansible_host", ansible_host) ::
          (if truthy (AzureVM.user vm)
           then [("ansible_user", AzureVM.user vm)] else []))
         (hostvars inv))
      (all_hosts inv ++ [AzureVM.name vm]) in
  add_host_to_inventory rs b inv host h =
  match dict_get kp ips with
  | Some p =>
      let h' := put_nic n (AzureNIC.set_public_ip p nic)
                  (put_vm host (AzureVM.set_nic n vm) h) in
      if b then (h', Ok (entry (AzureNIC.private_ip nic)))
      else match ip_objs h !! p with
           | Some public_ip => (h', Ok (entry (AzureIP.ip public_ip)))
           | None => (h', Raise Dangling)
           end
  | None =>
      let h' := put_vm host (AzureVM.set_nic n vm) h in
      match AzureNIC.public_ip nic with
      | Some p =>
          if b then (h', Ok (entry (AzureNIC.private_ip nic)))
          else match ip_objs h !! p with
               | Some public_ip => (h', Ok (entry (AzureIP.ip public_ip)))
               | None => (h', Raise Dangling)
               end
      | None => (h', Ok (entry (AzureNIC.private_ip nic)))
      end
  end.
Proof using All.
  intros Hk entry.
  rewrite add_host_to_inventory_unfold, AzureVM_lookup_resolved.
  assert (host < length (vm_objs h))%nat by by eapply lookup_lt_Some.
  assert (n < length (nic_objs h))%nat by by eapply lookup_lt_Some.
  destruct (dict_get kp ips) as [p|]; simpl.
  - rewrite list_lookup_insert_eq by done. simpl. rewrite Hk.
    by rewrite list_lookup_insert_eq by done.
  - rewrite list_lookup_insert_eq by done. simpl. by rewrite Hk, Hnic.
Qed.
End resolved.

(** C1.  Take a VM whose [nic_id] is a key of the [nics] group, whose NIC
    carries a [public_ip_id], with a [public_ip] group present and a hashable
    VM name.  Then [add_host_to_inventory] succeeds and stores under the VM's
    name an entry whose [ansible_host] is: the public IP's [ip] when the
    NIC's [public_ip_id] is a key of the [public_ip] group and
    [use_private_ip] is false; the NIC's [private_ip] when [use_private_ip]
    is true; and the NIC's [private_ip], whatever the flag, when the
    [public_ip_id] is no key of the group (the NIC's [public_ip] being
    [None], as the constructor leaves it).  And whenever
    [add_host_to_inventory] returns at all, the [ansible_host] it stored is
    the [ip] of the attached NIC's [public_ip] if there is one and
    [use_private_ip] is false, and the NIC's [private_ip] in every other
    case. *)
Theorem ansible_host_selection :
  (∀ (rs : resources) (use_private_ip : bool) (inv : inventory_t) (h : heap)
     (host : addr) (vm : AzureVM.t) (v : json) (kn : pykey) (nics : group)
     (n : addr) (nic : AzureNIC.t) (pv : json) (kp : pykey) (ips : group)
     (k : pykey),
     vm_objs h !! host = Some vm →
     AzureVM.nic_id vm = Some v → hash v = Ok kn →
     rs !! "nics" = Some nics → dict_get kn nics = Some n →
     nic_objs h !! n = Some nic →
     AzureNIC.public_ip_id nic = Some pv → hash pv = Ok kp →
     rs !! "public_ip" = Some ips →
     hash (AzureVM.name vm) = Ok k →
     (∀ p public_ip,
         dict_get kp ips = Some p → ip_objs h !! p = Some public_ip →
         ∃ h' inv' hv,
           add_host_to_inventory rs use_private_ip inv host h = (h', Ok inv') ∧
           dict_get k (hostvars inv') = Some hv ∧
           obj_get "ansible_host" hv =
             Some (if use_private_ip then AzureNIC.private_ip nic
                   else AzureIP.ip public_ip)) ∧
     (dict_get kp ips = None → AzureNIC.public_ip nic = None →
         ∃ h' inv' hv,
           add_host_to_inventory rs use_private_ip inv host h = (h', Ok inv') ∧
           dict_get k (hostvars inv') = Some hv ∧
           obj_get "ansible_host" hv = Some (AzureNIC.private_ip nic))) ∧
  (∀ (rs : resources) (use_private_ip : bool) (inv : inventory_t)
     (host : addr) (h h' : heap) (inv' : inventory_t),
     add_host_to_inventory rs use_private_ip inv host h = (h', Ok inv') →
     ∃ vm n nic k hv ansible_host,
       vm_objs h' !! host = Some vm ∧ AzureVM.nic vm = Some n ∧
       nic_objs h' !! n = Some nic ∧ hash (AzureVM.name vm) = Ok k ∧
       dict_get k (hostvars inv') = Some hv ∧
       obj_get "ansible_host" hv = Some ansible_host ∧
       match AzureNIC.public_ip nic with
       | Some p =>
           if use_private_ip then ansible_host = AzureNIC.private_ip nic
           else ∃ public_ip, ip_objs h' !! p = Some public_ip ∧
                             ansible_host = AzureIP.ip public_ip
       | None => ansible_host = AzureNIC.private_ip nic
       end).
Proof.
  split.
  - intros rs use_private_ip inv h host vm v kn nics n nic pv kp ips k
      Hvm Hv Hkn Hnics Hn Hnic Hpv Hkp Hips Hk.
    rewrite (add_host_to_inventory_resolved rs h host vm v kn nics n nic pv kp
               ips Hvm Hv Hkn Hnics Hn Hnic Hpv Hkp Hips use_private_ip inv k
               Hk).
    split.
    + intros p public_ip -> Hp. simpl. rewrite Hp.
      destruct use_private_ip; do 3 eexists;
        (split; [done|]); simpl; by rewrite dict_get_set_eq.
    + intros -> ->. do 3 eexists.
      (split; [done|]); simpl; by rewrite dict_get_set_eq.
  - intros rs b inv host h h' inv'. rewrite add_host_to_inventory_unfold.
    destruct (AzureVM_lookup host rs h) as [h1 [[]|e]]; [|done].
    destruct (vm_objs h1 !! host) as [this|] eqn:Hthis; [|done].
    destruct (hash (AzureVM.name this)) as [k|] eqn:Hk; [|done].
    destruct (AzureVM.nic this) as [n|] eqn:Hn; [|done].
    destruct (nic_objs h1 !! n) as [nic|] eqn:Hnic; [|done].
    destruct (AzureNIC.public_ip nic) as [p|] eqn:Hp.
    + destruct b.
      * intros [= <- <-].
        exists this, n, nic, k. do 2 eexists.
        split_and!; [done..|apply dict_get_set_eq|reflexivity|].
        by rewrite Hp.
      * destruct (ip_objs h1 !! p) as [ipo|] eqn:Hipo; [|done].
        intros [= <- <-].
        exists this, n, nic, k. do 2 eexists.
        split_and!; [done..|apply dict_get_set_eq|reflexivity|].
        rewrite Hp. by exists ipo.
    + intros [= <- <-].
      exists this, n, nic, k. do 2 eexists.
      split_and!; [done..|apply dict_get_set_eq|reflexivity|].
      by rewrite Hp.
Qed.

Lemma ansible_host_selection_witness :
  let vm := AzureVM.mk (JStr "v1") (JStr "web1") (Some (JStr "n1")) JNull None in
  let nic := AzureNIC.mk (JStr "n1") (JStr "nic1") (JStr "10.0.0.5") None
               (Some (JStr "p1")) in
  let ip := AzureIP.mk (JStr "p1") (JStr "ip1") (JStr "20.1.1.1") in
  let h := Heap [vm] [nic] [ip] in
  let rs : resources :=
    {[ "hosts" := [(KStr "v1", 0%nat)]; "nics" := [(KStr "n1", 0%nat)];
       "public_ip" := [(KStr "p1", 0%nat)] ]} in
  ∃ h' inv' hv,
    add_host_to_inventory rs false empty_inventory 0%nat h = (h', Ok inv') ∧
    dict_get (KStr "web1") (hostvars inv') = Some hv ∧
    obj_get "ansible_host" hv = Some (JStr "20.1.1.1").
Proof.
  intros vm nic ip h rs.
  destruct (proj1 ansible_host_selection rs false empty_inventory h 0%nat vm
              (JStr "n1") (KStr "n1") [(KStr "n1", 0%nat)] 0%nat nic
              (JStr "p1") (KStr "p1") [(KStr "p1", 0%nat)] (KStr "web1")
              eq_refl eq_refl eq_refl eq_refl eq_refl eq_refl eq_refl eq_refl
              eq_refl eq_refl) as [Hpublic _].
  exact (Hpublic 0%nat ip eq_refl eq_refl).
Defined.


Lemma add_host_to_inventory_Ok rs b inv host h h' inv' :
  add_host_to_inventory rs b inv host h = (h', Ok inv') →
  ∃ vm' k n nic ansible_host,
    AzureVM_lookup host rs h = (h', Ok ()) ∧
    vm_objs h' !! host = Some vm' ∧ hash (AzureVM.name vm') = Ok k ∧
    AzureVM.nic vm' = Some n ∧ nic_objs h' !! n = Some nic ∧
    inv' = Inventory
             (dict_set k
                (("ansible_host", ansible_host) ::
                 (if truthy (AzureVM.user vm')
                  then [("ansible_user", AzureVM.user vm')] else []))
                (hostvars inv))
             (all_hosts inv ++ [AzureVM.name vm']).
Proof.
  rewrite add_host_to_inventory_unfold.
  destruct (AzureVM_lookup host rs h) as [h1 [[]|e]]; [|done].
  destruct (vm_objs h1 !! host) as [this|] eqn:Hthis; [|done].
  destruct (hash (AzureVM.name this)) as [k|] eqn:Hk; [|done].
  destruct (AzureVM.nic this) as [n|] eqn:Hn; [|done].
  destruct (nic_objs h1 !! n) as [nic|] eqn:Hnic; [|done].
  destruct (AzureNIC.public_ip nic) as [p|].
  - destruct b.
    + intros [= <- <-]. by exists this, k, n, nic, (AzureNIC.private_ip nic).
    + destruct (ip_objs h1 !! p) as [ipo|]; [|done].
      intros [= <- <-]. by exists this, k, n, nic, (AzureIP.ip ipo).
  - intros [= <- <-]. by exists this, k, n, nic, (AzureNIC.private_ip nic).
Qed.



(** ** Attached references only grow *)

#[global] Instance vm_below_refl : Reflexive vm_below.
Proof. by intros v. Qed.
#[global] Instance vm_below_trans : Transitive vm_below.
Proof. intros x y z [? Hxy] [? Hyz]. split; [by etrans|]. auto. Qed.
#[global] Instance nic_below_refl : Reflexive nic_below.
Proof. by intros v. Qed.
#[global] Instance nic_below_trans : Transitive nic_below.
Proof. intros x y z [? Hxy] [? Hyz]. split; [by etrans|]. auto. Qed.

#[global] Instance below_refl : Reflexive below.
Proof. intros h. unfold below. split_and!; reflexivity. Qed.
#[global] Instance below_trans : Transitive below.
Proof.
  intros h1 h2 h3 (?&?&?) (?&?&?). unfold below.
  split_and!; [by etrans..|congruence].
Qed.

Lemma below_put_vm a o o' h :
  vm_objs h !! a = Some o → vm_below o o' → below h (put_vm a o' h).
Proof.
  intros Ha Ho. unfold below, put_vm. simpl. split_and!; [|reflexivity|done].
  rewrite <- (list_insert_id (vm_objs h) a o) at 1 by done.
  by apply Forall2_insert.
Qed.

Lemma below_put_nic a o o' h :
  nic_objs h !! a = Some o → nic_below o o' → below h (put_nic a o' h).
Proof.
  intros Ha Ho. unfold below, put_nic. simpl. split_and!; [reflexivity| |done].
  rewrite <- (list_insert_id (nic_objs h) a o) at 1 by done.
  by apply Forall2_insert.
Qed.

Lemma fresh_linked rs h : fresh h → linked rs h.
Proof.
  intros [Hvm Hnic]. split.
  - eapply Forall_impl; [done|]. simpl. intros vm -> ?. done.
  - eapply Forall_impl; [done|]. simpl. intros nic -> ?. done.
Qed.

Lemma vm_target_eq rs vm nics v k :
  rs !! "nics" = Some nics → AzureVM.nic_id vm = Some v → hash v = Ok k →
  vm_target rs vm = dict_get k nics.
Proof.
  intros Hn Hv Hk. unfold vm_target, hash_opt. rewrite Hn. simpl.
  rewrite Hv. simpl. by rewrite Hk.
Qed.

Lemma nic_target_eq rs nic ips v k :
  rs !! "public_ip" = Some ips → AzureNIC.public_ip_id nic = Some v →
  hash v = Ok k → nic_target rs nic = dict_get k ips.
Proof.
  intros Hn Hv Hk. unfold nic_target, hash_opt. rewrite Hn. simpl.
  rewrite Hv. simpl. by rewrite Hk.
Qed.

Lemma linked_vm rs h a vm n :
  linked rs h → vm_objs h !! a = Some vm → AzureVM.nic vm = Some n →
  vm_target rs vm = Some n.
Proof.
  intros [Hl _] Ha. rewrite Forall_lookup in Hl. by apply (Hl a vm).
Qed.

Lemma linked_nic rs h a nic p :
  linked rs h → nic_objs h !! a = Some nic → AzureNIC.public_ip nic = Some p →
  nic_target rs nic = Some p.
Proof.
  intros [_ Hl] Ha. rewrite Forall_lookup in Hl. by apply (Hl a nic).
Qed.

Lemma AzureNIC_lookup_linked n rs h :
  linked rs h →
  below h (AzureNIC_lookup n rs h).1 ∧ linked rs (AzureNIC_lookup n rs h).1.
Proof.
  intros Hl. rewrite AzureNIC_lookup_unfold.
  destruct (rs !! "public_ip") as [ips|] eqn:Hips; [|done].
  destruct (nic_objs h !! n) as [this|] eqn:Hn; [|done].
  destruct (AzureNIC.public_ip_id this) as [v|] eqn:Hv; [|done].
  destruct (hash v) as [k|] eqn:Hk; [|done].
  destruct (dict_get k ips) as [p|] eqn:Hp; [|done].
  pose proof (nic_target_eq _ _ _ _ _ Hips Hv Hk) as Ht. rewrite Hp in Ht.
  simpl. split.
  - eapply below_put_nic; [done|]. split; [done|].
    intros p0 Hp0. simpl.
    pose proof (linked_nic _ _ _ _ _ Hl Hn Hp0). congruence.
  - destruct Hl as [Hvm Hnic]. split; [done|]. simpl.
    apply Forall_insert; [done|]. by intros p0 [= <-].
Qed.

Lemma AzureVM_lookup_linked a rs h :
  linked rs h →
  below h (AzureVM_lookup a rs h).1 ∧ linked rs (AzureVM_lookup a rs h).1.
Proof.
  intros Hl. rewrite AzureVM_lookup_unfold.
  destruct (rs !! "nics") as [nics|] eqn:Hnics; [|done].
  destruct (vm_objs h !! a) as [this|] eqn:Ha; [|done].
  destruct (AzureVM.nic_id this) as [v|] eqn:Hv; [|done].
  destruct (hash v) as [k|] eqn:Hk; [|done].
  destruct (dict_get k nics) as [n|] eqn:Hn; [|done].
  pose proof (vm_target_eq _ _ _ _ _ Hnics Hv Hk) as Ht. rewrite Hn in Ht.
  assert (below h (put_vm a (AzureVM.set_nic n this) h)) as Hb.
  { eapply below_put_vm; [done|]. split; [done|].
    intros n0 Hn0. simpl.
    pose proof (linked_vm _ _ _ _ _ Hl Ha Hn0). congruence. }
  assert (linked rs (put_vm a (AzureVM.set_nic n this) h)) as Hl'.
  { destruct Hl as [Hvm Hnic]. split; [|done]. simpl.
    apply Forall_insert; [done|]. by intros n0 [= <-]. }
  destruct (AzureNIC_lookup_linked n rs _ Hl') as [Hb' Hl''].
  split; [by etrans|done].
Qed.

Lemma add_host_to_inventory_heap rs b inv host h :
  (add_host_to_inventory rs b inv host h).1 = (AzureVM_lookup host rs h).1.
Proof.
  rewrite add_host_to_inventory_unfold.
  destruct (AzureVM_lookup host rs h) as [h' [[]|e]]; [|done].
  repeat case_match; done.
Qed.

Lemma add_host_to_inventory_linked rs b inv host h :
  linked rs h →
  below h (add_host_to_inventory rs b inv host h).1 ∧
  linked rs (add_host_to_inventory rs b inv host h).1.
Proof. rewrite add_host_to_inventory_heap. apply AzureVM_lookup_linked. Qed.

(** ** Looking up in a store that already holds the references *)

Lemma vm_target_same rs v v' :
  same_but_nic v v' → vm_target rs v = vm_target rs v'.
Proof. intros (_ & _ & H & _). unfold vm_target. by rewrite H. Qed.

Lemma nic_target_same rs n n' :
  same_but_public_ip n n' → nic_target rs n = nic_target rs n'.
Proof. intros (_ & _ & _ & H). unfold nic_target. by rewrite H. Qed.

Lemma set_nic_id n vm : AzureVM.nic vm = Some n → AzureVM.set_nic n vm = vm.
Proof. destruct vm. simpl. by intros ->. Qed.

Lemma set_public_ip_id p nic :
  AzureNIC.public_ip nic = Some p → AzureNIC.set_public_ip p nic = nic.
Proof. destruct nic. simpl. by intros ->. Qed.

Lemma below_lookup_vm h g a :
  below h g →
  match vm_objs h !! a with
  | Some v => ∃ v', vm_objs g !! a = Some v' ∧ vm_below v v'
  | None => vm_objs g !! a = None
  end.
Proof.
  intros (Hvm & _ & _). destruct (vm_objs h !! a) as [v|] eqn:E.
  - by eapply Forall2_lookup_l.
  - apply lookup_ge_None. apply lookup_ge_None in E.
    by rewrite <- (Forall2_length _ _ _ Hvm).
Qed.

Lemma below_lookup_nic h g a :
  below h g →
  match nic_objs h !! a with
  | Some v => ∃ v', nic_objs g !! a = Some v' ∧ nic_below v v'
  | None => nic_objs g !! a = None
  end.
Proof.
  intros (_ & Hnic & _). destruct (nic_objs h !! a) as [v|] eqn:E.
  - by eapply Forall2_lookup_l.
  - apply lookup_ge_None. apply lookup_ge_None in E.
    by rewrite <- (Forall2_length _ _ _ Hnic).
Qed.

Lemma AzureNIC_lookup_stable n rs h g :
  below (AzureNIC_lookup n rs h).1 g →
  AzureNIC_lookup n rs g = (g, (AzureNIC_lookup n rs h).2).
Proof.
  rewrite (AzureNIC_lookup_unfold n rs h), (AzureNIC_lookup_unfold n rs g).
  destruct (rs !! "public_ip") as [ips|] eqn:Hips; [|done].
  destruct (nic_objs h !! n) as [this|] eqn:Hn.
  2:{ simpl. intros Hb. pose proof (below_lookup_nic _ _ n Hb) as H.
      by rewrite Hn in H; rewrite H. }
  assert (n < length (nic_objs h))%nat as Hlt by by eapply lookup_lt_Some.
  destruct (AzureNIC.public_ip_id this) as [v|] eqn:Hv.
  2:{ simpl. intros Hb. pose proof (below_lookup_nic _ _ n Hb) as H.
      rewrite Hn in H. destruct H as (this' & -> & (_&_&_&Hid) & _).
      by rewrite <- Hid, Hv. }
  destruct (hash v) as [k|] eqn:Hk.
  2:{ simpl. intros Hb. pose proof (below_lookup_nic _ _ n Hb) as H.
      rewrite Hn in H. destruct H as (this' & -> & (_&_&_&Hid) & _).
      by rewrite <- Hid, Hv, Hk. }
  destruct (dict_get k ips) as [p|] eqn:Hp.
  - simpl. intros Hb. pose proof (below_lookup_nic _ _ n Hb) as H.
    simpl in H. rewrite list_lookup_insert_eq in H by done.
    destruct H as (this' & Hthis' & (_&_&_&Hid) & Hkept).
    rewrite Hthis'. simpl in Hid. rewrite <- Hid, Hv, Hk, Hp.
    rewrite set_public_ip_id by by apply Hkept.
    by rewrite put_nic_id.
  - simpl. intros Hb. pose proof (below_lookup_nic _ _ n Hb) as H.
    rewrite Hn in H. destruct H as (this' & -> & (_&_&_&Hid) & _).
    by rewrite <- Hid, Hv, Hk, Hp.
Qed.

Lemma AzureVM_lookup_stable a rs h g :
  below (AzureVM_lookup a rs h).1 g →
  AzureVM_lookup a rs g = (g, (AzureVM_lookup a rs h).2).
Proof.
  rewrite (AzureVM_lookup_unfold a rs h), (AzureVM_lookup_unfold a rs g).
  destruct (rs !! "nics") as [nics|] eqn:Hnics; [|done].
  destruct (vm_objs h !! a) as [this|] eqn:Ha.
  2:{ simpl. intros Hb. pose proof (below_lookup_vm _ _ a Hb) as H.
      by rewrite Ha in H; rewrite H. }
  assert (a < length (vm_objs h))%nat as Hlt by by eapply lookup_lt_Some.
  destruct (AzureVM.nic_id this) as [v|] eqn:Hv.
  2:{ simpl. intros Hb. pose proof (below_lookup_vm _ _ a Hb) as H.
      rewrite Ha in H. destruct H as (this' & -> & (_&_&Hid&_) & _).
      by rewrite <- Hid, Hv. }
  destruct (hash v) as [k|] eqn:Hk.
  2:{ simpl. intros Hb. pose proof (below_lookup_vm _ _ a Hb) as H.
      rewrite Ha in H. destruct H as (this' & -> & (_&_&Hid&_) & _).
      by rewrite <- Hid, Hv, Hk. }
  destruct (dict_get k nics) as [n|] eqn:Hn.
  - intros Hb. pose proof (below_lookup_vm _ _ a Hb) as H.
    rewrite AzureNIC_lookup_vm_objs in H. simpl in H.
    rewrite list_lookup_insert_eq in H by done.
    destruct H as (this' & Hthis' & (_&_&Hid&_) & Hkept).
    rewrite Hthis'. simpl in Hid. rewrite <- Hid, Hv, Hk, Hn.
    rewrite set_nic_id by by apply Hkept.
    rewrite put_vm_id by done.
    by apply AzureNIC_lookup_stable.
  - simpl. intros Hb. pose proof (below_lookup_vm _ _ a Hb) as H.
    rewrite Ha in H. destruct H as (this' & -> & (_&_&Hid&_) & _).
    by rewrite <- Hid, Hv, Hk, Hn.
Qed.

(** After a successful lookup nothing is left to attach. *)
Lemma AzureNIC_lookup_Ok n rs h h1 :
  AzureNIC_lookup n rs h = (h1, Ok ()) →
  ∃ nic1, nic_objs h1 !! n = Some nic1 ∧
          ∀ p, nic_target rs nic1 = Some p → AzureNIC.public_ip nic1 = Some p.
Proof.
  rewrite AzureNIC_lookup_unfold.
  destruct (rs !! "public_ip") as [ips|] eqn:Hips; [|done].
  destruct (nic_objs h !! n) as [this|] eqn:Hn; [|done].
  destruct (AzureNIC.public_ip_id this) as [v|] eqn:Hv; [|done].
  destruct (hash v) as [k|] eqn:Hk; [|done].
  pose proof (nic_target_eq _ _ _ _ _ Hips Hv Hk) as Ht.
  destruct (dict_get k ips) as [p|] eqn:Hp; intros [= <-].
  - eexists. split.
    + simpl. apply list_lookup_insert_eq. by eapply lookup_lt_Some.
    + intros p0. erewrite <- nic_target_same by apply same_but_public_ip_set.
      rewrite Ht. by intros [= <-].
  - exists this. split; [done|]. intros p0. by rewrite Ht.
Qed.

Lemma AzureVM_lookup_Ok a rs h h1 :
  AzureVM_lookup a rs h = (h1, Ok ()) →
  ∃ this1, vm_objs h1 !! a = Some this1 ∧
    ∀ n, vm_target rs this1 = Some n →
         AzureVM.nic this1 = Some n ∧
         ∃ nic1, nic_objs h1 !! n = Some nic1 ∧
                 ∀ p, nic_target rs nic1 = Some p →
                      AzureNIC.public_ip nic1 = Some p.
Proof.
  rewrite AzureVM_lookup_unfold.
  destruct (rs !! "nics") as [nics|] eqn:Hnics; [|done].
  destruct (vm_objs h !! a) as [this|] eqn:Ha; [|done].
  destruct (AzureVM.nic_id this) as [v|] eqn:Hv; [|done].
  destruct (hash v) as [k|] eqn:Hk; [|done].
  pose proof (vm_target_eq _ _ _ _ _ Hnics Hv Hk) as Ht.
  destruct (dict_get k nics) as [n|] eqn:Hn.
  - intros Hnic. exists (AzureVM.set_nic n this). split.
    + pose proof (AzureNIC_lookup_vm_objs n rs
                    (put_vm a (AzureVM.set_nic n this) h)) as Hvms.
      rewrite Hnic in Hvms. simpl in Hvms. rewrite Hvms.
      apply list_lookup_insert_eq. by eapply lookup_lt_Some.
    + intros n0. erewrite <- vm_target_same by apply same_but_nic_set_nic.
      rewrite Ht. intros [= <-]. split; [done|].
      by eapply AzureNIC_lookup_Ok.
  - intros [= <-]. exists this. split; [done|]. intros n0. by rewrite Ht.
Qed.

Lemma add_host_to_inventory_stable rs b inv a h g :
  linked rs g →
  below (add_host_to_inventory rs b inv a h).1 g →
  add_host_to_inventory rs b inv a g =
    (g, (add_host_to_inventory rs b inv a h).2).
Proof.
  intros Hl. rewrite add_host_to_inventory_heap. intros Hb.
  rewrite (add_host_to_inventory_unfold rs b inv a g).
  rewrite (AzureVM_lookup_stable _ _ _ _ Hb).
  rewrite (add_host_to_inventory_unfold rs b inv a h).
  destruct (AzureVM_lookup a rs h) as [h1 [[]|e]] eqn:Hlook; [|done].
  simpl in *.
  destruct (AzureVM_lookup_Ok _ _ _ _ Hlook) as (this1 & Hthis1 & Hres).
  rewrite Hthis1.
  pose proof (below_lookup_vm _ _ a Hb) as Hvm. rewrite Hthis1 in Hvm.
  destruct Hvm as (vm_g & Hvm_g & Hsame & Hkept). rewrite Hvm_g.
  pose proof Hsame as (_ & Hname & _ & Huser). rewrite <- Hname, <- Huser.
  destruct (hash (AzureVM.name this1)) as [k|]; [|done].
  destruct (AzureVM.nic this1) as [n|] eqn:Hnic1.
  - rewrite (Hkept n eq_refl).
    pose proof (linked_vm _ _ _ _ _ Hl Hvm_g (Hkept n eq_refl)) as Ht.
    rewrite <- (vm_target_same _ _ _ Hsame) in Ht.
    destruct (Hres n Ht) as (_ & nic1 & Hn1 & Hres1). rewrite Hn1.
    pose proof (below_lookup_nic _ _ n Hb) as Hn. rewrite Hn1 in Hn.
    destruct Hn as (nic_g & Hnic_g & Hsame' & Hkept'). rewrite Hnic_g.
    pose proof Hsame' as (_ & _ & Hpriv & _). rewrite <- Hpriv.
    destruct Hb as (_ & _ & <-).
    destruct (AzureNIC.public_ip nic1) as [p|] eqn:Hp1.
    + rewrite (Hkept' p eq_refl). destruct b; [done|].
      by destruct (ip_objs h1 !! p).
    + destruct (AzureNIC.public_ip nic_g) as [p|] eqn:Hpg; [|done].
      pose proof (linked_nic _ _ _ _ _ Hl Hnic_g Hpg) as Ht'.
      rewrite <- (nic_target_same _ _ _ Hsame') in Ht'.
      specialize (Hres1 p Ht'). congruence.
  - destruct (AzureVM.nic vm_g) as [n|] eqn:Hng; [|done].
    pose proof (linked_vm _ _ _ _ _ Hl Hvm_g Hng) as Ht.
    rewrite <- (vm_target_same _ _ _ Hsame) in Ht.
    destruct (Hres n Ht) as (? & _). congruence.
Qed.

(** ** The loop over the hosts *)

Lemma inventory_loop_cons rs b hosts host_id rest inv h :
  inventory_loop rs b hosts (host_id :: rest) inv h =
  match dict_get host_id hosts with
  | None => (h, Raise KeyError)
  | Some a =>
      match add_host_to_inventory rs b inv a h with
      | (h', Ok inv') => inventory_loop rs b hosts rest inv' h'
      | (h', Raise e) => (h', Raise e)
      end
  end.
Proof.
  simpl. unfold_M. destruct (dict_get host_id hosts) as [a|]; simpl; [|done].
  by destruct (add_host_to_inventory rs b inv a h) as [h' [inv'|e]].
Qed.

Lemma inventory_loop_linked rs b hosts ids inv h :
  linked rs h →
  below h (inventory_loop rs b hosts ids inv h).1 ∧
  linked rs (inventory_loop rs b hosts ids inv h).1.
Proof.
  revert inv h. induction ids as [|k ids IH]; intros inv h Hl.
  - split; [reflexivity|done].
  - rewrite inventory_loop_cons.
    destruct (dict_get k hosts) as [a|]; [|split; [reflexivity|done]].
    destruct (add_host_to_inventory_linked rs b inv a h Hl) as [Hb Hl'].
    destruct (add_host_to_inventory rs b inv a h) as [h' [inv'|e]]; [|done].
    simpl in *. destruct (IH inv' h' Hl') as [Hb' Hl''].
    split; [by etrans|done].
Qed.

Lemma inventory_loop_stable rs b hosts ids inv h g :
  linked rs h → linked rs g →
  below (inventory_loop rs b hosts ids inv h).1 g →
  inventory_loop rs b hosts ids inv g =
    (g, (inventory_loop rs b hosts ids inv h).2).
Proof.
  revert inv h. induction ids as [|k ids IH]; intros inv h Hl Hg.
  - done.
  - rewrite !inventory_loop_cons.
    destruct (dict_get k hosts) as [a|]; [|done].
    destruct (add_host_to_inventory_linked rs b inv a h Hl) as [_ Hl'].
    pose proof (add_host_to_inventory_stable rs b inv a h g Hg) as Hst.
    destruct (add_host_to_inventory rs b inv a h) as [h' [inv'|e]];
      simpl in *.
    + intros Hb.
      destruct (inventory_loop_linked rs b hosts ids inv' h' Hl') as [Hb' _].
      rewrite Hst by by etrans. by apply IH.
    + intros Hb. by rewrite Hst.
Qed.

Lemma inventory_again rs b h :
  linked rs h →
  inventory rs b (inventory rs b h).1 = inventory rs b h.
Proof.
  intros Hl. unfold inventory.
  destruct (rs !! "hosts") as [hosts|]; [|done].
  destruct (inventory_loop_linked rs b hosts (dict_keys hosts)
              empty_inventory h Hl) as [_ Hl'].
  rewrite (inventory_loop_stable rs b hosts _ _ h); [|done..|reflexivity].
  by destruct (inventory_loop _ _ _ _ _ h).
Qed.

(** ** Extraction: fresh objects, addresses in range, no [Dangling] *)

Lemma result_bind_not_Dangling {A B} (m : result A) (f : A → result B) :
  m ≠ Raise Dangling → (∀ a, f a ≠ Raise Dangling) →
  m ≫= f ≠ Raise Dangling.
Proof. destruct m as [a|e]; simpl; [auto|]. intros H _ [= ->]. done. Qed.

Lemma getitem_str_not_Dangling v k : getitem_str v k ≠ Raise Dangling.
Proof. destruct v; simpl; try done. by destruct (obj_get k d). Qed.

Lemma getitem_0_not_Dangling v : getitem_0 v ≠ Raise Dangling.
Proof. destruct v as [| | |[]|[]|]; done. Qed.

Lemma len_not_Dangling v : len v ≠ Raise Dangling.
Proof. by destruct v. Qed.

Lemma hash_not_Dangling v : hash v ≠ Raise Dangling.
Proof. by destruct v. Qed.

Lemma iter_not_Dangling v : iter v ≠ Raise Dangling.
Proof. by destruct v. Qed.

Lemma typedef_of_not_Dangling v : typedef_of v ≠ Raise Dangling.
Proof. unfold typedef_of. by destruct v. Qed.

Ltac not_Dangling :=
  repeat first
    [ apply getitem_str_not_Dangling | apply getitem_0_not_Dangling
    | apply len_not_Dangling | apply hash_not_Dangling
    | apply result_bind_not_Dangling; [|intros ?]
    | case_match
    | done ].

Lemma AzureIP_init_not_Dangling r : AzureIP.init r ≠ Raise Dangling.
Proof. unfold AzureIP.init. not_Dangling. Qed.

Lemma AzureNIC_init_not_Dangling r : AzureNIC.init r ≠ Raise Dangling.
Proof. unfold AzureNIC.init. not_Dangling. Qed.

Lemma AzureVM_init_not_Dangling r : AzureVM.init r ≠ Raise Dangling.
Proof. unfold AzureVM.init, AzureVM.init_user. not_Dangling. Qed.

Lemma grows_refl h : grows h h.
Proof. by intros c. Qed.

Lemma grows_trans h1 h2 h3 : grows h1 h2 → grows h2 h3 → grows h1 h3.
Proof. intros H1 H2 c. specialize (H1 c). specialize (H2 c). lia. Qed.

Lemma in_store_grows c h h' g : grows h h' → in_store c h g → in_store c h' g.
Proof.
  intros Hg. unfold in_store. intros H. eapply Forall_impl; [done|].
  intros [k a] ?. simpl in *. specialize (Hg c). lia.
Qed.

Lemma in_store_dict_set c h g k a :
  in_store c h g → (a < store_size c h)%nat → in_store c h (dict_set k a g).
Proof.
  unfold in_store. intros Hg Ha.
  induction g as [|[k0 a0] g IH]; simpl.
  - by repeat constructor.
  - apply Forall_cons in Hg as [H0 Hg].
    destruct (key_eqb k0 k); constructor; auto.
Qed.

Lemma construct_inv c instance h :
  fresh h →
  fresh (construct c instance h).1 ∧
  grows h (construct c instance h).1 ∧
  (construct c instance h).2 ≠ Raise Dangling ∧
  ∀ a i, (construct c instance h).2 = Ok (a, i) →
         (a < store_size c (construct c instance h).1)%nat.
Proof.
  intros [Hvm Hnic]. destruct c; unfold construct; unfold_M.
  - pose proof (AzureVM_init_not_Dangling instance) as Hd.
    destruct (AzureVM.init instance) as [o|e] eqn:Hinit; simpl.
    + split_and!; [split; simpl| | |]; try done.
      * apply Forall_app. split; [done|]. constructor; [|done].
        by eapply VM_init_nic.
      * intros []; simpl; rewrite ?length_app; simpl; lia.
      * intros a i [= <- _]. rewrite length_app. simpl. lia.
    + split_and!; try done. { apply grows_refl. } by intros [= ->].
  - pose proof (AzureIP_init_not_Dangling instance) as Hd.
    destruct (AzureIP.init instance) as [o|e] eqn:Hinit; simpl.
    + split_and!; [split; simpl| | |]; try done.
      * intros []; simpl; rewrite ?length_app; simpl; lia.
      * intros a i [= <- _]. rewrite length_app. simpl. lia.
    + split_and!; try done. { apply grows_refl. } by intros [= ->].
  - pose proof (AzureNIC_init_not_Dangling instance) as Hd.
    destruct (AzureNIC.init instance) as [o|e] eqn:Hinit; simpl.
    + split_and!; [split; simpl| | |]; try done.
      * apply Forall_app. split; [done|]. constructor; [|done].
        by eapply NIC_init_public_ip.
      * intros []; simpl; rewrite ?length_app; simpl; lia.
      * intros a i [= <- _]. rewrite length_app. simpl. lia.
    + split_and!; try done. { apply grows_refl. } by intros [= ->].
Qed.

Lemma add_instances_cons c instance rest g h :
  add_instances c (instance :: rest) g h =
  match construct c instance h with
  | (h', Ok (resource, id)) =>
      match hash id with
      | Ok k => add_instances c rest (dict_set k resource g) h'
      | Raise e => (h', Raise e)
      end
  | (h', Raise e) => (h', Raise e)
  end.
Proof.
  simpl. unfold_M.
  destruct (construct c instance h) as [h' [[a i]|e]]; [|done].
  by destruct (hash i).
Qed.

Lemma add_instances_inv c instances g h :
  fresh h → in_store c h g →
  fresh (add_instances c instances g h).1 ∧
  grows h (add_instances c instances g h).1 ∧
  (add_instances c instances g h).2 ≠ Raise Dangling ∧
  ∀ g', (add_instances c instances g h).2 = Ok g' →
        in_store c (add_instances c instances g h).1 g'.
Proof.
  revert g h. induction instances as [|instance rest IH]; intros g h Hf Hg.
  - simpl. split_and!; try done. { apply grows_refl. } by intros g' [= <-].
  - rewrite add_instances_cons.
    destruct (construct_inv c instance h Hf) as (Hf' & Hgr & Hd & Ha).
    destruct (construct c instance h) as [h' [[a i]|e]]; simpl in *;
      [|split_and!; try done; by intros [= ->]].
    pose proof (hash_not_Dangling i) as Hdh.
    destruct (hash i) as [k|e]; [|split_and!; try done; by intros [= ->]].
    destruct (IH (dict_set k a g) h' Hf') as (Hf'' & Hgr' & Hd' & Hg').
    { apply in_store_dict_set; [|by eapply Ha].
      by eapply in_store_grows. }
    split_and!; try done. by eapply grows_trans.
Qed.

Lemma add_resources_to_group_inv g res c h :
  fresh h → in_store c h g →
  fresh (add_resources_to_group g res c h).1 ∧
  grows h (add_resources_to_group g res c h).1 ∧
  (add_resources_to_group g res c h).2 ≠ Raise Dangling ∧
  ∀ g', (add_resources_to_group g res c h).2 = Ok g' →
        in_store c (add_resources_to_group g res c h).1 g'.
Proof.
  intros Hf Hg. unfold add_resources_to_group.
  destruct (obj_get "instances" res) as [v|].
  - unfold_M. pose proof (iter_not_Dangling v) as Hd.
    destruct (iter v) as [instances|e]; simpl.
    + pose proof (add_instances_inv c instances g h Hf Hg) as H.
      by destruct (add_instances c instances g h) as [h' [g'|e]].
    + split_and!; try done. { apply grows_refl. } by intros [= ->].
  - simpl. split_and!; try done. { apply grows_refl. } by intros g' [= <-].
Qed.

Lemma resource_types_cases ty td :
  assoc ty resource_types = Some td →
  td = Typedef "hosts" ClsAzureVM ∨ td = Typedef "public_ip" ClsAzureIP ∨
  td = Typedef "nics" ClsAzureNIC.
Proof.
  unfold resource_types. simpl. repeat case_decide; naive_solver.
Qed.

Lemma resource_types_alias ty ty' td td' :
  assoc ty resource_types = Some td → assoc ty' resource_types = Some td' →
  alias td = alias td' → td = td'.
Proof.
  intros [->|[->| ->]]%resource_types_cases [->|[->| ->]]%resource_types_cases;
    done.
Qed.

Lemma wf_heap_grows rs h h' : grows h h' → wf_heap rs h → wf_heap rs h'.
Proof. intros Hg Hwf ty td g Hty Hrs. eapply in_store_grows; eauto. Qed.

Lemma wf_heap_empty h : wf_heap ∅ h.
Proof. intros ty td g _. by rewrite lookup_empty. Qed.

Lemma update_resource_group_inv ty td rs res h :
  assoc ty resource_types = Some td →
  fresh h → wf_heap rs h →
  fresh (update_resource_group td rs res h).1 ∧
  grows h (update_resource_group td rs res h).1 ∧
  (update_resource_group td rs res h).2 ≠ Raise Dangling ∧
  ∀ rs', (update_resource_group td rs res h).2 = Ok rs' →
         wf_heap rs' (update_resource_group td rs res h).1.
Proof.
  intros Hty Hf Hwf. unfold update_resource_group. unfold_M.
  set (g := match rs !! alias td with Some g => g | None => [] end).
  assert (in_store (class td) h g) as Hg.
  { unfold g. destruct (rs !! alias td) as [g0|] eqn:E.
    - by eapply Hwf. - constructor. }
  pose proof (add_resources_to_group_inv g res (class td) h Hf Hg)
    as (Hf' & Hgr & Hd & Hg').
  destruct (add_resources_to_group g res (class td) h) as [h' [g'|e]];
    simpl in *; [|split_and!; try done; by intros [= ->]].
  split_and!; try done. intros rs' [= <-] ty' td' g0 Hty' Hlook.
  destruct (decide (alias td' = alias td)) as [Heq|Hne].
  - rewrite Heq, lookup_insert_eq in Hlook. injection Hlook as <-.
    rewrite (resource_types_alias _ _ _ _ Hty' Hty Heq). by apply Hg'.
  - rewrite lookup_insert_ne in Hlook by done.
    eapply in_store_grows; [done|]. by eapply Hwf.
Qed.

Lemma extract_loop_cons res rest rs h :
  extract_loop (res :: rest) rs h =
  match getitem_str res "type" with
  | Raise e => (h, Raise e)
  | Ok ty =>
      match typedef_of ty with
      | Raise e => (h, Raise e)
      | Ok None => extract_loop rest rs h
      | Ok (Some td) =>
          match res with
          | JDict d =>
              match update_resource_group td rs d h with
              | (h', Ok rs') => extract_loop rest rs' h'
              | (h', Raise e) => (h', Raise e)
              end
          | _ => (h, Raise TypeError)
          end
      end
  end.
Proof.
  simpl. unfold_M.
  destruct (getitem_str res "type") as [ty|]; simpl; [|done].
  destruct (typedef_of ty) as [[td|]|]; simpl; [|done..].
  destruct res as [| | | | |d]; try done.
  all: by destruct (update_resource_group td rs d h) as [h' [rs'|e]].
Qed.

Lemma typedef_of_Some ty td :
  typedef_of ty = Ok (Some td) →
  ∃ s, ty = JStr s ∧ assoc s resource_types = Some td.
Proof.
  unfold typedef_of. destruct ty; simpl; try done.
  intros [= H]. eauto.
Qed.

Lemma extract_loop_inv entries rs h :
  fresh h → wf_heap rs h →
  fresh (extract_loop entries rs h).1 ∧
  (extract_loop entries rs h).2 ≠ Raise Dangling ∧
  ∀ rs', (extract_loop entries rs h).2 = Ok rs' →
         wf_heap rs' (extract_loop entries rs h).1.
Proof.
  revert rs h. induction entries as [|res rest IH]; intros rs h Hf Hwf.
  - simpl. split_and!; try done. by intros rs' [= <-].
  - rewrite extract_loop_cons.
    pose proof (getitem_str_not_Dangling res "type") as Hd1.
    destruct (getitem_str res "type") as [ty|e];
      [|split_and!; try done; by intros [= ->]].
    pose proof (typedef_of_not_Dangling ty) as Hd2.
    destruct (typedef_of ty) as [[td|]|e] eqn:Htd;
      [| by apply IH | split_and!; try done; by intros [= ->]].
    apply typedef_of_Some in Htd as (s & -> & Hs).
    destruct res; try by split_and!.
    pose proof (update_resource_group_inv s td rs d h Hs Hf Hwf)
      as (Hf' & Hgr & Hd & Hwf').
    destruct (update_resource_group td rs d h) as [h' [rs'|e]]; simpl in *;
      [|split_and!; try done; by intros [= ->]].
    apply IH; auto.
Qed.

Lemma extract_resources_inv state :
  fresh (extract_resources state empty_heap).1 ∧
  (extract_resources state empty_heap).2 ≠ Raise Dangling ∧
  ∀ rs, (extract_resources state empty_heap).2 = Ok rs →
        wf_heap rs (extract_resources state empty_heap).1.
Proof.
  assert (fresh empty_heap) as Hf by (split; constructor).
  unfold extract_resources. destruct (obj_get "resources" state) as [v|].
  - unfold_M. pose proof (iter_not_Dangling v) as Hd.
    destruct (iter v) as [entries|e]; simpl.
    + pose proof (extract_loop_inv entries ∅ empty_heap Hf
                    (wf_heap_empty _)) as H.
      by destruct (extract_loop entries ∅ empty_heap) as [h' [rs'|e]].
    + split_and!; try done. by intros [= ->].
  - simpl. split_and!; try done. intros rs [= <-]. apply wf_heap_empty.
Qed.

(** ** The builder never meets an address outside the store *)

Lemma below_grows h g : below h g → grows h g.
Proof.
  intros (Hvm & Hnic & Hip) []; simpl.
  - by rewrite (Forall2_length _ _ _ Hvm).
  - by rewrite Hip.
  - by rewrite (Forall2_length _ _ _ Hnic).
Qed.

Lemma dict_get_in_store c h (g : group) k a :
  in_store c h g → dict_get k g = Some a → (a < store_size c h)%nat.
Proof.
  intros Hg (k0 & Hin & _)%dict_get_Some_elem.
  unfold in_store in Hg. rewrite Forall_forall in Hg. by apply (Hg _ Hin).
Qed.

Lemma vm_target_in_store rs h vm n :
  wf_heap rs h → vm_target rs vm = Some n → (n < length (nic_objs h))%nat.
Proof.
  intros Hwf. unfold vm_target.
  destruct (rs !! "nics") as [nics|] eqn:Hnics; [simpl|done].
  destruct (AzureVM.nic_id vm) as [v|]; [simpl|done].
  destruct (hash_opt v) as [k|]; [simpl|done].
  apply (dict_get_in_store ClsAzureNIC).
  by apply (Hwf "azurerm_network_interface" (Typedef "nics" ClsAzureNIC)).
Qed.

Lemma nic_target_in_store rs h nic p :
  wf_heap rs h → nic_target rs nic = Some p → (p < length (ip_objs h))%nat.
Proof.
  intros Hwf. unfold nic_target.
  destruct (rs !! "public_ip") as [ips|] eqn:Hips; [simpl|done].
  destruct (AzureNIC.public_ip_id nic) as [v|]; [simpl|done].
  destruct (hash_opt v) as [k|]; [simpl|done].
  apply (dict_get_in_store ClsAzureIP).
  by apply (Hwf "azurerm_public_ip" (Typedef "public_ip" ClsAzureIP)).
Qed.

Lemma AzureNIC_lookup_not_Dangling n rs h :
  (n < length (nic_objs h))%nat →
  (AzureNIC_lookup n rs h).2 ≠ Raise Dangling.
Proof.
  intros [this Hn]%lookup_lt_is_Some. rewrite AzureNIC_lookup_unfold, Hn.
  destruct (rs !! "public_ip"); [|done].
  destruct (AzureNIC.public_ip_id this) as [v|]; [|done].
  pose proof (hash_not_Dangling v).
  destruct (hash v); [|simpl; by intros [= ->]].
  by destruct (dict_get _ _).
Qed.

Lemma AzureVM_lookup_not_Dangling a rs h :
  wf_heap rs h → (a < length (vm_objs h))%nat →
  (AzureVM_lookup a rs h).2 ≠ Raise Dangling.
Proof.
  intros Hwf [this Ha]%lookup_lt_is_Some. rewrite AzureVM_lookup_unfold, Ha.
  destruct (rs !! "nics") as [nics|] eqn:Hnics; [|done].
  destruct (AzureVM.nic_id this) as [v|] eqn:Hv; [|done].
  pose proof (hash_not_Dangling v).
  destruct (hash v) as [k|] eqn:Hk; [|simpl; by intros [= ->]].
  destruct (dict_get k nics) as [n|] eqn:Hn; [|done].
  apply AzureNIC_lookup_not_Dangling. simpl.
  eapply vm_target_in_store; [done|].
  by erewrite vm_target_eq.
Qed.

Lemma add_host_to_inventory_not_Dangling rs b inv a h :
  wf_heap rs h → linked rs h → (a < length (vm_objs h))%nat →
  (add_host_to_inventory rs b inv a h).2 ≠ Raise Dangling.
Proof.
  intros Hwf Hl Ha. rewrite add_host_to_inventory_unfold.
  pose proof (AzureVM_lookup_not_Dangling a rs h Hwf Ha) as Hd.
  destruct (AzureVM_lookup_linked a rs h Hl) as [Hb Hl1].
  destruct (AzureVM_lookup a rs h) as [h1 [[]|e]]; simpl in *;
    [|by intros [= ->]].
  pose proof (below_grows _ _ Hb) as Hgr.
  pose proof (wf_heap_grows _ _ _ Hgr Hwf) as Hwf1.
  assert (a < length (vm_objs h1))%nat as Ha1.
  { specialize (Hgr ClsAzureVM). simpl in Hgr. lia. }
  destruct (lookup_lt_is_Some_2 _ _ Ha1) as [this1 Hthis1]. rewrite Hthis1.
  pose proof (hash_not_Dangling (AzureVM.name this1)).
  destruct (hash (AzureVM.name this1)) as [k|]; [|simpl; by intros [= ->]].
  destruct (AzureVM.nic this1) as [n|] eqn:Hn; [|done].
  pose proof (linked_vm _ _ _ _ _ Hl1 Hthis1 Hn) as Ht.
  apply (vm_target_in_store _ h1) in Ht; [|done].
  destruct (lookup_lt_is_Some_2 _ _ Ht) as [nic1 Hnic1]. rewrite Hnic1.
  destruct (AzureNIC.public_ip nic1) as [p|] eqn:Hp; [|done].
  destruct b; [done|].
  pose proof (linked_nic _ _ _ _ _ Hl1 Hnic1 Hp) as Ht'.
  apply (nic_target_in_store _ h1) in Ht'; [|done].
  destruct (lookup_lt_is_Some_2 _ _ Ht') as [ipo ->]. done.
Qed.

Lemma inventory_loop_not_Dangling rs b hosts ids inv h :
  wf_heap rs h → linked rs h → in_store ClsAzureVM h hosts →
  (inventory_loop rs b hosts ids inv h).2 ≠ Raise Dangling.
Proof.
  revert inv h. induction ids as [|k ids IH]; intros inv h Hwf Hl Hhosts.
  - done.
  - rewrite inventory_loop_cons.
    destruct (dict_get k hosts) as [a|] eqn:Hk; [|done].
    pose proof (dict_get_in_store _ _ _ _ _ Hhosts Hk) as Ha.
    pose proof (add_host_to_inventory_not_Dangling rs b inv a h Hwf Hl Ha) as Hd.
    destruct (add_host_to_inventory_linked rs b inv a h Hl) as [Hb Hl'].
    destruct (add_host_to_inventory rs b inv a h) as [h' [inv'|e]];
      simpl in *; [|done].
    pose proof (below_grows _ _ Hb) as Hgr.
    apply IH; [by eapply wf_heap_grows|done|by eapply in_store_grows].
Qed.

Lemma inventory_not_Dangling rs b h :
  wf_heap rs h → linked rs h → (inventory rs b h).2 ≠ Raise Dangling.
Proof.
  intros Hwf Hl. unfold inventory.
  destruct (rs !! "hosts") as [hosts|] eqn:Hhosts; [|done].
  apply inventory_loop_not_Dangling; [done..|].
  by apply (Hwf "azurerm_virtual_machine" (Typedef "hosts" ClsAzureVM)).
Qed.

Lemma run_unfold state b :
  run state b =
  match extract_resources state empty_heap with
  | (h, Ok rs) => inventory rs b h
  | (h, Raise e) => (h, Raise e)
  end.
Proof.
  unfold run. unfold_M.
  by destruct (extract_resources state empty_heap) as [h [rs|e]].
Qed.

(** No run of the script ever reaches for an object that is not there. *)
Lemma run_not_Dangling state b : (run state b).2 ≠ Raise Dangling.
Proof.
  rewrite run_unfold.
  destruct (extract_resources_inv state) as (Hf & Hd & Hwf).
  destruct (extract_resources state empty_heap) as [h [rs|e]]; simpl in *.
  - apply inventory_not_Dangling; [by apply Hwf|by apply fresh_linked].
  - by intros [= ->].
Qed.

(** ** The whole run *)

Lemma run_twice_unfold state b :
  run_twice state b =
  match extract_resources state empty_heap with
  | (h, Ok rs) =>
      match inventory rs b h with
      | (h1, Ok _) => inventory rs b h1
      | (h1, Raise e) => (h1, Raise e)
      end
  | (h, Raise e) => (h, Raise e)
  end.
Proof.
  unfold run_twice. unfold_M.
  destruct (extract_resources state empty_heap) as [h [rs|e]]; [|done].
  by destruct (inventory rs b h) as [h1 [inv|e]].
Qed.

(** C7.  Calling [lookup] a second time on the same VM with the same groups
    changes nothing and ends as the first call did; and once a state
    document has been extracted, running the builder (which resolves every
    host) a second time yields the document, or the exception, of the first
    run and leaves every object as the first run left it.  (Two runs from
    scratch agree because [run] is a function of its input.) *)
Theorem lookup_and_build_idempotent :
  (∀ (self : addr) (rs : resources) (h : heap),
      AzureVM_lookup self rs (AzureVM_lookup self rs h).1
      = AzureVM_lookup self rs h) ∧
  (∀ (state : jobject) (use_private_ip : bool),
      run_twice state use_private_ip = run state use_private_ip).
Proof.
  split; [apply AzureVM_lookup_idem|].
  intros state b. rewrite run_twice_unfold, run_unfold.
  destruct (extract_resources_inv state) as (Hf & _ & _).
  destruct (extract_resources state empty_heap) as [h [rs|e]]; [|done].
  simpl in Hf. pose proof (inventory_again rs b h (fresh_linked rs h Hf)) as H.
  destruct (inventory rs b h) as [h1 [inv|e]]; simpl in *; done.
Qed.

Lemma fresh_lookup_vm h a vm :
  fresh h → vm_objs h !! a = Some vm → AzureVM.nic vm = None.
Proof. intros [H _] Ha. rewrite Forall_lookup in H. by apply (H a). Qed.

Lemma add_host_to_inventory_no_nics rs b inv a h :
  fresh h → (a < length (vm_objs h))%nat → rs !! "nics" = Some ([] : group) →
  ∃ e, add_host_to_inventory rs b inv a h = (h, Raise e) ∧
       (e = AttributeError ∨ e = TypeError).
Proof.
  intros Hf [vm Ha]%lookup_lt_is_Some Hnics.
  rewrite add_host_to_inventory_unfold, AzureVM_lookup_unfold, Hnics, Ha.
  destruct (AzureVM.nic_id vm) as [v|]; [|by eauto].
  destruct v; simpl; eauto; rewrite Ha;
    (destruct (hash (AzureVM.name vm)) as [k|e] eqn:Hk;
     [rewrite (fresh_lookup_vm _ _ _ Hf Ha); by eauto
     |destruct (AzureVM.name vm); simplify_eq/=; by eauto]).
Qed.

(** C9.  [AzureVM.lookup] raises [KeyError] whenever the groups have no
    [nics] group, whereas an id that is merely missing from an existing
    [nics] group is tolerated; [AzureNIC.lookup] raises [KeyError] whenever
    there is no [public_ip] group.  Hence a build on an extracted state with
    at least one VM and no NIC at all aborts: with [KeyError] when the
    [nics] group was never created, and with [AttributeError] or [TypeError]
    when it was created empty. *)
Theorem lookup_without_group_raises :
  (∀ (a : addr) (rs : resources) (h : heap),
      rs !! "nics" = None → AzureVM_lookup a rs h = (h, Raise KeyError)) ∧
  (∀ (a : addr) (rs : resources) (h : heap) vm v k (nics : group),
      rs !! "nics" = Some nics → vm_objs h !! a = Some vm →
      AzureVM.nic_id vm = Some v → hash v = Ok k → dict_get k nics = None →
      AzureVM_lookup a rs h = (h, Ok ())) ∧
  (∀ (n : addr) (rs : resources) (h : heap),
      rs !! "public_ip" = None → AzureNIC_lookup n rs h = (h, Raise KeyError)) ∧
  (∀ (state : jobject) (use_private_ip : bool) (h : heap) (rs : resources)
     (hosts : group),
      extract_resources state empty_heap = (h, Ok rs) →
      rs !! "hosts" = Some hosts → hosts ≠ [] →
      (rs !! "nics" = None →
         run state use_private_ip = (h, Raise KeyError)) ∧
      (rs !! "nics" = Some ([] : group) →
         ∃ e, run state use_private_ip = (h, Raise e) ∧
              (e = AttributeError ∨ e = TypeError))).
Proof.
  split_and!.
  - intros a rs h Hn. by rewrite AzureVM_lookup_unfold, Hn.
  - intros a rs h vm v k nics Hn Ha Hv Hk Hd.
    by rewrite AzureVM_lookup_unfold, Hn, Ha, Hv, Hk, Hd.
  - intros n rs h Hn. by rewrite AzureNIC_lookup_unfold, Hn.
  - intros state b h rs hosts Hex Hhosts Hne.
    rewrite run_unfold, Hex. unfold inventory. rewrite Hhosts.
    destruct hosts as [|[k0 a0] hosts]; [done|].
    simpl dict_keys. rewrite inventory_loop_cons. simpl dict_get.
    rewrite key_eqb_refl. split.
    + intros Hn.
      by rewrite add_host_to_inventory_unfold, AzureVM_lookup_unfold, Hn.
    + intros Hn.
      destruct (extract_resources_inv state) as (Hf & _ & Hwf).
      rewrite Hex in Hf, Hwf. simpl in Hf, Hwf.
      assert (a0 < length (vm_objs h))%nat as Ha0.
      { pose proof (Hwf rs eq_refl "azurerm_virtual_machine"
                      (Typedef "hosts" ClsAzureVM) _ eq_refl Hhosts) as Hin.
        by apply Forall_cons in Hin as [? _]. }
      destruct (add_host_to_inventory_no_nics rs b empty_inventory a0 h
                  Hf Ha0 Hn) as (e & -> & He).
      by exists e.
Qed.

Lemma lookup_without_group_raises_witness :
  let vm1 := JDict [("attributes",
               JDict [("id", JStr "v1"); ("name", JStr "web1");
                      ("network_interface_ids", JList [JStr "n1"]);
                      ("os_profile", JList [])])] in
  let state : jobject :=
    [("resources",
      JList [JDict [("type", JStr "azurerm_virtual_machine");
                    ("instances", JList [vm1])]])] in
  let h := Heap [AzureVM.mk (JStr "v1") (JStr "web1") (Some (JStr "n1"))
                   JNull None] [] [] in
  run state false = (h, Raise KeyError).
Proof.
  intros vm1 state h.
  destruct (proj2 (proj2 (proj2 lookup_without_group_raises)) state false h
              (<["hosts" := [(KStr "v1", 0%nat)]]> ∅) [(KStr "v1", 0%nat)]
              eq_refl eq_refl ltac:(done)) as [Hnone _].
  exact (Hnone eq_refl).
Defined.

Lemma typedef_of_JStr s : typedef_of (JStr s) = Ok (assoc s resource_types).
Proof. done. Qed.

Lemma extract_loop_unrecognized entries rs h :
  Forall unrecognized entries → extract_loop entries rs h = (h, Ok rs).
Proof.
  induction 1 as [|res rest (s & Hty & Hs) _ IH]; [done|].
  by rewrite extract_loop_cons, Hty, typedef_of_JStr, Hs.
Qed.

(** C5.  A state document without a [resources] member, or whose
    [resources] list holds only entries whose [type] is a string outside
    [resource_types], is extracted to the empty grouping without any
    exception, and the build is exactly the empty inventory. *)
Theorem no_recognized_resources (state : jobject) (use_private_ip : bool) :
  (obj_get "resources" state = None ∨
   ∃ entries, obj_get "resources" state = Some (JList entries) ∧
              Forall unrecognized entries) →
  extract_resources state empty_heap = (empty_heap, Ok ∅) ∧
  run state use_private_ip = (empty_heap, Ok empty_inventory).
Proof.
  intros H.
  assert (extract_resources state empty_heap = (empty_heap, Ok ∅)) as Hex.
  { unfold extract_resources. destruct H as [->|(entries & -> & Hall)]; [done|].
    unfold_M. simpl. by rewrite extract_loop_unrecognized. }
  split; [done|]. rewrite run_unfold, Hex. unfold inventory.
  by rewrite lookup_empty.
Qed.

Lemma no_recognized_resources_witness :
  let state : jobject :=
    [("version", JNum 4);
     ("resources",
      JList [JDict [("type", JStr "azurerm_resource_group");
                    ("instances", JList [JDict [("attributes", JDict [])]])];
             JDict [("type", JStr "azurerm_subnet")]])] in
  extract_resources state empty_heap = (empty_heap, Ok ∅) ∧
  run state false = (empty_heap, Ok empty_inventory).
Proof.
  intros state. apply (no_recognized_resources state false).
  right. eexists. split; [reflexivity|].
  repeat constructor; eexists; (split; [reflexivity|reflexivity]).
Defined.

(** ** The inventory document *)

Section writes.
Context {V : Type}.
Implicit Types (d : pydict V) (ws : list (pykey * V)).

Lemma dict_get_writes k ws d :
  dict_get k (foldl (λ d w, dict_set w.1 w.2 d) d ws) =
  match last_write k ws with Some v => Some v | None => dict_get k d end.
Proof.
  revert d. induction ws as [|[k' v] ws IH]; intros d; [done|].
  simpl. rewrite IH, dict_get_set.
  destruct (last_write k ws); [done|]. by destruct (key_eqb k' k).
Qed.

Lemma writes_NoDup ws d :
  NoDup (key_norm <$> dict_keys d) →
  NoDup (key_norm <$> dict_keys (foldl (λ d w, dict_set w.1 w.2 d) d ws)).
Proof.
  revert d. induction ws as [|[k' v] ws IH]; intros d Hd; [done|].
  simpl. apply IH. by apply dict_set_NoDup.
Qed.

Lemma last_write_elem k k' v ws :
  (k', v) ∈ ws → key_eqb k' k = true → is_Some (last_write k ws).
Proof.
  induction ws as [|[k0 v0] ws IH]; [by intros ?%elem_of_nil|].
  intros [[= <- <-]|Hin]%elem_of_cons Hk; simpl.
  - rewrite Hk. by destruct (last_write k ws).
  - destruct (IH Hin Hk) as [v1 ->]. done.
Qed.
End writes.

Lemma add_host_to_inventory_frame rs b inv a h :
  heap_frame h (add_host_to_inventory rs b inv a h).1.
Proof. rewrite add_host_to_inventory_heap. apply AzureVM_lookup_frame. Qed.

Lemma inventory_loop_frame rs b hosts ids inv h :
  heap_frame h (inventory_loop rs b hosts ids inv h).1.
Proof.
  revert inv h. induction ids as [|k ids IH]; intros inv h.
  - apply heap_frame_refl.
  - rewrite inventory_loop_cons.
    destruct (dict_get k hosts) as [a|]; [|apply heap_frame_refl].
    pose proof (add_host_to_inventory_frame rs b inv a h) as Hf.
    destruct (add_host_to_inventory rs b inv a h) as [h' [inv'|e]]; [|done].
    eapply heap_frame_trans; [done|apply IH].
Qed.

Lemma heap_frame_name h h' a vm :
  heap_frame h h' → vm_objs h !! a = Some vm →
  ∃ vm', vm_objs h' !! a = Some vm' ∧ AzureVM.name vm' = AzureVM.name vm.
Proof.
  intros (Hvm & _ & _) Ha.
  destruct (Forall2_lookup_l _ _ _ _ _ Hvm Ha) as (vm' & ? & _ & Hn & _).
  eauto.
Qed.

Lemma inventory_loop_writes rs b hosts ids inv h h' inv' :
  inventory_loop rs b hosts ids inv h = (h', Ok inv') →
  ∃ (names : list json) (ws : list (pykey * hostvars_t)),
    all_hosts inv' = all_hosts inv ++ names ∧
    Forall2 (λ name w, hash name = Ok w.1) names ws ∧
    hostvars inv' = foldl (λ d w, dict_set w.1 w.2 d) (hostvars inv) ws ∧
    Forall2 (λ host_id name,
               ∃ a vm, dict_get host_id hosts = Some a ∧
                       vm_objs h' !! a = Some vm ∧ AzureVM.name vm = name)
            ids names.
Proof.
  revert inv h. induction ids as [|k ids IH]; intros inv h.
  - intros [= <- <-]. exists [], []. rewrite app_nil_r. by split_and!.
  - rewrite inventory_loop_cons.
    destruct (dict_get k hosts) as [a|] eqn:Hk; [|done].
    destruct (add_host_to_inventory rs b inv a h) as [h1 [inv1|e]] eqn:Hadd;
      [|done].
    intros Hloop.
    destruct (add_host_to_inventory_Ok _ _ _ _ _ _ _ Hadd)
      as (vm1 & k1 & n & nic & ah & _ & Hvm1 & Hk1 & _ & _ & ->).
    pose proof (inventory_loop_frame rs b hosts ids
                  (Inventory
                     (dict_set k1
                        (("ansible_host", ah) ::
                         (if truthy (AzureVM.user vm1)
                          then [("ansible_user", AzureVM.user vm1)] else []))
                        (hostvars inv))
                     (all_hosts inv ++ [AzureVM.name vm1])) h1) as Hfr.
    rewrite Hloop in Hfr. simpl in Hfr.
    destruct (heap_frame_name _ _ _ _ Hfr Hvm1) as (vm' & Hvm' & Hname).
    destruct (IH _ _ Hloop) as (names & ws & Hall & Hhash & Hvars & Hids).
    simpl in *.
    eexists (AzureVM.name vm1 :: names), ((k1, _) :: ws). split_and!.
    + by rewrite Hall, <- app_assoc.
    + by constructor.
    + exact Hvars.
    + constructor; [|done]. by exists a, vm'.
Qed.

Lemma add_host_to_inventory_writes rs b inv a h h1 inv1 :
  add_host_to_inventory rs b inv a h = (h1, Ok inv1) →
  ∃ vm k hv,
    vm_objs h1 !! a = Some vm ∧ hash (AzureVM.name vm) = Ok k ∧
    hostvars_of b h1 vm = Some hv ∧
    inv1 = Inventory (dict_set k hv (hostvars inv))
                     (all_hosts inv ++ [AzureVM.name vm]).
Proof.
  rewrite add_host_to_inventory_unfold.
  destruct (AzureVM_lookup a rs h) as [h' [[]|e]]; [|done].
  destruct (vm_objs h' !! a) as [this|] eqn:Hthis; [|done].
  destruct (hash (AzureVM.name this)) as [k|] eqn:Hk; [|done].
  destruct (AzureVM.nic this) as [n|] eqn:Hn; [|done].
  destruct (nic_objs h' !! n) as [nic|] eqn:Hnic; [|done].
  unfold hostvars_of.
  destruct (AzureNIC.public_ip nic) as [p|] eqn:Hp.
  - destruct b.
    + intros [= <- <-]. exists this, k. eexists. split_and!; [done..| |done].
      rewrite Hn. simpl. rewrite Hnic. simpl. by rewrite Hp.
    + destruct (ip_objs h' !! p) as [ipo|] eqn:Hipo; [|done].
      intros [= <- <-]. exists this, k. eexists. split_and!; [done..| |done].
      rewrite Hn. simpl. rewrite Hnic. simpl. rewrite Hp, Hipo. done.
  - intros [= <- <-]. exists this, k. eexists. split_and!; [done..| |done].
    rewrite Hn. simpl. rewrite Hnic. simpl. by rewrite Hp.
Qed.

Lemma inventory_loop_last_write rs b hosts ids inv h h' inv' :
  linked rs h →
  inventory_loop rs b hosts ids inv h = (h', Ok inv') →
  ∃ ws : list (pykey * hostvars_t),
    Forall2 (λ host_id w,
               ∃ a vm, dict_get host_id hosts = Some a ∧
                       vm_objs h' !! a = Some vm ∧
                       hash (AzureVM.name vm) = Ok w.1 ∧
                       hostvars_of b h' vm = Some w.2)
            ids ws ∧
    hostvars inv' = foldl (λ d w, dict_set w.1 w.2 d) (hostvars inv) ws.
Proof.
  revert inv h. induction ids as [|k ids IH]; intros inv h Hl.
  - intros [= <- <-]. exists []. by split.
  - rewrite inventory_loop_cons.
    destruct (dict_get k hosts) as [a|] eqn:Hk; [|done].
    destruct (add_host_to_inventory_linked rs b inv a h Hl) as [_ Hl1].
    pose proof (add_host_to_inventory_stable rs b inv a h) as Hst.
    destruct (add_host_to_inventory rs b inv a h) as [h1 [inv1|]] eqn:Hadd;
      [|done].
    simpl in Hl1, Hst. intros Hloop.
    destruct (inventory_loop_linked rs b hosts ids inv1 h1 Hl1) as [Hb Hl'].
    rewrite Hloop in Hb, Hl'. simpl in Hb, Hl'.
    specialize (Hst h' Hl' Hb).
    destruct (add_host_to_inventory_writes _ _ _ _ _ _ _ Hst)
      as (vm & k1 & hv & Hvm & Hname & Hhv & ->).
    destruct (IH _ _ Hl1 Hloop) as (ws & Hall & Hvars).
    exists ((k1, hv) :: ws). split; [|done].
    constructor; [|done]. by exists a, vm.
Qed.

(** C4 (amended).  In every document the builder returns: each name in
    [all.hosts] has an entry in [_meta.hostvars]; the keys of
    [_meta.hostvars] are pairwise different; [_meta.hostvars] is what one
    write per entry of [all.hosts], under that entry's name, leaves, a later
    write replacing an earlier one; and [all.hosts] lists the name of every
    VM of the [hosts] group, one per VM in the group's key order, so a name
    shared by two VMs appears twice.
    On a store as extraction leaves it (more generally, a [linked] one) the
    written values are known too.  There is one write per VM of the [hosts]
    group, in the group's key order: under the VM's name, the mapping
    [hostvars_of] makes of that VM in the final store, that is
    [ansible_host] from its NIC and [ansible_user] when its user is set.
    Group and store fix these writes, and [_meta.hostvars] at a key is the
    last of them under that key: of two VMs with one name, the entry is the
    later VM's. *)
Theorem inventory_hosts_and_hostvars
    (rs : resources) (use_private_ip : bool) (h h' : heap)
    (inv : inventory_t) :
  inventory rs use_private_ip h = (h', Ok inv) →
  (∀ name, name ∈ all_hosts inv →
     ∃ k hv, hash name = Ok k ∧ dict_get k (hostvars inv) = Some hv) ∧
  NoDup (key_norm <$> dict_keys (hostvars inv)) ∧
  (∃ ws : list (pykey * hostvars_t),
     Forall2 (λ name w, hash name = Ok w.1) (all_hosts inv) ws ∧
     ∀ k, dict_get k (hostvars inv) = last_write k ws) ∧
  (∀ hosts : group, rs !! "hosts" = Some hosts →
     Forall2 (λ host_id name,
                ∃ a vm, dict_get host_id hosts = Some a ∧
                        vm_objs h' !! a = Some vm ∧ AzureVM.name vm = name)
             (dict_keys hosts) (all_hosts inv)) ∧
  (linked rs h ∨
   (∃ state, extract_resources state empty_heap = (h, Ok rs)) →
   ∀ hosts : group, rs !! "hosts" = Some hosts →
     ∃ ws : list (pykey * hostvars_t),
       Forall2 (λ host_id w,
                  ∃ a vm, dict_get host_id hosts = Some a ∧
                          vm_objs h' !! a = Some vm ∧
                          hash (AzureVM.name vm) = Ok w.1 ∧
                          hostvars_of use_private_ip h' vm = Some w.2)
               (dict_keys hosts) ws ∧
       ∀ k, dict_get k (hostvars inv) = last_write k ws).
Proof.
  unfold inventory. destruct (rs !! "hosts") as [hosts|] eqn:Hhosts.
  - intros Hloop.
    destruct (inventory_loop_writes _ _ _ _ _ _ _ _ Hloop)
      as (names & ws & Hall & Hhash & Hvars & Hids).
    simpl in Hall, Hvars. subst names.
    assert (∀ k, dict_get k (hostvars inv) = last_write k ws) as Hlast.
    { intros k. rewrite Hvars, dict_get_writes.
      by destruct (last_write k ws). }
    split_and!.
    + intros name Hin.
      apply list_elem_of_lookup in Hin as [i Hi].
      destruct (Forall2_lookup_l _ _ _ _ _ Hhash Hi) as ([k hv0] & Hw & Hk).
      simpl in Hk. exists k.
      destruct (last_write_elem k k hv0 ws) as [hv Hhv].
      { apply list_elem_of_lookup. eauto. }
      { apply key_eqb_refl. }
      exists hv. split; [done|]. by rewrite Hlast.
    + rewrite Hvars. apply writes_NoDup. constructor.
    + by exists ws.
    + by intros ? [= <-].
    + intros Hh ? [= <-].
      assert (linked rs h) as Hl.
      { destruct Hh as [Hl|[state Hext]]; [done|].
        pose proof (extract_resources_inv state) as Hinv.
        rewrite Hext in Hinv. apply fresh_linked, Hinv. }
      destruct (inventory_loop_last_write _ _ _ _ _ _ _ _ Hl Hloop)
        as (ws' & Hws' & Hvars').
      exists ws'. split; [done|]. intros k.
      rewrite Hvars', dict_get_writes. simpl.
      by destruct (last_write k ws').
  - intros [= <- <-]. split_and!.
    + by intros name ?%elem_of_nil.
    + constructor.
    + exists []. by split.
    + done.
    + done.
Qed.

Lemma inventory_hosts_and_hostvars_witness :
  let vm (id user : string) :=
    JDict [("attributes",
            JDict [("id", JStr id); ("name", JStr "web1");
                   ("network_interface_ids", JList [JStr "n1"]);
                   ("os_profile",
                    JList [JDict [("admin_username", JStr user)]])])] in
  let nic :=
    JDict [("attributes",
            JDict [("id", JStr "n1"); ("name", JStr "nic1");
                   ("private_ip_address", JStr "10.0.0.5");
                   ("ip_configuration",
                    JList [JDict [("public_ip_address_id", JStr "p1")]])])] in
  let ip :=
    JDict [("attributes",
            JDict [("id", JStr "p1"); ("name", JStr "ip1");
                   ("ip_address", JStr "20.1.1.1")])] in
  let state : jobject :=
    [("resources",
      JList [JDict [("type", JStr "azurerm_virtual_machine");
                    ("instances", JList [vm "v1" "alice"; vm "v2" "bob"])];
             JDict [("type", JStr "azurerm_network_interface");
                    ("instances", JList [nic])];
             JDict [("type", JStr "azurerm_public_ip");
                    ("instances", JList [ip])]])] in
  let v1 := AzureVM.mk (JStr "v1") (JStr "web1") (Some (JStr "n1"))
              (JStr "alice") None in
  let v2 := AzureVM.mk (JStr "v2") (JStr "web1") (Some (JStr "n1"))
              (JStr "bob") None in
  let n1 := AzureNIC.mk (JStr "n1") (JStr "nic1") (JStr "10.0.0.5") None
              (Some (JStr "p1")) in
  let p1 := AzureIP.mk (JStr "p1") (JStr "ip1") (JStr "20.1.1.1") in
  let h := Heap [v1; v2] [n1] [p1] in
  let hosts : group := [(KStr "v1", 0%nat); (KStr "v2", 1%nat)] in
  let rs : resources :=
    {[ "hosts" := hosts; "nics" := [(KStr "n1", 0%nat)];
       "public_ip" := [(KStr "p1", 0%nat)] ]} in
  let h' := Heap [AzureVM.set_nic 0%nat v1; AzureVM.set_nic 0%nat v2]
              [AzureNIC.set_public_ip 0%nat n1] [p1] in
  let inv :=
    Inventory [(KStr "web1", [("ansible_host", JStr "20.1.1.1");
                              ("ansible_user", JStr "bob")])]
              [JStr "web1"; JStr "web1"] in
  extract_resources state empty_heap = (h, Ok rs) ∧
  inventory rs false h = (h', Ok inv) ∧
  ∃ ws : list (pykey * hostvars_t),
    ws = [(KStr "web1", [("ansible_host", JStr "20.1.1.1");
                         ("ansible_user", JStr "alice")]);
          (KStr "web1", [("ansible_host", JStr "20.1.1.1");
                         ("ansible_user", JStr "bob")])] ∧
    ∀ k, dict_get k (hostvars inv) = last_write k ws.
Proof.
  intros vm nic ip state v1 v2 n1 p1 h hosts rs h' inv.
  split; [reflexivity|]. split; [reflexivity|].
  destruct (proj2 (proj2 (proj2 (proj2
              (inventory_hosts_and_hostvars rs false h h' inv eq_refl))))
              (or_intror (ex_intro _ state eq_refl)) hosts eq_refl)
    as (ws & Hws & Hlast).
  exists ws. split; [|exact Hlast].
  apply Forall2_cons_inv_l in Hws
    as ([k1 hv1] & ws1 & (a1 & vm1 & Ha1 & Hvm1 & Hk1 & Hhv1) & Hws & ->).
  apply Forall2_cons_inv_l in Hws
    as ([k2 hv2] & ws2 & (a2 & vm2 & Ha2 & Hvm2 & Hk2 & Hhv2) & Hws & ->).
  apply Forall2_nil_inv_l in Hws as ->.
  injection Ha1 as <-. injection Ha2 as <-.
  injection Hvm1 as <-. injection Hvm2 as <-.
  injection Hk1 as <-. injection Hk2 as <-.
  injection Hhv1 as <-. injection Hhv2 as <-.
  reflexivity.
Defined.

(** C4, as stated, fails: two VMs with different ids and the same name put
    that name into [all.hosts] twice. *)
Lemma all_hosts_duplicate_counterexample :
  let vm (id : string) :=
    JDict [("attributes",
            JDict [("id", JStr id); ("name", JStr "web1");
                   ("network_interface_ids", JList [JStr "n1"]);
                   ("os_profile", JList [])])] in
  let nic :=
    JDict [("attributes",
            JDict [("id", JStr "n1"); ("name", JStr "nic1");
                   ("private_ip_address", JStr "10.0.0.5");
                   ("ip_configuration",
                    JList [JDict [("public_ip_address_id", JStr "p1")]])])] in
  let ip :=
    JDict [("attributes",
            JDict [("id", JStr "p1"); ("name", JStr "ip1");
                   ("ip_address", JStr "20.1.1.1")])] in
  let state : jobject :=
    [("resources",
      JList [JDict [("type", JStr "azurerm_virtual_machine");
                    ("instances", JList [vm "v1"; vm "v2"])];
             JDict [("type", JStr "azurerm_network_interface");
                    ("instances", JList [nic])];
             JDict [("type", JStr "azurerm_public_ip");
                    ("instances", JList [ip])]])] in
  ∃ h inv, run state false = (h, Ok inv) ∧
           all_hosts inv = [JStr "web1"; JStr "web1"] ∧
           ¬ NoDup (all_hosts inv).
Proof.
  intros vm nic ip state. eexists _, _. split; [by vm_compute|]. simpl.
  split; [done|]. intros [Hnotin _]%NoDup_cons. apply Hnotin. left.
Qed.

(** C2, on the inputs where the code departs from it.  A VM built from an
    empty [network_interface_ids], and a NIC built from an empty
    [ip_configuration], make [lookup] raise [AttributeError] although both
    groups exist; a state with a VM, its NIC (empty [ip_configuration]) and a
    public IP aborts with [AttributeError]; a state with a VM and its NIC but
    no public-IP resource aborts with [KeyError].  With a public-IP resource
    present and the NIC's [public_ip_address_id] matching none, the same
    state builds, with the private address: the dangling reference the
    script means to tolerate. *)
Theorem lookup_absent_reference_raises :
  let attrs (extra : jobject) :=
    JDict [("attributes",
            JDict ([("id", JStr "x1"); ("name", JStr "web1")] ++ extra))] in
  let vm_no_nic :=
    attrs [("network_interface_ids", JList []); ("os_profile", JList [])] in
  let vm :=
    attrs [("network_interface_ids", JList [JStr "n1"]);
           ("os_profile", JList [])] in
  let nic_no_ip :=
    JDict [("attributes",
            JDict [("id", JStr "n1"); ("name", JStr "nic1");
                   ("private_ip_address", JStr "10.0.0.5");
                   ("ip_configuration", JList [])])] in
  let nic :=
    JDict [("attributes",
            JDict [("id", JStr "n1"); ("name", JStr "nic1");
                   ("private_ip_address", JStr "10.0.0.5");
                   ("ip_configuration",
                    JList [JDict [("public_ip_address_id", JStr "")]])])] in
  let ip :=
    JDict [("attributes",
            JDict [("id", JStr "p1"); ("name", JStr "ip1");
                   ("ip_address", JStr "20.1.1.1")])] in
  let entry (ty : string) (instances : list json) :=
    JDict [("type", JStr ty); ("instances", JList instances)] in
  let state (vms nics ips : list json) : jobject :=
    [("resources",
      JList ([entry "azurerm_virtual_machine" vms;
              entry "azurerm_network_interface" nics] ++ ips))] in
  let groups : resources := {[ "nics" := []; "public_ip" := [] ]} in
  (∃ o, AzureVM.init vm_no_nic = Ok o ∧
        AzureVM_lookup 0%nat groups (Heap [o] [] [])
        = (Heap [o] [] [], Raise AttributeError)) ∧
  (∃ o, AzureNIC.init nic_no_ip = Ok o ∧
        AzureNIC_lookup 0%nat groups (Heap [] [o] [])
        = (Heap [] [o] [], Raise AttributeError)) ∧
  (run (state [vm] [nic_no_ip] [entry "azurerm_public_ip" [ip]]) false).2
    = Raise AttributeError ∧
  (run (state [vm] [nic] []) false).2 = Raise KeyError ∧
  (∃ inv, (run (state [vm] [nic] [entry "azurerm_public_ip" [ip]]) false).2
          = Ok inv ∧
          hostvars inv = [(KStr "web1", [("ansible_host", JStr "10.0.0.5")])]).
Proof.
  intros. split_and!.
  - eexists. split; reflexivity.
  - eexists. split; reflexivity.
  - by vm_compute.
  - by vm_compute.
  - eexists. split; by vm_compute.
Qed.

(** * Further properties of the script *)

(** ** Constructors *)

Lemma AzureIP_init_Ok resource o :
  AzureIP.init resource = Ok o →
  ∃ attr, getitem_str resource "attributes" = Ok (JDict attr) ∧
          obj_get "id" attr = Some (AzureIP.id o) ∧
          obj_get "name" attr = Some (AzureIP.name o) ∧
          obj_get "ip_address" attr = Some (AzureIP.ip o).
Proof.
  unfold AzureIP.init.
  destruct (getitem_str resource "attributes") as [attrs|]; [simpl|done].
  destruct (getitem_str attrs "id") as [i|] eqn:Hi; [simpl|done].
  destruct (getitem_str attrs "name") as [n|] eqn:Hn; [simpl|done].
  destruct (getitem_str attrs "ip_address") as [p|] eqn:Hp; [simpl|done].
  intros [= <-]. simpl.
  apply getitem_str_Ok in Hi as (attr & -> & Hi).
  exists attr. simpl in *.
  destruct (obj_get "name" attr); [|done].
  destruct (obj_get "ip_address" attr); [|done]. naive_solver.
Qed.

Lemma AzureNIC_init_Ok resource o :
  AzureNIC.init resource = Ok o →
  ∃ attr, getitem_str resource "attributes" = Ok (JDict attr) ∧
          obj_get "id" attr = Some (AzureNIC.id o) ∧
          obj_get "name" attr = Some (AzureNIC.name o) ∧
          obj_get "private_ip_address" attr = Some (AzureNIC.private_ip o) ∧
          AzureNIC.public_ip o = None ∧
          ∃ c, obj_get "ip_configuration" attr = Some c ∧
               if truthy c then
                 ∃ first, getitem_0 c = Ok first ∧
                   ∃ v, getitem_str first "public_ip_address_id" = Ok v ∧
                        AzureNIC.public_ip_id o = Some v
               else AzureNIC.public_ip_id o = None.
Proof.
  unfold AzureNIC.init.
  destruct (getitem_str resource "attributes") as [attrs|]; [simpl|done].
  destruct (getitem_str attrs "id") as [i|] eqn:Hi; [simpl|done].
  apply getitem_str_Ok in Hi as (attr & -> & Hi). simpl.
  destruct (obj_get "name" attr) as [n|] eqn:Hn; [simpl|done].
  destruct (obj_get "private_ip_address" attr) as [p|] eqn:Hp; [simpl|done].
  destruct (obj_get "ip_configuration" attr) as [c|] eqn:Hcfg; [simpl|done].
  destruct (truthy c) eqn:Hc.
  - destruct (getitem_0 c) as [first|] eqn:Hfirst; [simpl|done].
    destruct (getitem_str first "public_ip_address_id") as [v|] eqn:Hv;
      [simpl|done].
    intros [= <-]. exists attr. split_and!; try done.
    exists c. split; [done|]. rewrite Hc. exists first. split; [done|].
    by exists v.
  - intros [= <-]. exists attr. split_and!; try done.
    exists c. split; [done|]. by rewrite Hc.
Qed.

Lemma AzureVM_init_Ok resource o :
  AzureVM.init resource = Ok o →
  ∃ attr, getitem_str resource "attributes" = Ok (JDict attr) ∧
          obj_get "id" attr = Some (AzureVM.id o) ∧
          obj_get "name" attr = Some (AzureVM.name o) ∧
          AzureVM.nic o = None ∧
          ∃ ids m, obj_get "network_interface_ids" attr = Some ids ∧
                   len ids = Ok m ∧
                   if decide (0 < m)%nat then
                     ∃ first, getitem_0 ids = Ok first ∧
                              AzureVM.nic_id o = Some first
                   else AzureVM.nic_id o = None.
Proof.
  unfold AzureVM.init.
  destruct (getitem_str resource "attributes") as [attrs|]; [simpl|done].
  destruct (getitem_str attrs "id") as [i|] eqn:Hi; [simpl|done].
  apply getitem_str_Ok in Hi as (attr & -> & Hi). simpl.
  destruct (obj_get "name" attr) as [n|] eqn:Hn; [simpl|done].
  destruct (obj_get "network_interface_ids" attr) as [ids|] eqn:Hids;
    [simpl|done].
  destruct (len ids) as [m|] eqn:Hm; [simpl|done].
  destruct (decide (0 < m)%nat) as [Hpos|Hpos].
  - destruct (getitem_0 ids) as [first|] eqn:Hf; [simpl|done].
    destruct (AzureVM.init_user (JDict attr)); [simpl|done].
    intros [= <-]. exists attr. split_and!; try done.
    exists ids, m. split_and!; try done.
    destruct (decide (0 < m)%nat); [|done]. by exists first.
  - simpl. destruct (AzureVM.init_user (JDict attr)); [simpl|done].
    intros [= <-]. exists attr. split_and!; try done.
    exists ids, m. split_and!; try done.
    by destruct (decide (0 < m)%nat).
Qed.

(** X1.  A record that a constructor returns carries the [id] and [name]
    of its attribute mapping unchanged (and a NIC its [private_ip_address]);
    an [AzureIP] is built exactly when [id], [name] and [ip_address] are
    present, and holds those three values. *)
Theorem init_copies_mandatory_fields :
  (∀ resource o, AzureVM.init resource = Ok o →
     ∃ attr, getitem_str resource "attributes" = Ok (JDict attr) ∧
             obj_get "id" attr = Some (AzureVM.id o) ∧
             obj_get "name" attr = Some (AzureVM.name o)) ∧
  (∀ resource o, AzureNIC.init resource = Ok o →
     ∃ attr, getitem_str resource "attributes" = Ok (JDict attr) ∧
             obj_get "id" attr = Some (AzureNIC.id o) ∧
             obj_get "name" attr = Some (AzureNIC.name o) ∧
             obj_get "private_ip_address" attr = Some (AzureNIC.private_ip o)) ∧
  (∀ resource o, AzureIP.init resource = Ok o ↔
     ∃ attr, getitem_str resource "attributes" = Ok (JDict attr) ∧
             obj_get "id" attr = Some (AzureIP.id o) ∧
             obj_get "name" attr = Some (AzureIP.name o) ∧
             obj_get "ip_address" attr = Some (AzureIP.ip o)).
Proof.
  split_and!.
  - intros resource o (attr & ? & ? & ? & _)%AzureVM_init_Ok. eauto.
  - intros resource o (attr & ? & ? & ? & ? & _)%AzureNIC_init_Ok.
    exists attr. eauto.
  - intros resource o. split; [apply AzureIP_init_Ok|].
    intros (attr & Ha & Hi & Hn & Hp). unfold AzureIP.init.
    rewrite Ha. simpl. rewrite Hi, Hn, Hp. simpl. by destruct o.
Qed.

(** X2.  A constructor passes on the exception of [resource['attributes']];
    it raises [TypeError] when the attributes are no mapping, and [KeyError]
    when the mapping lacks [id], or has [id] and lacks [name], or lacks the
    field of its kind ([ip_address], [private_ip_address]). *)
Theorem init_missing_mandatory_field (resource : json) :
  (∀ e, getitem_str resource "attributes" = Raise e →
     AzureVM.init resource = Raise e ∧ AzureNIC.init resource = Raise e ∧
     AzureIP.init resource = Raise e) ∧
  (∀ attrs, getitem_str resource "attributes" = Ok attrs →
     ((∀ attr, attrs ≠ JDict attr) →
        AzureVM.init resource = Raise TypeError ∧
        AzureNIC.init resource = Raise TypeError ∧
        AzureIP.init resource = Raise TypeError) ∧
     (∀ attr, attrs = JDict attr →
        (obj_get "id" attr = None ∨
         (is_Some (obj_get "id" attr) ∧ obj_get "name" attr = None) →
           AzureVM.init resource = Raise KeyError ∧
           AzureNIC.init resource = Raise KeyError ∧
           AzureIP.init resource = Raise KeyError) ∧
        (obj_get "ip_address" attr = None →
           AzureIP.init resource = Raise KeyError) ∧
        (obj_get "private_ip_address" attr = None →
           AzureNIC.init resource = Raise KeyError))).
Proof.
  unfold AzureVM.init, AzureNIC.init, AzureIP.init. split.
  - by intros e ->.
  - intros attrs ->. simpl. split.
    + intros Hne. destruct attrs; try done. by destruct (Hne d).
    + intros attr ->. simpl. split_and!.
      * intros [->|[[i ->] ->]]; done.
      * intros Hip. destruct (obj_get "id" attr); [simpl|done].
        destruct (obj_get "name" attr); [simpl|done]. by rewrite Hip.
      * intros Hip. destruct (obj_get "id" attr); [simpl|done].
        destruct (obj_get "name" attr); [simpl|done]. by rewrite Hip.
Qed.

Lemma init_missing_mandatory_field_witness :
  let resource :=
    JDict [("attributes", JDict [("name", JStr "web1");
                                 ("ip_address", JStr "20.1.1.1")])] in
  AzureVM.init resource = Raise KeyError ∧
  AzureNIC.init resource = Raise KeyError ∧
  AzureIP.init resource = Raise KeyError.
Proof.
  intros resource.
  destruct (proj2 (init_missing_mandatory_field resource) _ eq_refl)
    as [_ Hattr].
  destruct (Hattr _ eq_refl) as [Hid _]. apply Hid. left. reflexivity.
Defined.

(** X3.  Of [network_interface_ids], [os_profile] and [ip_configuration]
    only the first entry is read: changing the entries after the first
    changes neither whether the constructor succeeds nor what it returns;
    [nic_id] is the first interface id and [public_ip_id] the first
    configuration's [public_ip_address_id]. *)
Theorem only_first_entry_counts :
  (∀ attr x l l',
     AzureVM.init (with_field "network_interface_ids" (JList (x :: l)) attr)
     = AzureVM.init (with_field "network_interface_ids" (JList (x :: l')) attr)) ∧
  (∀ attr x l o,
     AzureVM.init (with_field "network_interface_ids" (JList (x :: l)) attr)
     = Ok o → AzureVM.nic_id o = Some x) ∧
  (∀ attr p l l',
     AzureVM.init (with_field "os_profile" (JList (p :: l)) attr)
     = AzureVM.init (with_field "os_profile" (JList (p :: l')) attr)) ∧
  (∀ attr c l l',
     AzureNIC.init (with_field "ip_configuration" (JList (c :: l)) attr)
     = AzureNIC.init (with_field "ip_configuration" (JList (c :: l')) attr)) ∧
  (∀ attr c l o,
     AzureNIC.init (with_field "ip_configuration" (JList (c :: l)) attr)
     = Ok o →
     ∃ v, getitem_str c "public_ip_address_id" = Ok v ∧
          AzureNIC.public_ip_id o = Some v).
Proof.
  unfold with_field, AzureVM.init, AzureVM.init_user, AzureNIC.init.
  split_and!.
  - intros attr x l l'. simpl.
    destruct (obj_get "id" attr); [simpl|done].
    by destruct (obj_get "name" attr).
  - intros attr x l o. simpl.
    destruct (obj_get "id" attr); [simpl|done].
    destruct (obj_get "name" attr); [simpl|done].
    destruct (obj_get "os_profile" attr) as [prof|]; [simpl|done].
    destruct (truthy prof); simpl.
    + destruct (getitem_0 prof) as [f|]; [simpl|done].
      destruct (getitem_str f "admin_username") as [u|]; [simpl|done].
      destruct (truthy u); by intros [= <-].
    + by intros [= <-].
  - intros attr p l l'. simpl.
    destruct (obj_get "id" attr); [simpl|done].
    destruct (obj_get "name" attr); [simpl|done].
    destruct (obj_get "network_interface_ids" attr) as [ids|]; [simpl|done].
    destruct (len ids) as [m|]; [simpl|done].
    by destruct (decide (0 < m)%nat).
  - intros attr c l l'. simpl.
    destruct (obj_get "id" attr); [simpl|done].
    destruct (obj_get "name" attr); [simpl|done].
    by destruct (obj_get "private_ip_address" attr).
  - intros attr c l o. simpl.
    destruct (obj_get "id" attr); [simpl|done].
    destruct (obj_get "name" attr); [simpl|done].
    destruct (obj_get "private_ip_address" attr); [simpl|done].
    destruct (getitem_str c "public_ip_address_id") as [v|]; [simpl|done].
    intros [= <-]. by exists v.
Qed.

Lemma only_first_entry_counts_witness :
  let attr := [("id", JStr "v1"); ("name", JStr "web1");
               ("os_profile", JList [])] in
  AzureVM.nic_id
    (AzureVM.mk (JStr "v1") (JStr "web1") (Some (JStr "n1")) JNull None)
  = Some (JStr "n1").
Proof.
  intros attr.
  exact (proj1 (proj2 only_first_entry_counts) attr (JStr "n1") [JStr "n2"]
           _ eq_refl).
Defined.

(** ** What extraction stores *)

#[global] Instance extends_refl : Reflexive extends.
Proof. intros h. unfold extends. by split_and!. Qed.
#[global] Instance extends_trans : Transitive extends.
Proof.
  intros h1 h2 h3 (?&?&?) (?&?&?). unfold extends. split_and!; by etrans.
Qed.

Lemma built_extends c instance h h' a k :
  extends h h' → built c instance h a k → built c instance h' a k.
Proof.
  intros (Hvm & Hnic & Hip). destruct c; simpl;
    intros (o & ? & Ho & ?); exists o; split_and!; try done;
    by eapply prefix_lookup_Some.
Qed.

Lemma id_at_extends c h h' a i :
  extends h h' → id_at c h a = Some i → id_at c h' a = Some i.
Proof.
  intros (Hvm & Hnic & Hip). destruct c; simpl;
    intros (o & Ho & ->)%fmap_Some;
    by erewrite prefix_lookup_Some.
Qed.

Lemma built_id_at c instance h a k :
  built c instance h a k → ∃ i, id_at c h a = Some i ∧ hash i = Ok k.
Proof.
  destruct c; simpl; intros (o & _ & -> & ?); eauto.
Qed.

Lemma keyed_by_id_extends c h h' g :
  extends h h' → keyed_by_id c h g → keyed_by_id c h' g.
Proof.
  intros He Hk k a Hka. destruct (Hk k a Hka) as (i & k' & ? & ? & ?).
  exists i, k'. split_and!; try done. by eapply id_at_extends.
Qed.

Lemma construct_Ok c instance h h' a i :
  construct c instance h = (h', Ok (a, i)) →
  a = store_size c h ∧ extends h h' ∧
  store_size c h' = S (store_size c h) ∧
  ∀ k, hash i = Ok k → built c instance h' a k.
Proof.
  destruct c; unfold construct; unfold_M.
  - destruct (AzureVM.init instance) as [o|] eqn:Hinit; [simpl|done].
    intros [= <- <- <-]. split_and!; try done.
    + unfold extends. simpl. split_and!; try done. by apply prefix_app_r.
    + simpl. rewrite length_app. simpl. lia.
    + intros k Hk. exists o. split_and!; try done. simpl.
      by rewrite lookup_app_r, Nat.sub_diag.
  - destruct (AzureIP.init instance) as [o|] eqn:Hinit; [simpl|done].
    intros [= <- <- <-]. split_and!; try done.
    + unfold extends. simpl. split_and!; try done. by apply prefix_app_r.
    + simpl. rewrite length_app. simpl. lia.
    + intros k Hk. exists o. split_and!; try done. simpl.
      by rewrite lookup_app_r, Nat.sub_diag.
  - destruct (AzureNIC.init instance) as [o|] eqn:Hinit; [simpl|done].
    intros [= <- <- <-]. split_and!; try done.
    + unfold extends. simpl. split_and!; try done. by apply prefix_app_r.
    + simpl. rewrite length_app. simpl. lia.
    + intros k Hk. exists o. split_and!; try done. simpl.
      by rewrite lookup_app_r, Nat.sub_diag.
Qed.

Lemma construct_Raise c instance h h' e :
  construct c instance h = (h', Raise e) → h' = h.
Proof.
  destruct c; unfold construct; unfold_M.
  - by destruct (AzureVM.init instance); simpl; intros [= <-].
  - by destruct (AzureIP.init instance); simpl; intros [= <-].
  - by destruct (AzureNIC.init instance); simpl; intros [= <-].
Qed.

Lemma add_instances_spec c instances g h h' g' :
  add_instances c instances g h = (h', Ok g') →
  extends h h' ∧
  store_size c h' = (store_size c h + length instances)%nat ∧
  ∃ ks : list pykey,
    length ks = length instances ∧
    g' = foldl (λ d w, dict_set w.1 w.2 d) g
           (zip ks (seq (store_size c h) (length instances))) ∧
    ∀ i instance, instances !! i = Some instance →
      ∃ k, ks !! i = Some k ∧ built c instance h' (store_size c h + i) k.
Proof.
  revert g h. induction instances as [|instance rest IH]; intros g h.
  - simpl. intros [= <- <-]. split_and!; [reflexivity|lia|].
    exists []. by split_and!.
  - rewrite add_instances_cons.
    destruct (construct c instance h) as [h1 [[a i]|e]] eqn:Hc; [|done].
    destruct (hash i) as [k|] eqn:Hk; [|done].
    intros Hrest.
    destruct (construct_Ok _ _ _ _ _ _ Hc) as (-> & He & Hsize & Hb).
    destruct (IH _ _ Hrest) as (He' & Hsize' & ks & Hlen & Hg & Hall).
    split_and!.
    + by etrans.
    + simpl. lia.
    + exists (k :: ks). split_and!.
      * simpl. lia.
      * simpl. by rewrite <- Hsize.
      * intros [|j] inst; simpl.
        -- intros [= <-]. exists k. split; [done|].
           rewrite Nat.add_0_r. eapply built_extends; [done|]. by apply Hb.
        -- intros Hj. destruct (Hall j inst Hj) as (k' & ? & Hb').
           exists k'. split; [done|].
           by replace (store_size c h + S j)%nat
             with (store_size c h1 + j)%nat by lia.
Qed.

Lemma last_write_Some {V} k (ws : list (pykey * V)) v :
  last_write k ws = Some v → ∃ k', (k', v) ∈ ws ∧ key_eqb k' k = true.
Proof.
  induction ws as [|[k0 v0] ws IH]; simpl; [done|].
  destruct (last_write k ws) as [v'|].
  - intros [= ->]. destruct IH as (k' & ? & ?); [done|].
    exists k'. split; [by right|done].
  - destruct (key_eqb k0 k) eqn:E; [|done]. intros [= ->].
    exists k0. split; [left|done].
Qed.

Lemma add_instances_keys c instances g h h' g' :
  add_instances c instances g h = (h', Ok g') →
  (∀ k, is_Some (dict_get k g) → is_Some (dict_get k g')) ∧
  (keyed_by_id c h g → keyed_by_id c h' g') ∧
  (∀ instance, instance ∈ instances →
     ∃ a k, built c instance h' a k ∧ is_Some (dict_get k g')).
Proof.
  intros Hadd.
  destruct (add_instances_spec _ _ _ _ _ _ Hadd)
    as (Hext & Hsize & ks & Hlen & -> & Hall).
  set (ws := zip ks (seq (store_size c h) (length instances))).
  assert (∀ k a, (k, a) ∈ ws →
            ∃ instance, instance ∈ instances ∧ built c instance h' a k) as Hws.
  { intros k a [i Hi]%list_elem_of_lookup.
    apply lookup_zip_with_Some in Hi as (k0 & a0 & [= <- <-] & Hk & Ha).
    apply lookup_seq in Ha as [-> Hlt].
    destruct (lookup_lt_is_Some_2 instances i Hlt) as [inst Hinst].
    destruct (Hall i inst Hinst) as (k' & Hk' & Hb).
    exists inst. split; [apply list_elem_of_lookup; eauto|]. congruence. }
  split_and!.
  - intros k. rewrite dict_get_writes. by destruct (last_write k ws).
  - intros Hkeyed k a. rewrite dict_get_writes.
    destruct (last_write k ws) as [a'|] eqn:Hlw.
    + intros [= ->]. apply last_write_Some in Hlw as (k' & Hin & Heq).
      destruct (Hws _ _ Hin) as (inst & _ & Hb).
      destruct (built_id_at _ _ _ _ _ Hb) as (i & ? & ?). by exists i, k'.
    + intros Hg. by apply (keyed_by_id_extends c h h' g Hext Hkeyed).
  - intros inst [i Hi]%list_elem_of_lookup.
    destruct (Hall i inst Hi) as (k & Hk & Hb).
    exists (store_size c h + i)%nat, k. split; [done|].
    rewrite dict_get_writes.
    destruct (last_write_elem k k (store_size c h + i)%nat ws) as [a ->];
      [|apply key_eqb_refl|done].
    apply list_elem_of_lookup. exists i.
    apply lookup_zip_with_Some. eexists _, _. split_and!; [done..|].
    apply lookup_seq. split; [done|]. by eapply lookup_lt_Some.
Qed.

Lemma add_resources_to_group_keys g res c h h' g' :
  add_resources_to_group g res c h = (h', Ok g') →
  extends h h' ∧
  (∀ k, is_Some (dict_get k g) → is_Some (dict_get k g')) ∧
  (keyed_by_id c h g → keyed_by_id c h' g') ∧
  (∀ v instances instance,
     obj_get "instances" res = Some v → iter v = Ok instances →
     instance ∈ instances →
     ∃ a k, built c instance h' a k ∧ is_Some (dict_get k g')).
Proof.
  unfold add_resources_to_group.
  destruct (obj_get "instances" res) as [v|].
  - unfold_M. destruct (iter v) as [instances|] eqn:Hiter; [simpl|done].
    destruct (add_instances c instances g h) as [h1 [g1|]] eqn:Hadd; [|done].
    intros [= <- <-].
    destruct (add_instances_spec _ _ _ _ _ _ Hadd) as (Hext & _).
    destruct (add_instances_keys _ _ _ _ _ _ Hadd) as (Hk & Hkeyed & Hall).
    split_and!; try done.
    intros v0 instances0 inst [= <-] Hit. rewrite Hiter in Hit.
    injection Hit as <-. apply Hall.
  - intros [= <- <-]. by split_and!.
Qed.

Lemma update_resource_group_keys ty td rs d h h' rs' :
  assoc ty resource_types = Some td →
  update_resource_group td rs d h = (h', Ok rs') →
  extends h h' ∧
  (∀ al, al ≠ alias td → rs' !! al = rs !! al) ∧
  ∃ g', rs' !! alias td = Some g' ∧
    (∀ g k, rs !! alias td = Some g → is_Some (dict_get k g) →
            is_Some (dict_get k g')) ∧
    ((∀ g, rs !! alias td = Some g → keyed_by_id (class td) h g) →
     keyed_by_id (class td) h' g') ∧
    (∀ v instances instance,
       obj_get "instances" d = Some v → iter v = Ok instances →
       instance ∈ instances →
       ∃ a k, built (class td) instance h' a k ∧ is_Some (dict_get k g')).
Proof.
  intros Hty. unfold update_resource_group. unfold_M.
  set (g := match rs !! alias td with Some g => g | None => [] end).
  destruct (add_resources_to_group g d (class td) h) as [h1 [g1|]] eqn:Hadd;
    [simpl|done].
  intros [= <- <-].
  destruct (add_resources_to_group_keys _ _ _ _ _ _ Hadd)
    as (Hext & Hk & Hkeyed & Hall).
  split_and!; [done| |].
  - intros al Hne. by rewrite lookup_insert_ne.
  - exists g1. rewrite lookup_insert_eq. split_and!; try done.
    + intros g0 k Hg0 Hsome. apply Hk. unfold g.
      destruct (rs !! alias td); by simplify_eq.
    + intros Hold. apply Hkeyed. unfold g.
      destruct (rs !! alias td) as [g0|]; [by apply Hold|].
      by intros k a.
Qed.

Lemma extract_loop_keys entries rs h h' rs' :
  extract_loop entries rs h = (h', Ok rs') →
  extends h h' ∧
  (∀ al g k, rs !! al = Some g → is_Some (dict_get k g) →
     ∃ g', rs' !! al = Some g' ∧ is_Some (dict_get k g')) ∧
  ((∀ ty td g, assoc ty resource_types = Some td → rs !! alias td = Some g →
      keyed_by_id (class td) h g) →
   ∀ ty td g, assoc ty resource_types = Some td → rs' !! alias td = Some g →
      keyed_by_id (class td) h' g) ∧
  (∀ d s td v instances instance,
     JDict d ∈ entries → obj_get "type" d = Some (JStr s) →
     assoc s resource_types = Some td →
     obj_get "instances" d = Some v → iter v = Ok instances →
     instance ∈ instances →
     ∃ g a k, rs' !! alias td = Some g ∧ built (class td) instance h' a k ∧
              is_Some (dict_get k g)).
Proof.
  revert rs h. induction entries as [|res rest IH]; intros rs h.
  - simpl. intros [= <- <-]. split_and!; [reflexivity|eauto|eauto|].
    by intros ?????? ?%elem_of_nil.
  - rewrite extract_loop_cons.
    destruct (getitem_str res "type") as [ty|] eqn:Hty; [|done].
    destruct (typedef_of ty) as [[td|]|] eqn:Htd; [| |done].
    + apply typedef_of_Some in Htd as (s & -> & Hs).
      destruct res as [| | | | |d]; try done.
      destruct (update_resource_group td rs d h) as [h1 [rs1|]] eqn:Hupd;
        [|done].
      intros Hrest.
      destruct (update_resource_group_keys _ _ _ _ _ _ _ Hs Hupd)
        as (Hext & Hother & g1 & Hg1 & Hk1 & Hkeyed1 & Hall1).
      destruct (IH _ _ Hrest) as (Hext' & Hk' & Hkeyed' & Hall').
      assert (obj_get "type" d = Some (JStr s)) as Htype.
      { simpl in Hty. by destruct (obj_get "type" d); simplify_eq. }
      split_and!.
      * by etrans.
      * intros al g k Hg Hsome.
        destruct (decide (al = alias td)) as [->|Hne].
        -- eapply Hk'; [done|]. by eapply Hk1.
        -- eapply Hk'; [|done]. by rewrite Hother.
      * intros Hinv. apply Hkeyed'. intros ty' td' g' Hty' Hg'.
        destruct (decide (alias td' = alias td)) as [Heq|Hne].
        -- rewrite (resource_types_alias _ _ _ _ Hty' Hs Heq) in *.
           rewrite Hg1 in Hg'. injection Hg' as <-.
           apply Hkeyed1. intros g0 Hg0. by eapply Hinv.
        -- rewrite Hother in Hg' by done.
           eapply keyed_by_id_extends; [done|]. by eapply Hinv.
      * intros d0 s0 td0 v insts inst [[= <-]|Hin]%elem_of_cons
          Htype0 Hs0 Hv Hiter Hinst.
        -- assert (s0 = s) as -> by congruence.
           assert (td0 = td) as -> by congruence.
           destruct (Hall1 _ _ _ Hv Hiter Hinst) as (a & k & Hb & Hsome).
           destruct (Hk' _ _ _ Hg1 Hsome) as (g' & Hg' & Hsome').
           exists g', a, k. split_and!; try done.
           by eapply built_extends.
        -- by eapply Hall'.
    + intros Hrest. destruct (IH _ _ Hrest) as (Hext' & Hk' & Hkeyed' & Hall').
      split_and!; try done.
      intros d0 s0 td0 v insts inst [[= <-]|Hin]%elem_of_cons
        Htype0 Hs0 Hv Hiter Hinst; [|by eapply Hall'].
      simpl in Hty. rewrite Htype0 in Hty. injection Hty as <-.
      rewrite typedef_of_JStr, Hs0 in Htd. done.
Qed.

(** X4.  When [add_resources_to_group] returns, every instance has been
    built into a new object of its own, appended to the store in instance
    order behind the objects that were there, which stay as they were; the
    group then maps an id to the object of the last instance carrying it,
    and every other key to what it mapped to before. *)
Theorem add_resources_to_group_stores
    (g : group) (res : jobject) (c : restype) (h h' : heap) (g' : group)
    (v : json) (instances : list json) :
  obj_get "instances" res = Some v → iter v = Ok instances →
  add_resources_to_group g res c h = (h', Ok g') →
  extends h h' ∧
  store_size c h' = (store_size c h + length instances)%nat ∧
  ∃ ks : list pykey,
    length ks = length instances ∧
    (∀ i instance, instances !! i = Some instance →
       ∃ k, ks !! i = Some k ∧ built c instance h' (store_size c h + i) k) ∧
    (∀ k, dict_get k g' =
          match last_write k (zip ks (seq (store_size c h) (length instances)))
          with
          | Some a => Some a
          | None => dict_get k g
          end).
Proof.
  intros Hv Hiter. unfold add_resources_to_group. rewrite Hv. unfold_M.
  rewrite Hiter. simpl.
  destruct (add_instances c instances g h) as [h1 [g1|]] eqn:Hadd; [|done].
  intros [= <- <-].
  destruct (add_instances_spec _ _ _ _ _ _ Hadd)
    as (Hext & Hsize & ks & Hlen & -> & Hall).
  split_and!; try done. exists ks. split_and!; try done.
  intros k. apply dict_get_writes.
Qed.

Lemma add_resources_to_group_stores_witness :
  let inst (id : string) :=
    JDict [("attributes", JDict [("id", JStr id); ("name", JStr "ip");
                                 ("ip_address", JStr "20.1.1.1")])] in
  let res : jobject := [("instances", JList [inst "p1"; inst "p1"])] in
  let o := AzureIP.mk (JStr "p1") (JStr "ip") (JStr "20.1.1.1") in
  add_resources_to_group [] res ClsAzureIP empty_heap
    = (Heap [] [] [o; o], Ok [(KStr "p1", 1%nat)]) ∧
  store_size ClsAzureIP (Heap [] [] [o; o]) = 2%nat.
Proof.
  intros inst res o. split; [reflexivity|].
  exact (proj1 (proj2 (add_resources_to_group_stores [] res ClsAzureIP
                         empty_heap (Heap [] [] [o; o]) [(KStr "p1", 1%nat)]
                         _ _ eq_refl eq_refl eq_refl))).
Defined.

Lemma extract_resources_Ok state h rs :
  extract_resources state empty_heap = (h, Ok rs) →
  (obj_get "resources" state = None ∧ h = empty_heap ∧ rs = ∅) ∨
  ∃ v entries, obj_get "resources" state = Some v ∧ iter v = Ok entries ∧
               extract_loop entries ∅ empty_heap = (h, Ok rs).
Proof.
  unfold extract_resources. destruct (obj_get "resources" state) as [v|].
  - unfold_M. destruct (iter v) as [entries|] eqn:Hiter; [simpl|done].
    intros Hloop. right. exists v, entries. by split_and!.
  - intros [= <- <-]. by left.
Qed.

Lemma update_resource_group_NoDup td rs d h h' rs' :
  (∀ al g, rs !! al = Some g → NoDup (key_norm <$> dict_keys g)) →
  update_resource_group td rs d h = (h', Ok rs') →
  ∀ al g, rs' !! al = Some g → NoDup (key_norm <$> dict_keys g).
Proof.
  intros Hinv. unfold update_resource_group, add_resources_to_group. unfold_M.
  set (g0 := match rs !! alias td with Some g => g | None => [] end).
  assert (NoDup (key_norm <$> dict_keys g0)) as Hg0.
  { unfold g0. destruct (rs !! alias td) eqn:E; [by eapply Hinv|constructor]. }
  assert (∀ g1, NoDup (key_norm <$> dict_keys g1) →
            ∀ al g, <[alias td := g1]> rs !! al = Some g →
                    NoDup (key_norm <$> dict_keys g)) as Hins.
  { intros g1 Hg1 al g. destruct (decide (al = alias td)) as [->|Hne].
    - rewrite lookup_insert_eq. by intros [= <-].
    - rewrite lookup_insert_ne by done. apply Hinv. }
  destruct (obj_get "instances" d) as [v|]; simpl.
  - destruct (iter v) as [instances|]; [simpl|done].
    destruct (add_instances (class td) instances g0 h) as [h1 [g1|]] eqn:Hadd;
      [simpl|done].
    intros [= <- <-]. apply Hins.
    destruct (add_instances_spec _ _ _ _ _ _ Hadd) as (_ & _ & ks & _ & -> & _).
    by apply writes_NoDup.
  - intros [= <- <-]. by apply Hins.
Qed.

Lemma extract_loop_NoDup entries rs h h' rs' :
  (∀ al g, rs !! al = Some g → NoDup (key_norm <$> dict_keys g)) →
  extract_loop entries rs h = (h', Ok rs') →
  ∀ al g, rs' !! al = Some g → NoDup (key_norm <$> dict_keys g).
Proof.
  revert rs h. induction entries as [|res rest IH]; intros rs h Hinv.
  - by intros [= <- <-].
  - rewrite extract_loop_cons.
    destruct (getitem_str res "type") as [ty|]; [|done].
    destruct (typedef_of ty) as [[td|]|]; [| |done].
    + destruct res as [| | | | |d]; try done.
      destruct (update_resource_group td rs d h) as [h1 [rs1|]] eqn:Hupd;
        [|done].
      apply IH. by eapply update_resource_group_NoDup.
    + by apply IH.
Qed.

(** X5.  In the groups a successful extraction returns, keys are pairwise
    different and every key leads to an object of the group's class whose
    [id] is that key. *)
Theorem extracted_groups_keyed_by_id
    (state : jobject) (h : heap) (rs : resources) :
  extract_resources state empty_heap = (h, Ok rs) →
  ∀ ty td g, assoc ty resource_types = Some td → rs !! alias td = Some g →
    NoDup (key_norm <$> dict_keys g) ∧
    ∀ k a, dict_get k g = Some a →
      ∃ i k', id_at (class td) h a = Some i ∧ hash i = Ok k' ∧
              key_eqb k' k = true.
Proof.
  intros [(_ & -> & ->)|(v & entries & _ & _ & Hloop)]%extract_resources_Ok
    ty td g Hty Hg.
  - by rewrite lookup_empty in Hg.
  - split.
    + eapply (extract_loop_NoDup entries ∅); [|done..].
      intros al g0. by rewrite lookup_empty.
    + destruct (extract_loop_keys _ _ _ _ _ Hloop) as (_ & _ & Hkeyed & _).
      eapply Hkeyed; [|done..]. intros ty0 td0 g0 _. by rewrite lookup_empty.
Qed.

(** X6.  After a successful extraction every instance of every entry of a
    recognized kind has been built, and its id is a key of the group of that
    kind: nothing is skipped. *)
Theorem extracted_instances_present
    (state : jobject) (h : heap) (rs : resources)
    (v : json) (entries : list json) (d : jobject) (s : string) (td : typedef)
    (w : json) (instances : list json) (instance : json) :
  extract_resources state empty_heap = (h, Ok rs) →
  obj_get "resources" state = Some v → iter v = Ok entries →
  JDict d ∈ entries →
  obj_get "type" d = Some (JStr s) → assoc s resource_types = Some td →
  obj_get "instances" d = Some w → iter w = Ok instances →
  instance ∈ instances →
  ∃ g a k, rs !! alias td = Some g ∧ built (class td) instance h a k ∧
           is_Some (dict_get k g).
Proof.
  intros [(Hnone & _)|(v' & entries' & Hv' & Hiter' & Hloop)]%extract_resources_Ok
    Hv Hiter Hd Hs Htd Hw Hiw Hinst; [congruence|].
  assert (entries' = entries) as -> by congruence.
  destruct (extract_loop_keys _ _ _ _ _ Hloop) as (_ & _ & _ & Hall).
  by eapply Hall.
Qed.

Lemma extracted_groups_keyed_by_id_witness :
  let ip :=
    JDict [("attributes",
            JDict [("id", JStr "p1"); ("name", JStr "ip1");
                   ("ip_address", JStr "20.1.1.1")])] in
  let state : jobject :=
    [("resources",
      JList [JDict [("type", JStr "azurerm_public_ip");
                    ("instances", JList [ip])]])] in
  let h := Heap [] [] [AzureIP.mk (JStr "p1") (JStr "ip1") (JStr "20.1.1.1")] in
  ∃ i k', id_at ClsAzureIP h 0%nat = Some i ∧ hash i = Ok k' ∧
          key_eqb k' (KStr "p1") = true.
Proof.
  intros ip state h.
  destruct (extracted_groups_keyed_by_id state h
              (<["public_ip" := [(KStr "p1", 0%nat)]]> ∅) eq_refl
              "azurerm_public_ip" (Typedef "public_ip" ClsAzureIP)
              [(KStr "p1", 0%nat)] eq_refl eq_refl) as [_ Hkeyed].
  exact (Hkeyed (KStr "p1") 0%nat eq_refl).
Defined.

Lemma extracted_instances_present_witness :
  let ip :=
    JDict [("attributes",
            JDict [("id", JStr "p1"); ("name", JStr "ip1");
                   ("ip_address", JStr "20.1.1.1")])] in
  let d : jobject :=
    [("type", JStr "azurerm_public_ip"); ("instances", JList [ip])] in
  let state : jobject := [("resources", JList [JDict d])] in
  let h := Heap [] [] [AzureIP.mk (JStr "p1") (JStr "ip1") (JStr "20.1.1.1")] in
  let rs : resources := <["public_ip" := [(KStr "p1", 0%nat)]]> ∅ in
  ∃ g a k, rs !! "public_ip" = Some g ∧ built ClsAzureIP ip h a k ∧
           is_Some (dict_get k g).
Proof.
  intros ip d state h rs.
  exact (extracted_instances_present state h rs (JList [JDict d]) [JDict d] d
           "azurerm_public_ip" (Typedef "public_ip" ClsAzureIP)
           (JList [ip]) [ip] ip eq_refl eq_refl eq_refl
           (list_elem_of_here _ _) eq_refl eq_refl eq_refl eq_refl
           (list_elem_of_here _ _)).
Defined.

Lemma extract_loop_skip l1 res l2 rs h :
  unrecognized res →
  extract_loop (l1 ++ res :: l2) rs h = extract_loop (l1 ++ l2) rs h.
Proof.
  intros (s & Hty & Hs). revert rs h.
  induction l1 as [|x l1 IH]; intros rs h.
  - simpl app. by rewrite extract_loop_cons, Hty, typedef_of_JStr, Hs.
  - simpl app. rewrite !extract_loop_cons.
    destruct (getitem_str x "type") as [ty|]; [|done].
    destruct (typedef_of ty) as [[td|]|]; [|done..].
    destruct x as [| | | | |d]; try done.
    by destruct (update_resource_group td rs d h) as [h1 [rs1|]].
Qed.

(** X7.  Removing from the document an entry whose [type] is a string
    outside [resource_types] changes nothing: extraction returns the same
    groups, store and outcome, and so does the whole run. *)
Theorem unknown_kind_ignored
    (state state' : jobject) (l1 l2 : list json) (res : json)
    (use_private_ip : bool) :
  unrecognized res →
  obj_get "resources" state = Some (JList (l1 ++ res :: l2)) →
  obj_get "resources" state' = Some (JList (l1 ++ l2)) →
  extract_resources state empty_heap = extract_resources state' empty_heap ∧
  run state use_private_ip = run state' use_private_ip.
Proof.
  intros Hres Hs Hs'.
  assert (extract_resources state empty_heap
          = extract_resources state' empty_heap) as Heq.
  { unfold extract_resources. rewrite Hs, Hs'. unfold_M. simpl.
    by rewrite extract_loop_skip. }
  split; [done|]. by rewrite !run_unfold, Heq.
Qed.

Lemma unknown_kind_ignored_witness :
  let ip :=
    JDict [("attributes",
            JDict [("id", JStr "p1"); ("name", JStr "ip1");
                   ("ip_address", JStr "20.1.1.1")])] in
  let known := JDict [("type", JStr "azurerm_public_ip");
                      ("instances", JList [ip])] in
  let unknown := JDict [("type", JStr "azurerm_subnet");
                        ("instances", JList [JNull])] in
  run [("resources", JList [known; unknown])] false
  = run [("resources", JList [known])] false.
Proof.
  intros ip known unknown.
  refine (proj2 (unknown_kind_ignored
                   [("resources", JList [known; unknown])]
                   [("resources", JList [known])] [known] [] unknown false
                   _ eq_refl eq_refl)).
  exists "azurerm_subnet". split; reflexivity.
Defined.

(** X8.  Whatever the document, the objects extraction leaves behind have
    no reference attached ([nic] unset, [public_ip] [None]); on success every
    address in a group is an object of the group's class; and no run ends
    for want of an object, only with one of Python's exceptions. *)
Theorem extracted_store_well_formed (state : jobject) :
  let h := (extract_resources state empty_heap).1 in
  fresh h ∧
  (∀ rs, (extract_resources state empty_heap).2 = Ok rs →
     wf_heap rs h ∧ linked rs h) ∧
  (∀ use_private_ip, (run state use_private_ip).2 ≠ Raise Dangling).
Proof.
  simpl. destruct (extract_resources_inv state) as (Hf & _ & Hwf).
  split_and!; [done| |].
  - intros rs Hrs. split; [by apply Hwf|by apply fresh_linked].
  - intros b. apply run_not_Dangling.
Qed.

(** ** What the builder writes *)

Lemma entry_ok_frame b h h' hv :
  heap_frame h h' → entry_ok b h hv → entry_ok b h' hv.
Proof.
  intros (Hvm & Hnic & Hip) (ah & Hshape & Haddr). exists ah. split.
  - destruct Hshape as [->|(a & vm & Ha & Ht & ->)]; [by left|right].
    destruct (Forall2_lookup_l _ _ _ _ _ Hvm Ha) as (vm' & Ha' & _&_&_& Hu).
    exists a, vm'. rewrite <- Hu. by split_and!.
  - destruct Haddr as [(n & nic & Hn & ->)|(-> & p & o & Hp & ->)].
    + left. destruct (Forall2_lookup_l _ _ _ _ _ Hnic Hn)
        as (nic' & Hn' & _&_& Hpriv &_).
      exists n, nic'. by rewrite Hpriv.
    + right. split; [done|]. exists p, o. by rewrite <- Hip.
Qed.

Lemma dict_set_Forall {V} (P : V → Prop) k v (d : pydict V) :
  Forall (λ kv, P kv.2) d → P v → Forall (λ kv, P kv.2) (dict_set k v d).
Proof.
  intros Hd Hv. induction d as [|[k0 v0] d IH]; simpl.
  - by repeat constructor.
  - apply Forall_cons in Hd as [H0 Hd].
    destruct (key_eqb k0 k); constructor; auto.
Qed.

Lemma add_host_to_inventory_entry rs b inv a h h1 inv1 :
  add_host_to_inventory rs b inv a h = (h1, Ok inv1) →
  ∃ k hv, hostvars inv1 = dict_set k hv (hostvars inv) ∧ entry_ok b h1 hv.
Proof.
  rewrite add_host_to_inventory_unfold.
  destruct (AzureVM_lookup a rs h) as [h' [[]|e]]; [|done].
  destruct (vm_objs h' !! a) as [this|] eqn:Hthis; [|done].
  destruct (hash (AzureVM.name this)) as [k|] eqn:Hk; [|done].
  destruct (AzureVM.nic this) as [n|] eqn:Hn; [|done].
  destruct (nic_objs h' !! n) as [nic|] eqn:Hnic; [|done].
  assert (∀ ah,
    ((∃ n nic, nic_objs h' !! n = Some nic ∧ ah = AzureNIC.private_ip nic) ∨
     (b = false ∧ ∃ p o, ip_objs h' !! p = Some o ∧ ah = AzureIP.ip o)) →
    entry_ok b h'
      (("ansible_host", ah) ::
       (if truthy (AzureVM.user this)
        then [("ansible_user", AzureVM.user this)] else []))) as Hentry.
  { intros ah Haddr. exists ah. split; [|done].
    destruct (truthy (AzureVM.user this)) eqn:Ht; [right|by left].
    by exists a, this. }
  destruct (AzureNIC.public_ip nic) as [p|].
  - destruct b.
    + intros [= <- <-]. eexists k, _. split; [done|]. apply Hentry.
      left. by exists n, nic.
    + destruct (ip_objs h' !! p) as [ipo|] eqn:Hipo; [|done].
      intros [= <- <-]. eexists k, _. split; [done|]. apply Hentry.
      right. split; [done|]. by exists p, ipo.
  - intros [= <- <-]. eexists k, _. split; [done|]. apply Hentry.
    left. by exists n, nic.
Qed.

Lemma inventory_loop_entries rs b hosts ids inv h h' inv' :
  inventory_loop rs b hosts ids inv h = (h', Ok inv') →
  Forall (λ kv, entry_ok b h kv.2) (hostvars inv) →
  Forall (λ kv, entry_ok b h' kv.2) (hostvars inv').
Proof.
  revert inv h. induction ids as [|k ids IH]; intros inv h.
  - by intros [= <- <-].
  - rewrite inventory_loop_cons.
    destruct (dict_get k hosts) as [a|]; [|done].
    destruct (add_host_to_inventory rs b inv a h) as [h1 [inv1|]] eqn:Hadd;
      [|done].
    intros Hloop Hinv. apply (IH _ _ Hloop).
    destruct (add_host_to_inventory_entry _ _ _ _ _ _ _ Hadd)
      as (k1 & hv & -> & Hhv).
    pose proof (add_host_to_inventory_frame rs b inv a h) as Hfr.
    rewrite Hadd in Hfr. simpl in Hfr.
    apply dict_set_Forall; [|done].
    eapply Forall_impl; [done|]. intros kv ?. by eapply entry_ok_frame.
Qed.

(** X9.  Every entry of [_meta.hostvars] in a returned document is
    [ansible_host] alone, or [ansible_host] followed by [ansible_user] with
    the non-empty [user] of a VM; the address is the [private_ip] of a NIC
    or, only when [use_private_ip] is false, the [ip] of a public IP. *)
Theorem hostvars_entries_shape
    (rs : resources) (use_private_ip : bool) (h h' : heap)
    (inv : inventory_t) (k : pykey) (hv : hostvars_t) :
  inventory rs use_private_ip h = (h', Ok inv) →
  dict_get k (hostvars inv) = Some hv →
  entry_ok use_private_ip h' hv.
Proof.
  unfold inventory. destruct (rs !! "hosts") as [hosts|].
  - intros Hloop (k0 & Hin & _)%dict_get_Some_elem.
    assert (Forall (λ kv : pykey * hostvars_t, entry_ok use_private_ip h' kv.2)
                   (hostvars inv)) as Hall.
    { eapply inventory_loop_entries; [done|]. constructor. }
    rewrite Forall_forall in Hall. apply (Hall _ Hin).
  - by intros [= <- <-].
Qed.

Lemma hostvars_entries_shape_witness :
  let vm := AzureVM.mk (JStr "v1") (JStr "web1") (Some (JStr "n1"))
              (JStr "azureuser") None in
  let nic := AzureNIC.mk (JStr "n1") (JStr "nic1") (JStr "10.0.0.5") None
               (Some (JStr "p1")) in
  let ip := AzureIP.mk (JStr "p1") (JStr "ip1") (JStr "20.1.1.1") in
  let h := Heap [vm] [nic] [ip] in
  let rs : resources :=
    {[ "hosts" := [(KStr "v1", 0%nat)]; "nics" := [(KStr "n1", 0%nat)];
       "public_ip" := [(KStr "p1", 0%nat)] ]} in
  let h' := Heap [AzureVM.set_nic 0%nat vm] [AzureNIC.set_public_ip 0%nat nic]
              [ip] in
  entry_ok true h' [("ansible_host", JStr "10.0.0.5");
                    ("ansible_user", JStr "azureuser")].
Proof.
  intros vm nic ip h rs h'.
  exact (hostvars_entries_shape rs true h h'
           (Inventory [(KStr "web1", [("ansible_host", JStr "10.0.0.5");
                                      ("ansible_user", JStr "azureuser")])]
                      [JStr "web1"])
           (KStr "web1") _ eq_refl eq_refl).
Defined.

(** ** A host without a network interface *)

(** X10.  For a VM without [nic] whose [nic_id] is no key of the [nics]
    group, [lookup] returns normally and changes nothing, and
    [add_host_to_inventory] then raises [AttributeError] on [host.nic],
    whatever the flag. *)
Theorem dangling_nic_id_aborts
    (rs : resources) (use_private_ip : bool) (inv : inventory_t)
    (host : addr) (h : heap) (vm : AzureVM.t) (v : json) (k kname : pykey)
    (nics : group) :
  vm_objs h !! host = Some vm → AzureVM.nic vm = None →
  AzureVM.nic_id vm = Some v → hash v = Ok k →
  rs !! "nics" = Some nics → dict_get k nics = None →
  hash (AzureVM.name vm) = Ok kname →
  AzureVM_lookup host rs h = (h, Ok ()) ∧
  add_host_to_inventory rs use_private_ip inv host h
  = (h, Raise AttributeError).
Proof.
  intros Hvm Hnic Hv Hk Hnics Hget Hname.
  assert (AzureVM_lookup host rs h = (h, Ok ())) as Hlook.
  { by rewrite AzureVM_lookup_unfold, Hnics, Hvm, Hv, Hk, Hget. }
  split; [done|].
  by rewrite add_host_to_inventory_unfold, Hlook, Hvm, Hname, Hnic.
Qed.

Lemma dangling_nic_id_aborts_witness :
  let vm := AzureVM.mk (JStr "v1") (JStr "web1") (Some (JStr "n9")) JNull None in
  let h := Heap [vm] [] [] in
  let rs : resources :=
    {[ "hosts" := [(KStr "v1", 0%nat)]; "nics" := [] ]} in
  add_host_to_inventory rs false empty_inventory 0%nat h
  = (h, Raise AttributeError).
Proof.
  intros vm h rs.
  exact (proj2 (dangling_nic_id_aborts rs false empty_inventory 0%nat h vm
                  (JStr "n9") (KStr "n9") (KStr "web1") []
                  eq_refl eq_refl eq_refl eq_refl eq_refl eq_refl eq_refl)).
Defined.

Lemma inventory_loop_hosts_resolved rs b hosts ids inv h h' inv' :
  linked rs h →
  inventory_loop rs b hosts ids inv h = (h', Ok inv') →
  ∀ host_id, host_id ∈ ids →
    ∃ a vm n nic,
      dict_get host_id hosts = Some a ∧ vm_objs h' !! a = Some vm ∧
      AzureVM.nic vm = Some n ∧ vm_target rs vm = Some n ∧
      nic_objs h' !! n = Some nic.
Proof.
  revert inv h. induction ids as [|k ids IH]; intros inv h Hl.
  - by intros _ ? ?%elem_of_nil.
  - rewrite inventory_loop_cons.
    destruct (dict_get k hosts) as [a|] eqn:Hk; [|done].
    destruct (add_host_to_inventory_linked rs b inv a h Hl) as [_ Hl1].
    destruct (add_host_to_inventory rs b inv a h) as [h1 [inv1|]] eqn:Hadd;
      [|done].
    simpl in Hl1. intros Hloop host_id [->|Hin]%elem_of_cons;
      [|by eapply IH].
    destruct (add_host_to_inventory_Ok _ _ _ _ _ _ _ Hadd)
      as (vm1 & k1 & n & nic1 & ah & _ & Hvm1 & _ & Hn & Hnic1 & _).
    destruct (inventory_loop_linked rs b hosts ids inv1 h1 Hl1) as [Hb _].
    rewrite Hloop in Hb. simpl in Hb.
    pose proof (below_lookup_vm _ _ a Hb) as Hvm'. rewrite Hvm1 in Hvm'.
    destruct Hvm' as (vm' & Hvm' & Hsame & Hkept).
    pose proof (below_lookup_nic _ _ n Hb) as Hnic'. rewrite Hnic1 in Hnic'.
    destruct Hnic' as (nic' & Hnic' & _).
    exists a, vm', n, nic'. split_and!; try done; [by apply Hkept|].
    rewrite <- (vm_target_same _ _ _ Hsame). by eapply linked_vm.
Qed.

(** X11.  When the builder returns a document for an extracted state,
    every VM of the [hosts] group has its [nic] attached, to the NIC stored
    under its [nic_id] in the [nics] group: one host without a NIC and there
    is no document. *)
Theorem built_hosts_have_nic
    (state : jobject) (use_private_ip : bool) (h h' : heap) (rs : resources)
    (inv : inventory_t) (hosts : group) (host_id : pykey) :
  extract_resources state empty_heap = (h, Ok rs) →
  inventory rs use_private_ip h = (h', Ok inv) →
  rs !! "hosts" = Some hosts → host_id ∈ dict_keys hosts →
  ∃ a vm n nic,
    dict_get host_id hosts = Some a ∧ vm_objs h' !! a = Some vm ∧
    AzureVM.nic vm = Some n ∧ vm_target rs vm = Some n ∧
    nic_objs h' !! n = Some nic.
Proof.
  intros Hex Hinv Hhosts Hin.
  destruct (extract_resources_inv state) as (Hf & _ & _).
  rewrite Hex in Hf. simpl in Hf.
  unfold inventory in Hinv. rewrite Hhosts in Hinv.
  by eapply (inventory_loop_hosts_resolved rs use_private_ip hosts);
    [apply fresh_linked|..].
Qed.

Lemma built_hosts_have_nic_witness :
  let vm1 := JDict [("attributes",
               JDict [("id", JStr "v1"); ("name", JStr "web1");
                      ("network_interface_ids", JList [JStr "n1"]);
                      ("os_profile", JList [])])] in
  let nic1 := JDict [("attributes",
                JDict [("id", JStr "n1"); ("name", JStr "nic1");
                       ("private_ip_address", JStr "10.0.0.5");
                       ("ip_configuration",
                        JList [JDict [("public_ip_address_id", JStr "")]])])] in
  let ip1 := JDict [("attributes",
               JDict [("id", JStr "p1"); ("name", JStr "ip1");
                      ("ip_address", JStr "20.1.1.1")])] in
  let state : jobject :=
    [("resources",
      JList [JDict [("type", JStr "azurerm_virtual_machine");
                    ("instances", JList [vm1])];
             JDict [("type", JStr "azurerm_network_interface");
                    ("instances", JList [nic1])];
             JDict [("type", JStr "azurerm_public_ip");
                    ("instances", JList [ip1])]])] in
  let vm := AzureVM.mk (JStr "v1") (JStr "web1") (Some (JStr "n1")) JNull None in
  let nic := AzureNIC.mk (JStr "n1") (JStr "nic1") (JStr "10.0.0.5") None
               (Some (JStr "")) in
  let ip := AzureIP.mk (JStr "p1") (JStr "ip1") (JStr "20.1.1.1") in
  let rs : resources :=
    <["public_ip" := [(KStr "p1", 0%nat)]]>
      (<["nics" := [(KStr "n1", 0%nat)]]>
         (<["hosts" := [(KStr "v1", 0%nat)]]> ∅)) in
  let h' := Heap [AzureVM.set_nic 0%nat vm] [nic] [ip] in
  ∃ a vm' n nic',
    dict_get (KStr "v1") [(KStr "v1", 0%nat)] = Some a ∧
    vm_objs h' !! a = Some vm' ∧ AzureVM.nic vm' = Some n ∧
    vm_target rs vm' = Some n ∧ nic_objs h' !! n = Some nic'.
Proof.
  intros vm1 nic1 ip1 state vm nic ip rs h'.
  exact (built_hosts_have_nic state false (Heap [vm] [nic] [ip]) h' rs
           (Inventory [(KStr "web1", [("ansible_host", JStr "10.0.0.5")])]
                      [JStr "web1"])
           [(KStr "v1", 0%nat)] (KStr "v1")
           eq_refl eq_refl eq_refl (list_elem_of_here _ _)).
Defined.

(** ** The flag changes addresses only *)

Lemma same_but_ansible_host_set k ah ah' rest inv inv' name :
  same_but_ansible_host inv inv' →
  same_but_ansible_host
    (Inventory (dict_set k (("ansible_host", ah) :: rest) (hostvars inv))
               (all_hosts inv ++ [name]))
    (Inventory (dict_set k (("ansible_host", ah') :: rest) (hostvars inv'))
               (all_hosts inv' ++ [name])).
Proof.
  intros [Hall Hvars]. split; simpl; [by rewrite Hall|].
  induction Hvars as [|[k0 e] [k0' e'] d d' [Hk He] Hd IH]; simpl.
  - repeat constructor. simpl. eauto.
  - simpl in Hk. subst k0'. destruct (key_eqb k0 k).
    + constructor; [|done]. split; [done|]. simpl. eauto.
    + constructor; [|done]. by split.
Qed.

Lemma add_host_to_inventory_flag rs inv inv' a h :
  wf_heap rs h → linked rs h → (a < length (vm_objs h))%nat →
  same_but_ansible_host inv inv' →
  (add_host_to_inventory rs true inv a h).1
  = (add_host_to_inventory rs false inv' a h).1 ∧
  match (add_host_to_inventory rs true inv a h).2,
        (add_host_to_inventory rs false inv' a h).2 with
  | Ok inv1, Ok inv1' => same_but_ansible_host inv1 inv1'
  | Raise e, Raise e' => e = e'
  | _, _ => False
  end.
Proof.
  intros Hwf Hl Ha Hsame. split; [by rewrite !add_host_to_inventory_heap|].
  pose proof (add_host_to_inventory_not_Dangling rs false inv' a h Hwf Hl Ha)
    as Hnd. revert Hnd.
  rewrite !add_host_to_inventory_unfold.
  destruct (AzureVM_lookup a rs h) as [h1 [[]|e]]; [|done].
  destruct (vm_objs h1 !! a) as [this|]; [|done].
  destruct (hash (AzureVM.name this)) as [k|]; [|done].
  destruct (AzureVM.nic this) as [n|]; [|done].
  destruct (nic_objs h1 !! n) as [nic|]; [|done].
  destruct (AzureNIC.public_ip nic) as [p|]; simpl.
  - destruct (ip_objs h1 !! p) as [ipo|]; simpl; [|done].
    intros _. by apply same_but_ansible_host_set.
  - intros _. by apply same_but_ansible_host_set.
Qed.

Lemma inventory_loop_flag rs hosts ids inv inv' h :
  wf_heap rs h → linked rs h → in_store ClsAzureVM h hosts →
  same_but_ansible_host inv inv' →
  (inventory_loop rs true hosts ids inv h).1
  = (inventory_loop rs false hosts ids inv' h).1 ∧
  match (inventory_loop rs true hosts ids inv h).2,
        (inventory_loop rs false hosts ids inv' h).2 with
  | Ok inv1, Ok inv1' => same_but_ansible_host inv1 inv1'
  | Raise e, Raise e' => e = e'
  | _, _ => False
  end.
Proof.
  revert inv inv' h. induction ids as [|k ids IH];
    intros inv inv' h Hwf Hl Hhosts Hsame.
  - done.
  - rewrite !inventory_loop_cons.
    destruct (dict_get k hosts) as [a|] eqn:Hk; [|done].
    pose proof (dict_get_in_store _ _ _ _ _ Hhosts Hk) as Ha.
    destruct (add_host_to_inventory_flag rs inv inv' a h Hwf Hl Ha Hsame)
      as [Hheap Hres].
    destruct (add_host_to_inventory_linked rs true inv a h Hl) as [Hb Hl1].
    destruct (add_host_to_inventory rs true inv a h) as [h1 [inv1|e1]];
      destruct (add_host_to_inventory rs false inv' a h) as [h1' [inv1'|e1']];
      simpl in *; try done; subst h1'.
    pose proof (below_grows _ _ Hb) as Hgr.
    apply IH; [by eapply wf_heap_grows|done|by eapply in_store_grows|done].
Qed.

(** X12.  [use_private_ip] decides addresses and nothing else: with the
    flag on or off a run leaves the same store and either raises the same
    exception or returns documents with the same [all.hosts], the same
    [_meta.hostvars] keys in the same order and the same [ansible_user]
    values. *)
Theorem flag_changes_addresses_only (state : jobject) :
  (run state true).1 = (run state false).1 ∧
  match (run state true).2, (run state false).2 with
  | Ok inv, Ok inv' => same_but_ansible_host inv inv'
  | Raise e, Raise e' => e = e'
  | _, _ => False
  end.
Proof.
  rewrite !run_unfold.
  destruct (extract_resources_inv state) as (Hf & _ & Hwf).
  destruct (extract_resources state empty_heap) as [h [rs|e]]; [|done].
  simpl in Hf, Hwf. unfold inventory.
  destruct (rs !! "hosts") as [hosts|] eqn:Hhosts; [|by split].
  apply inventory_loop_flag.
  - by apply Hwf.
  - by apply fresh_linked.
  - by apply (Hwf rs eq_refl "azurerm_virtual_machine"
                (Typedef "hosts" ClsAzureVM)).
  - by split.
Qed.

(** ** Entries without instances *)

Lemma extract_loop_no_instances entries rs :
  Forall (λ res, ∃ d s, res = JDict d ∧ obj_get "type" d = Some (JStr s) ∧
                        (obj_get "instances" d = None ∨
                         ∃ v, obj_get "instances" d = Some v ∧ iter v = Ok []))
         entries →
  (∀ al g, rs !! al = Some g → g = []) →
  ∃ rs', extract_loop entries rs empty_heap = (empty_heap, Ok rs') ∧
         ∀ al g, rs' !! al = Some g → g = [].
Proof.
  intros Hall. revert rs.
  induction Hall as [|res rest (d & s & -> & Hty & Hinst) _ IH]; intros rs Hrs.
  - by exists rs.
  - rewrite extract_loop_cons. simpl. rewrite Hty, typedef_of_JStr.
    destruct (assoc s resource_types) as [td|]; [|by apply IH].
    assert (update_resource_group td rs d empty_heap
            = (empty_heap,
               Ok (<[alias td := match rs !! alias td with
                                 | Some g => g | None => [] end]> rs)))
      as ->.
    { unfold update_resource_group, add_resources_to_group. unfold_M.
      destruct Hinst as [->|(v & -> & Hiter)]; [done|].
      by rewrite Hiter. }
    apply IH. intros al g.
    destruct (decide (al = alias td)) as [->|Hne].
    + rewrite lookup_insert_eq. intros [= <-].
      destruct (rs !! alias td) eqn:E; [by eapply Hrs|done].
    + rewrite lookup_insert_ne by done. apply Hrs.
Qed.

(** X13.  A document whose entries (of whatever kind) have no [instances]
    member, or an empty one, builds no object and yields the empty
    inventory, even though the [hosts] group may exist and the [nics] group
    may not. *)
Theorem no_instances_empty_inventory
    (state : jobject) (entries : list json) (use_private_ip : bool) :
  obj_get "resources" state = Some (JList entries) →
  Forall (λ res, ∃ d s, res = JDict d ∧ obj_get "type" d = Some (JStr s) ∧
                        (obj_get "instances" d = None ∨
                         ∃ v, obj_get "instances" d = Some v ∧ iter v = Ok []))
         entries →
  run state use_private_ip = (empty_heap, Ok empty_inventory).
Proof.
  intros Hres Hall. rewrite run_unfold. unfold extract_resources.
  rewrite Hres. unfold_M. simpl.
  destruct (extract_loop_no_instances entries ∅ Hall) as (rs & -> & Hrs).
  { intros al g. by rewrite lookup_empty. }
  unfold inventory. destruct (rs !! "hosts") as [hosts|] eqn:Hhosts; [|done].
  by rewrite (Hrs _ _ Hhosts).
Qed.

Lemma no_instances_empty_inventory_witness :
  let entries :=
    [JDict [("type", JStr "azurerm_virtual_machine");
            ("instances", JList [])];
     JDict [("type", JStr "azurerm_public_ip")]] in
  run [("resources", JList entries)] true = (empty_heap, Ok empty_inventory).
Proof.
  intros entries.
  refine (no_instances_empty_inventory [("resources", JList entries)] entries
            true eq_refl _).
  repeat constructor.
  - eexists _, _. split; [reflexivity|]. split; [reflexivity|].
    right. eexists. split; reflexivity.
  - eexists _, _. split; [reflexivity|]. split; [reflexivity|].
    left. reflexivity.
Defined.

Lemma init_copies_mandatory_fields_witness :
  let resource :=
    JDict [("attributes",
            JDict [("id", JStr "p1"); ("name", JStr "ip1");
                   ("ip_address", JStr "20.1.1.1")])] in
  AzureIP.init resource
  = Ok (AzureIP.mk (JStr "p1") (JStr "ip1") (JStr "20.1.1.1")).
Proof.
  intros resource.
  apply (proj2 (proj2 init_copies_mandatory_fields)).
  eexists. repeat split; reflexivity.
Defined.

Lemma extracted_store_well_formed_witness :
  let ip :=
    JDict [("attributes",
            JDict [("id", JStr "p1"); ("name", JStr "ip1");
                   ("ip_address", JStr "20.1.1.1")])] in
  let state : jobject :=
    [("resources",
      JList [JDict [("type", JStr "azurerm_public_ip");
                    ("instances", JList [ip])]])] in
  let h := Heap [] [] [AzureIP.mk (JStr "p1") (JStr "ip1") (JStr "20.1.1.1")] in
  let rs : resources := <["public_ip" := [(KStr "p1", 0%nat)]]> ∅ in
  wf_heap rs h ∧ linked rs h.
Proof.
  intros ip state h rs.
  exact (proj1 (proj2 (extracted_store_well_formed state)) rs eq_refl).
Defined.
